(** * Shramp NFT mint page: a shallow embedding of [src/App.tsx]

    The component [App] keeps its data in React state hooks and talks to the
    wallet provider and to the deployed contract through asynchronous calls.
    The embedding below follows the last revision of the component in the
    source file: JavaScript strings are [string], BigInt values are [Z], a
    state variable of type [number] is kept as the integer it stands for,
    the conversions that make a Number out of an arbitrary integer
    ([Number(x)], [parseInt]) and the one genuinely floating-point
    expression ([progressPercent]) are evaluated on primitive binary64
    floats, and asynchronous code is written in a small
    state-and-exception monad whose store holds the React state, a log of
    observable events and a clock indexing the answers of the outside world.
    The view is embedded where it computes something (the mint button, the
    quantity controls, the connected account), and the effect of the
    component with the listener table of the wallet it registers in. *)

From Stdlib Require Import ZArith List String Ascii Bool Lia Arith.
From Stdlib Require Import Floats Uint63.
From Equations Require Import Equations.
Import ListNotations.

Local Open Scope string_scope.
Local Open Scope Z_scope.

Set Implicit Arguments.

(* ===================================================================== *)
(** * Part I: the embedding                                               *)
(* ===================================================================== *)

(** ** JavaScript strings *)

Module JsString.

(** [s.slice(0, n)] for a non-negative [n]. *)
Fixpoint take (n : nat) (s : string) : string :=
  match n, s with
  | O, _ => ""
  | S _, "" => ""
  | S n', String c s' => String c (take n' s')
  end.

Fixpoint replicate (n : nat) (c : ascii) : string :=
  match n with
  | O => ""
  | S n' => String c (replicate n' c)
  end.

(** [s.padStart(n, c)] with a one-character filler. *)
Definition padStart (n : nat) (c : ascii) (s : string) : string :=
  replicate (n - String.length s) c ++ s.

(** Case folding as done by the [i] flag of a regular expression, on the
    ASCII range. *)
Definition fold_case (c : ascii) : ascii :=
  let n := nat_of_ascii c in
  if ((65 <=? n) && (n <=? 90))%nat then ascii_of_nat (n + 32) else c.

Fixpoint prefix_ci (p s : string) : bool :=
  match p, s with
  | "", _ => true
  | String _ _, "" => false
  | String a p', String b s' =>
      Ascii.eqb (fold_case a) (fold_case b) && prefix_ci p' s'
  end.

(** [/p/i.test(s)] for a pattern [p] made of literal characters only. *)
Fixpoint test_ci (p s : string) : bool :=
  prefix_ci p s ||
  match s with
  | "" => false
  | String _ s' => test_ci p s'
  end.

(** Truthiness of a string value. *)
Definition truthy (s : string) : bool :=
  match s with "" => false | _ => true end.

(** Truthiness of a value of type [string | null | undefined]. *)
Definition truthy_opt (o : option string) : bool :=
  match o with Some s => truthy s | None => false end.

(** [a || d] where [a : string | undefined] and [d] is a string. *)
Definition or_else (a : option string) (d : string) : string :=
  match a with
  | Some s => if truthy s then s else d
  | None => d
  end.

(** [a || b] where both sides may be undefined. *)
Definition or_opt (a b : option string) : option string :=
  if truthy_opt a then a else b.

End JsString.

(** ** BigInt: conversion to and from strings *)

Module BigInt.

Definition digit_char (d : Z) : ascii := ascii_of_nat (48 + Z.to_nat d).

(** Decimal digits of a non-negative integer, most significant first,
    pushed in front of [acc]. *)
Fixpoint digits_fuel (fuel : nat) (n : Z) (acc : string) : string :=
  match fuel with
  | O => acc
  | S f =>
      let acc' := String (digit_char (n mod 10)) acc in
      if n / 10 =? 0 then acc' else digits_fuel f (n / 10) acc'
  end.

Definition digits (n : Z) : string :=
  digits_fuel (S (Z.to_nat (Z.log2 n))) n "".

(** [String(z)] and [z.toString()] for a BigInt [z]: all the decimal digits
    of [z]. *)
Definition toString (z : Z) : string :=
  if z <? 0 then String "-" (digits (- z)) else digits z.

Definition digit_value (radix : Z) (c : ascii) : option Z :=
  let n := Z.of_nat (nat_of_ascii c) in
  let d :=
    if (48 <=? n) && (n <=? 57) then n - 48
    else if (97 <=? n) && (n <=? 122) then n - 87
    else if (65 <=? n) && (n <=? 90) then n - 55
    else radix in
  if d <? radix then Some d else None.

Fixpoint parse_digits (radix : Z) (s : string) (acc : Z) : option Z :=
  match s with
  | "" => Some acc
  | String c s' =>
      match digit_value radix c with
      | Some d => parse_digits radix s' (acc * radix + d)
      | None => None
      end
  end.

(** At least one digit is required. *)
Definition parse_nonempty (radix : Z) (s : string) : option Z :=
  match s with
  | "" => None
  | _ => parse_digits radix s 0
  end.

Definition is_white (c : ascii) : bool :=
  let n := nat_of_ascii c in
  ((n =? 32) || (n =? 9) || (n =? 10) || (n =? 11) || (n =? 12) || (n =? 13))%nat.

Fixpoint trim_start (s : string) : string :=
  match s with
  | String c s' => if is_white c then trim_start s' else s
  | "" => ""
  end.

Fixpoint trim_end (s : string) : string :=
  match s with
  | "" => ""
  | String c s' =>
      match trim_end s' with
      | "" => if is_white c then "" else String c ""
      | t => String c t
      end
  end.

(** [BigInt(s)] for a string [s]: surrounding white space is dropped, the
    empty string is [0n], a [0x], [0o] or [0b] prefix selects the radix,
    a decimal literal may carry a sign; [None] is the SyntaxError. *)
Definition ofString (s : string) : option Z :=
  match trim_end (trim_start s) with
  | "" => Some 0
  | String "0" (String "x" r) | String "0" (String "X" r) => parse_nonempty 16 r
  | String "0" (String "o" r) | String "0" (String "O" r) => parse_nonempty 8 r
  | String "0" (String "b" r) | String "0" (String "B" r) => parse_nonempty 2 r
  | String "-" r => option_map Z.opp (parse_nonempty 10 r)
  | String "+" r => parse_nonempty 10 r
  | t => parse_nonempty 10 t
  end.

End BigInt.

(** ** View state projector: [formatMon] *)

(** [BigInt(1e18)]. *)
Definition WEI_PER_MON : Z := 10 ^ 18.

(** BigInt [/] and [%] truncate towards zero. *)
Definition formatMon (weiStr : string) : string :=
  match BigInt.ofString weiStr with
  | Some bn =>
      let whole := Z.quot bn WEI_PER_MON in
      let frac := Z.rem bn WEI_PER_MON in
      let fracStr := JsString.take 4 (JsString.padStart 18 "0" (BigInt.toString frac)) in
      BigInt.toString whole ++ "." ++ fracStr
  | None => "0"
  end.

(** ** Numbers: IEEE binary64

    A Number is a primitive binary64 float; [/] and [*] are the hardware
    operations, rounding to nearest with ties to even, as in JavaScript. *)

Module Number.

Definition t := float.

(** The Number nearest to an integer: the value of an integer literal, of
    [Number(z)] for a BigInt [z], and of an integer-valued state variable. *)
Definition ofZ (z : Z) : t := SF2Prim (binary_normalize prec emax z 0 false).

(** The integer a Number stands for, when it is finite and integral. *)
Definition toZ (x : t) : option Z :=
  match Prim2SF x with
  | S754_zero _ => Some 0
  | S754_finite s m e =>
      if 0 <=? e then Some (cond_Zopp s (Z.shiftl (Zpos m) e))
      else if Z.land (Zpos m) (Z.ones (- e)) =? 0
           then Some (cond_Zopp s (Z.shiftr (Zpos m) (- e)))
           else None
  | _ => None
  end.

(** [Number(z)] for a BigInt [z], given as the integer that Number stands
    for: [z] rounded to 53 significant bits, ties to even.  What a contract
    returns is a uint256, far below the largest Number; an integer past the
    largest Number gives [Infinity], which stands here as [z] itself. *)
Definition ofBigInt (z : Z) : Z :=
  match toZ (ofZ z) with
  | Some n => n
  | None => z
  end.

(** [Number.isSafeInteger(n)]: below [2^53] in absolute value.  On safe
    integers [+] and [-] are exact as long as the result is safe too. *)
Definition isSafeInteger (n : Z) : bool := (- 2 ^ 53 <? n) && (n <? 2 ^ 53).

(** The decimal that [toString] prints for a positive integer-valued Number
    [v] of [n] digits: the one with the fewest significant digits [k] among
    those that [v] is the nearest Number to, and the one nearest to [v] when
    two have that many digits.  Seventeen digits always suffice. *)
Fixpoint shortest (fuel : nat) (k n v : Z) : Z :=
  match fuel with
  | O => v
  | S f =>
      let p := 10 ^ (n - k) in
      let lo := v / p * p in
      let hi := lo + p in
      match ofBigInt lo =? v, ofBigInt hi =? v with
      | true, true =>
          if v - lo <? hi - v then lo
          else if hi - v <? v - lo then hi
          else if Z.even (v / p) then lo else hi
      | true, false => lo
      | false, true => hi
      | false, false => if k <? n then shortest f (k + 1) n v else v
      end
  end.

Fixpoint strip_zeros (s : string) : string :=
  match s with
  | "" => ""
  | String c s' =>
      match strip_zeros s' with
      | "" => if Ascii.eqb c "0" then "" else String c ""
      | t => String c t
      end
  end.

(** The digits of a decimal [d >= 10^21] in exponent notation. *)
Definition exponential (d : Z) : string :=
  let ds := BigInt.digits d in
  let e := Z.of_nat (String.length ds) - 1 in
  match strip_zeros ds with
  | String c "" => String c ("e+" ++ BigInt.digits e)
  | String c frac => String c ("." ++ frac ++ "e+" ++ BigInt.digits e)
  | "" => "0"
  end.

Definition toString_pos (v : Z) : string :=
  if v <? 2 ^ 53 then BigInt.digits v
  else
    let d := shortest 17 1 (Z.of_nat (String.length (BigInt.digits v))) v in
    if d <? 10 ^ 21 then BigInt.digits d else exponential d.

(** [String(v)] and [v] in a template literal, for an integer-valued Number
    [v]: a safe integer prints as its decimal digits; past [2^53] the
    shortest decimal that reads back as [v] is printed, with zeros in the
    places it leaves out, and from [10^21] on in exponent notation. *)
Definition toString (v : Z) : string :=
  if v <? 0 then String "-" (toString_pos (- v)) else toString_pos v.

(** [Math.round(x)]: [x] itself when it is not finite or already integral,
    otherwise the integer [floor(x + 1/2)], computed exactly on the
    mantissa ([x] is [+-m * 2^e] with [e < 0]); a zero result keeps the
    sign of [x]. *)
Definition round (x : t) : t :=
  match Prim2SF x with
  | S754_finite s m e =>
      if 0 <=? e then x
      else
        let n := Z.shiftr (2 * cond_Zopp s (Zpos m) + Z.shiftl 1 (- e)) (- e + 1) in
        if n =? 0 then SF2Prim (S754_zero s) else ofZ n
  | _ => x
  end.

(** [Math.min(x, y)]: NaN if either argument is NaN, and -0 below +0. *)
Definition min (x y : t) : t :=
  match PrimFloat.compare x y with
  | FNotComparable => nan
  | FLt => x
  | FGt => y
  | FEq => match classify y with NZero => y | _ => x end
  end.

End Number.

(** ** View state projector: [progressPercent] *)

Definition progressPercent (totalSupply maxSupply : Number.t) : Number.t :=
  Number.min 100%float (Number.round ((totalSupply / maxSupply) * 100)%float).

(** ** Errors, results and the outside world *)

(** A thrown value, seen through the three properties the handlers read. *)
Record JsError : Type := mkError {
  code : option Z;
  shortMessage : option string;
  message : option string
}.

Inductive result (A : Type) : Type :=
| Ok (a : A)
| Throw (e : JsError).
Arguments Ok {A} a.
Arguments Throw {A} e.

(** The parameter of [wallet_addEthereumChain]. *)
Record AddEthereumChainParameter : Type := mkChain {
  chainId : string;
  chainName : string;
  nativeCurrency : string * string * Z;   (* name, symbol, decimals *)
  rpcUrls : list string;
  blockExplorerUrls : list string
}.

(** Every asynchronous request the component sends: to the wallet through
    [provider.send], to the signer, to the contract's read methods, and to
    its [mint] function (dry run, gas estimate, transaction, receipt). *)
Inductive Request : Type :=
| eth_chainId
| wallet_switchEthereumChain (chain : string)
| wallet_addEthereumChain (p : AddEthereumChainParameter)
| eth_requestAccounts
| getSigner
| call_totalSupply
| call_maxSupply
| call_mintPrice
| call_maxPerWallet
| call_mintedCount (owner : string)
| call_balanceOf (owner : string)
| mint_staticCall (quantity value : Z)
| mint_estimateGas (quantity value : Z)
| mint_send (quantity value : Z)
| tx_wait.

(** The type of the value a request resolves to. *)
Definition Response (r : Request) : Type :=
  match r with
  | eth_chainId => string
  | eth_requestAccounts => list string
  | call_totalSupply | call_maxSupply | call_mintPrice | call_maxPerWallet
  | call_mintedCount _ | call_balanceOf _ => Z
  | _ => unit
  end.

(** The environment of the page: whether a wallet is injected, the build
    configuration, and how the [n]-th request gets answered. *)
Record World : Type := mkWorld {
  ethereum : bool;                          (* window.ethereum *)
  CONTRACT_ADDRESS : option string;         (* VITE_CONTRACT_ADDRESS *)
  VITE_MONAD_RPC_URL : option string;
  answer : nat -> forall r : Request, result (Response r)
}.

(** ** React state of [App]

    A state variable of type [number] holds an integer and is kept as that
    integer.  Where a Number is made from an arbitrary integer the embedding
    rounds ([Number.ofBigInt], [parseInt]), and where one is printed it
    prints as JavaScript does ([Number.toString]).  Sums and differences of
    state variables are written on the integers: they are what binary64
    computes as long as the operands and the result are safe integers, and
    [safeState] names the states in which every number of the page is
    one. *)

Record State : Type := mkState {
  account : option string;
  minting : bool;
  totalSupply : Z;
  maxSupply : Z;
  mintPriceWei : string;
  status : string;
  mintQuantity : Z;
  userMintedCount : Z;
  contractMaxPerWallet : Z
}.

Definition initialState : State :=
  {| account := None; minting := false; totalSupply := 0; maxSupply := 500;
     mintPriceWei := "0"; status := ""; mintQuantity := 1;
     userMintedCount := 0; contractMaxPerWallet := 2 |}.

(** A counter read from the contract that is a safe integer. *)
Definition safeCount (n : Z) : bool := (0 <=? n) && (n <? 2 ^ 53).

(** Every number of the page is a safe integer, and the counters are not
    negative. *)
Definition safeState (s : State) : bool :=
  safeCount (totalSupply s) && safeCount (maxSupply s)
  && safeCount (userMintedCount s) && safeCount (contractMaxPerWallet s)
  && Number.isSafeInteger (mintQuantity s).

Definition safeP (st : State) : Prop := safeState st = true.

(** The counter a contract read returns; the price is no counter, it is
    never turned into a Number. *)
Definition countOf (r : Request) : Response r -> option Z :=
  match r as r0 return Response r0 -> option Z with
  | call_totalSupply | call_maxSupply | call_maxPerWallet
  | call_mintedCount _ | call_balanceOf _ => fun v => Some v
  | _ => fun _ => None
  end.

(** A contract all of whose counters are safe integers, whenever they are
    read. *)
Definition safeContract (w : World) : Prop :=
  forall (n : nat) (r : Request) (v : Response r) (k : Z),
    answer w n r = Ok v -> countOf r v = Some k -> safeCount k = true.

Inductive Field : Type :=
| fAccount | fMinting | fTotalSupply | fMaxSupply | fMintPriceWei | fStatus
| fMintQuantity | fUserMintedCount | fContractMaxPerWallet.

Inductive Level : Type := Log | Warn | Error.

(** What an observer of the page can see happen, in order. *)
Inductive Event : Type :=
| Call (r : Request)
| Alert (msg : string)
| Console (l : Level) (tag : string)
| Timeout (ms : Z)
| SetState (f : Field).

Record Store : Type := mkStore {
  react : State;
  trace : list Event;
  clock : nat             (* number of requests sent so far *)
}.

(** ** The monad of asynchronous handlers *)

Definition M (A : Type) : Type := Store -> result A * Store.

Definition ret {A} (a : A) : M A := fun s => (Ok a, s).

Definition bind {A B} (m : M A) (k : A -> M B) : M B :=
  fun s =>
    match m s with
    | (Ok a, s') => k a s'
    | (Throw e, s') => (Throw e, s')
    end.

Definition throw {A} (e : JsError) : M A := fun s => (Throw e, s).

(** [try { m } catch (e) { h e }] *)
Definition try_catch {A} (m : M A) (h : JsError -> M A) : M A :=
  fun s =>
    match m s with
    | (Ok a, s') => (Ok a, s')
    | (Throw e, s') => h e s'
    end.

(** [try { m } finally { f }] for a block [f] that does not throw. *)
Definition finally {A} (m : M A) (f : M unit) : M A :=
  fun s =>
    match m s with
    | (r, s') => (r, snd (f s'))
    end.

Declare Scope js_scope.
Delimit Scope js_scope with js.
Notation "x <- m ;; k" := (bind m (fun x => k))
  (at level 61, m at next level, right associativity) : js_scope.
Notation "m ;; k" := (bind m (fun _ => k))
  (at level 61, right associativity) : js_scope.
Local Open Scope js_scope.

Definition emit (e : Event) : M unit :=
  fun s => (Ok tt, {| react := react s; trace := trace s ++ [e]; clock := clock s |}).

(** [await] of a request: it is logged, the clock advances, and the world's
    answer is the value or the rejection. *)
Definition perform (w : World) (r : Request) : M (Response r) :=
  fun s =>
    (answer w (clock s) r,
     {| react := react s; trace := trace s ++ [Call r]; clock := S (clock s) |}).

Definition alert (msg : string) : M unit := emit (Alert msg).
Definition console (l : Level) (tag : string) : M unit := emit (Console l tag).

(** [await new Promise((res) => setTimeout(res, ms))] *)
Definition sleep (ms : Z) : M unit := emit (Timeout ms).

Definition update (f : Field) (g : State -> State) : M unit :=
  fun s => (Ok tt, {| react := g (react s); trace := trace s ++ [SetState f]; clock := clock s |}).

Definition setAccount (v : option string) : M unit :=
  update fAccount (fun s =>
    mkState v (minting s) (totalSupply s) (maxSupply s) (mintPriceWei s) (status s)
            (mintQuantity s) (userMintedCount s) (contractMaxPerWallet s)).
Definition setMinting (v : bool) : M unit :=
  update fMinting (fun s =>
    mkState (account s) v (totalSupply s) (maxSupply s) (mintPriceWei s) (status s)
            (mintQuantity s) (userMintedCount s) (contractMaxPerWallet s)).
Definition setTotalSupply (v : Z) : M unit :=
  update fTotalSupply (fun s =>
    mkState (account s) (minting s) v (maxSupply s) (mintPriceWei s) (status s)
            (mintQuantity s) (userMintedCount s) (contractMaxPerWallet s)).
Definition setMaxSupply (v : Z) : M unit :=
  update fMaxSupply (fun s =>
    mkState (account s) (minting s) (totalSupply s) v (mintPriceWei s) (status s)
            (mintQuantity s) (userMintedCount s) (contractMaxPerWallet s)).
Definition setMintPriceWei (v : string) : M unit :=
  update fMintPriceWei (fun s =>
    mkState (account s) (minting s) (totalSupply s) (maxSupply s) v (status s)
            (mintQuantity s) (userMintedCount s) (contractMaxPerWallet s)).
Definition setStatus (v : string) : M unit :=
  update fStatus (fun s =>
    mkState (account s) (minting s) (totalSupply s) (maxSupply s) (mintPriceWei s) v
            (mintQuantity s) (userMintedCount s) (contractMaxPerWallet s)).
Definition withMintQuantity (v : Z) (s : State) : State :=
  mkState (account s) (minting s) (totalSupply s) (maxSupply s) (mintPriceWei s) (status s)
          v (userMintedCount s) (contractMaxPerWallet s).
Definition setUserMintedCount (v : Z) : M unit :=
  update fUserMintedCount (fun s =>
    mkState (account s) (minting s) (totalSupply s) (maxSupply s) (mintPriceWei s) (status s)
            (mintQuantity s) v (contractMaxPerWallet s)).
Definition setContractMaxPerWallet (v : Z) : M unit :=
  update fContractMaxPerWallet (fun s =>
    mkState (account s) (minting s) (totalSupply s) (maxSupply s) (mintPriceWei s) (status s)
            (mintQuantity s) (userMintedCount s) v).

(** ** Chain reader: [getContract] and [refreshContractData] *)

Definition getContract (w : World) : M unit :=
  if JsString.truthy_opt (CONTRACT_ADDRESS w) then ret tt
  else throw (mkError None None
                (Some "VITE_CONTRACT_ADDRESS is not set. Configure it in your Vercel env.")).

(** [account] is the value captured by [useCallback(..., [account])].  The
    contract's counters are read as BigInt and turned into Numbers by
    [Number(x)]; the price stays a BigInt and is stored as its decimal
    digits. *)
Definition refreshContractData (w : World) (account : option string) : M unit :=
  if negb (ethereum w) then ret tt
  else
    try_catch
      (getContract w ;;
       supply <- perform w call_totalSupply ;;
       max <- perform w call_maxSupply ;;
       price <- perform w call_mintPrice ;;
       maxPerWallet <- perform w call_maxPerWallet ;;
       setTotalSupply (Number.ofBigInt supply) ;;
       setMaxSupply (Z.min (Number.ofBigInt max) 500) ;;
       setMintPriceWei (BigInt.toString price) ;;
       setContractMaxPerWallet (Number.ofBigInt maxPerWallet) ;;
       console Log "Contract values - maxPerWallet:" ;;
       match account with
       | Some a =>
           if JsString.truthy a then
             try_catch
               (minted <- perform w (call_mintedCount a) ;;
                console Log "User minted count from contract:" ;;
                setUserMintedCount (Number.ofBigInt minted))
               (fun mcErr =>
                  try_catch
                    (bal <- perform w (call_balanceOf a) ;;
                     console Log "Fallback balanceOf as minted count:" ;;
                     setUserMintedCount (Number.ofBigInt bal))
                    (fun balErr =>
                       console Warn "Failed to read user minted count" ;;
                       setUserMintedCount 0))
           else ret tt
       | None => ret tt
       end)
      (fun e => console Error "refreshContractData err").

(** ** Network guarantor: [ensureMonadNetwork] *)

Definition targetChainIdHex : string := "0x279F".

Definition monadTestnet (w : World) : AddEthereumChainParameter :=
  {| chainId := targetChainIdHex;
     chainName := "Monad Testnet";
     nativeCurrency := ("MON", "MON", 18);
     rpcUrls := [JsString.or_else (VITE_MONAD_RPC_URL w) "https://testnet-rpc.monad.xyz"];
     blockExplorerUrls := ["https://testnet.monadexplorer.com"] |}.

(** [err?.code === 4902 || (typeof err?.message === "string" &&
    /Unrecognized chain ID/i.test(err.message))] *)
Definition unrecognizedChain (err : JsError) : bool :=
  match code err with Some c => c =? 4902 | None => false end
  || match message err with
     | Some m => JsString.test_ci "Unrecognized chain ID" m
     | None => false
     end.

Definition ensureMonadNetwork (w : World) : M unit :=
  try_catch
    (current <- perform w eth_chainId ;;
     if negb (String.eqb current targetChainIdHex) then
       try_catch
         (perform w (wallet_switchEthereumChain targetChainIdHex))
         (fun switchErr =>
            if unrecognizedChain switchErr
            then perform w (wallet_addEthereumChain (monadTestnet w))
            else throw switchErr)
     else ret tt)
    (fun e => console Error "ensureMonadNetwork error" ;; throw e).

(** ** Wallet session: [connectWallet]

    [c] is the state of the render whose closure runs: the refresh at the
    end still sees the account of that render. *)
Definition connectWallet (w : World) (c : State) : M unit :=
  if negb (ethereum w) then alert "Install MetaMask"
  else
    try_catch
      (ensureMonadNetwork w ;;
       accounts <- perform w eth_requestAccounts ;;
       setAccount (hd_error accounts) ;;
       setStatus "Wallet connected" ;;
       refreshContractData w (account c))
      (fun e => console Error "" ;; setStatus "Failed to connect wallet").

(** The [accountsChanged] listener registered by the effect of a render in
    state [c]: it stores [accounts[0] || null] and, from a zero-delay timer,
    calls the [refreshContractData] of that render. *)
Definition onAccountsChanged (w : World) (c : State) (accounts : list string) : M unit :=
  setAccount (match hd_error accounts with
              | Some a => if JsString.truthy a then Some a else None
              | None => None
              end) ;;
  sleep 0 ;;
  refreshContractData w (account c).

(** ** Mint orchestrator: [mintNFT] and [attemptMint] *)

(** [/missing revert data|CALL_EXCEPTION|estimateGas/i.test(msg)] *)
Definition benignSimFailure (msg : string) : bool :=
  JsString.test_ci "missing revert data" msg
  || JsString.test_ci "CALL_EXCEPTION" msg
  || JsString.test_ci "estimateGas" msg.

(** [rpcErr?.code === -32603 && typeof rpcErr?.message === "string" &&
    /rate limit|rate limited|Request is being rate limited/i.test(rpcErr.message)] *)
Definition isRateLimited (rpcErr : JsError) : bool :=
  match code rpcErr with Some c => c =? -32603 | None => false end
  && match message rpcErr with
     | Some m => JsString.test_ci "rate limit" m
                 || JsString.test_ci "rate limited" m
                 || JsString.test_ci "Request is being rate limited" m
     | None => false
     end.

(** The message inspected when the dry run fails:
    [se?.shortMessage || se?.message || "Simulation failed"]. *)
Definition simulationMessage (simErr : JsError) : string :=
  JsString.or_else (JsString.or_opt (shortMessage simErr) (message simErr))
                   "Simulation failed".

(** The [try] block of [attemptMint]. *)
Definition submitMint (w : World) (c : State) (totalPrice : Z) : M unit :=
  perform w (mint_send (mintQuantity c) totalPrice) ;;
  setStatus "Waiting for confirmation..." ;;
  perform w tx_wait ;;
  setStatus ("Minted " ++ Number.toString (mintQuantity c) ++ " NFT"
             ++ (if mintQuantity c >? 1 then "s" else "") ++ "!") ;;
  refreshContractData w (account c).

(** [500 * Math.pow(2, attempt)] *)
Definition delayMs (attempt : nat) : Z := 500 * 2 ^ Z.of_nat attempt.

(** The status shows [Math.round(delayMs / 1000)]; the quotient is a whole
    number or a half, so the rounding is [floor (d + 500) / 1000]. *)
Definition backoff (attempt : nat) : M unit :=
  setStatus ("RPC rate limited, retrying in "
             ++ BigInt.toString ((delayMs attempt + 500) / 1000) ++ "s...") ;;
  sleep (delayMs attempt).

Equations? attemptMint (w : World) (c : State) (totalPrice : Z) (attempt : nat)
  (s : Store) : result unit * Store by wf (3 - attempt)%nat lt :=
attemptMint w c totalPrice attempt s with submitMint w c totalPrice s => {
  | (Ok u, s') => (Ok u, s');
  | (Throw err, s') with bool_dec (isRateLimited err && (attempt <? 3)%nat) true => {
      | left _ => attemptMint w c totalPrice (S attempt) (snd (backoff attempt s'));
      | right _ => (Throw err, s') } }.
Proof.
  apply andb_prop in e as [_ Hlt]. apply Nat.ltb_lt in Hlt.
  destruct attempt as [|[|[|n]]]; lia.
Qed.

(** The two local constants of [mintNFT]. *)
Definition remainingAllowance (c : State) : Z :=
  Z.max 0 (contractMaxPerWallet c - userMintedCount c).
Definition remainingSupply (c : State) : Z :=
  Z.max 0 (maxSupply c - totalSupply c).

(** The dry run and the gas estimate, with the handler that lets a benign
    failure through. *)
Definition simulate (w : World) (c : State) (totalPrice : Z) : M unit :=
  try_catch
    (perform w (mint_staticCall (mintQuantity c) totalPrice) ;;
     perform w (mint_estimateGas (mintQuantity c) totalPrice))
    (fun simErr =>
       let msg := simulationMessage simErr in
       if benignSimFailure msg then
         console Warn "Simulation failed, proceeding to send:" ;;
         setStatus "Simulation unavailable, submitting transaction..."
       else
         setStatus msg ;; throw simErr).

(** The outer [catch] of [mintNFT]. *)
Definition mintFailed (e : JsError) : M unit :=
  console Error "" ;;
  setStatus (JsString.or_else (message e) "Mint failed").

(** [c] is the state of the render whose [mintNFT] closure the button runs. *)
Definition mintNFT (w : World) (c : State) : M unit :=
  if negb (ethereum w) then alert "Install MetaMask"
  else
    let remainingAllowance := remainingAllowance c in
    let remainingSupply := remainingSupply c in
    if remainingAllowance <=? 0 then setStatus "Max per wallet reached"
    else if (mintQuantity c <? 1) || (mintQuantity c >? remainingAllowance)
    then alert ("Quantity must be 1-" ++ Number.toString remainingAllowance)
    else if mintQuantity c >? remainingSupply
    then alert ("Only " ++ Number.toString remainingSupply ++ " left in supply")
    else
      console Log "Mint attempt - userMintedCount:" ;;
      if userMintedCount c + mintQuantity c >? contractMaxPerWallet c
      then alert ("You can only mint " ++ Number.toString remainingAllowance ++ " more NFT"
                  ++ (if remainingAllowance =? 1 then "" else "s")
                  ++ ". You've already minted " ++ Number.toString (userMintedCount c) ++ ".")
      else
        setMinting true ;;
        setStatus "Preparing transaction..." ;;
        finally
          (try_catch
             (perform w getSigner ;;
              getContract w ;;
              price <- perform w call_mintPrice ;;
              let totalPrice := price * mintQuantity c in
              simulate w c totalPrice ;;
              attemptMint w c totalPrice 0)
             mintFailed)
          (setMinting false).

(** ** Quantity controls *)

(** [parseInt(s)]: leading white space, a sign, a [0x] prefix, then the
    longest run of digits; the result is the Number nearest to the integer
    these digits write, with the sign in front.  [None] is NaN.  Digits that
    write an integer past the largest Number give [Infinity], which stands
    here as that integer. *)
Fixpoint parse_prefix (radix : Z) (s : string) (acc : option Z) : option Z :=
  match s with
  | "" => acc
  | String ch s' =>
      match BigInt.digit_value radix ch with
      | Some d => parse_prefix radix s' (Some (match acc with Some a => a | None => 0 end * radix + d))
      | None => acc
      end
  end.

Definition parseInt (s : string) : option Z :=
  let unsigned (t : string) :=
    option_map Number.ofBigInt
      match t with
      | String "0" (String "x" r) | String "0" (String "X" r) => parse_prefix 16 r None
      | _ => parse_prefix 10 t None
      end in
  match BigInt.trim_start s with
  | String "-" t => option_map Z.opp (unsigned t)
  | String "+" t => unsigned t
  | t => unsigned t
  end.

(** [Math.min(contractMaxPerWallet, contractMaxPerWallet - userMintedCount)] *)
Definition maxAllowed (s : State) : Z :=
  Z.min (contractMaxPerWallet s) (contractMaxPerWallet s - userMintedCount s).

(** The [-] button.  [mintQuantity - 1] and, below, [mintQuantity + 1] and
    [contractMaxPerWallet - userMintedCount] are exact in a [safeState]. *)
Definition onDecrement (s : State) : State :=
  withMintQuantity (Z.max 1 (mintQuantity s - 1)) s.
Definition decrementDisabled (s : State) : bool := mintQuantity s <=? 1.

(** The [+] button. *)
Definition onIncrement (s : State) : State :=
  withMintQuantity
    (Z.min (contractMaxPerWallet s)
           (Z.min (contractMaxPerWallet s - userMintedCount s) (mintQuantity s + 1))) s.
Definition incrementDisabled (s : State) : bool := mintQuantity s >=? maxAllowed s.

(** The number input; [value] is [e.target.value]. *)
Definition onChange (value : string) (s : State) : State :=
  let val := match parseInt value with
             | Some 0 | None => 1       (* parseInt(...) || 1 *)
             | Some n => n
             end in
  withMintQuantity (Z.min (maxAllowed s) (Z.max 1 val)) s.



(** ** Vocabulary of the statements *)

Definition is_call (e : Event) : bool :=
  match e with Call _ => true | _ => false end.

Definition is_write (e : Event) : bool :=
  match e with SetState _ => true | _ => false end.

Definition writes (f : Field) (e : Event) : bool :=
  match e, f with
  | SetState fAccount, fAccount | SetState fMinting, fMinting
  | SetState fTotalSupply, fTotalSupply | SetState fMaxSupply, fMaxSupply
  | SetState fMintPriceWei, fMintPriceWei | SetState fStatus, fStatus
  | SetState fMintQuantity, fMintQuantity
  | SetState fUserMintedCount, fUserMintedCount
  | SetState fContractMaxPerWallet, fContractMaxPerWallet => true
  | _, _ => false
  end.

(** The two requests [ensureMonadNetwork] may send after reading the chain. *)
Definition switchRequest : Request := wallet_switchEthereumChain targetChainIdHex.
Definition addRequest (w : World) : Request := wallet_addEthereumChain (monadTestnet w).

(** The transaction [attemptMint] sends, again at every attempt. *)
Definition sendRequest (c : State) (totalPrice : Z) : Request :=
  mint_send (mintQuantity c) totalPrice.

(** [mintNFT] lets the quantity through its checks. *)
Definition quantityAccepted (c : State) : bool :=
  negb (remainingAllowance c <=? 0)
  && negb ((mintQuantity c <? 1) || (mintQuantity c >? remainingAllowance c))
  && negb (mintQuantity c >? remainingSupply c)
  && negb (userMintedCount c + mintQuantity c >? contractMaxPerWallet c).

(** The store when [mintNFT] has let the quantity through, set the minting
    flag, obtained the signer and read the price. *)
Definition prepared (s : Store) : Store :=
  {| react := mkState (account (react s)) true (totalSupply (react s)) (maxSupply (react s))
                (mintPriceWei (react s)) "Preparing transaction..."
                (mintQuantity (react s)) (userMintedCount (react s))
                (contractMaxPerWallet (react s));
     trace := trace s ++ [Console Log "Mint attempt - userMintedCount:";
                          SetState fMinting; SetState fStatus;
                          Call getSigner; Call call_mintPrice];
     clock := 2 + clock s |}.

(** The dry run, or the gas estimate after it, is rejected with [simErr];
    [n] is the clock when the dry run is sent. *)
Definition simulationFails (w : World) (c : State) (totalPrice : Z) (n : nat)
  (simErr : JsError) : Prop :=
  answer w n (mint_staticCall (mintQuantity c) totalPrice) = Throw simErr \/
  (answer w n (mint_staticCall (mintQuantity c) totalPrice) = Ok tt /\
   answer w (S n) (mint_estimateGas (mintQuantity c) totalPrice) = Throw simErr).

(** Two states that differ at most in [status]. *)
Definition same_but_status (a b : State) : Prop :=
  account a = account b /\ minting a = minting b /\
  totalSupply a = totalSupply b /\ maxSupply a = maxSupply b /\
  mintPriceWei a = mintPriceWei b /\ mintQuantity a = mintQuantity b /\
  userMintedCount a = userMintedCount b /\
  contractMaxPerWallet a = contractMaxPerWallet b.

Definition is_requestAccounts (e : Event) : bool :=
  match e with Call eth_requestAccounts => true | _ => false end.

(** The events logged between two stores of one run. *)
Definition events_since (s s' : Store) : list Event :=
  skipn (List.length (trace s)) (trace s').

Definition is_submission (e : Event) : bool :=
  match e with Call (mint_send _ _) => true | _ => false end.

(** How many times the mint transaction was sent. *)
Definition submissions (tr : list Event) : nat :=
  List.length (filter is_submission tr).

(** The waits, in order. *)
Fixpoint timeouts (tr : list Event) : list Z :=
  match tr with
  | [] => []
  | Timeout ms :: tr' => ms :: timeouts tr'
  | _ :: tr' => timeouts tr'
  end.

(** The [k] low decimal digits of [n], most significant first. *)
Fixpoint fixed_digits (k : nat) (n : Z) : string :=
  match k with
  | O => ""
  | S k' => fixed_digits k' (n / 10) ++ String (BigInt.digit_char (n mod 10)) ""
  end.

Definition is_digit (c : ascii) : bool :=
  ((48 <=? nat_of_ascii c) && (nat_of_ascii c <=? 57))%nat.

Fixpoint all_digits (s : string) : bool :=
  match s with
  | "" => true
  | String c s' => is_digit c && all_digits s'
  end.






(** The percentage of a state of the page. *)
Definition progressPercentOf (s : State) : Number.t :=
  progressPercent (Number.ofZ (totalSupply s)) (Number.ofZ (maxSupply s)).

(** ** Numbers by their value

    A finite Number [m * 2^e] is compared with an integer through
    [m * 2^(e + scale)], which is an integer for every exponent a binary64
    operation meets. *)

Definition scale : Z := 4000.

Definition weight (m e : Z) : Z := m * 2 ^ (e + scale).

(** [+Infinity], or a positive finite Number worth at least the integer
    [b]. *)
Definition at_least (b : Z) (x : spec_float) : Prop :=
  match x with
  | S754_infinity false => True
  | S754_finite false m e => -1074 <= e /\ weight b 0 <= weight (Zpos m) e
  | _ => False
  end.

(** ** Sample worlds *)

Module Sample.

Definition alice : string := "0xA11CE00000000000000000000000000000000001".

(** A wallet on the right chain and a contract that answers every read. *)
Definition calm (n : nat) (r : Request) : result (Response r) :=
  match r as r0 return result (Response r0) with
  | eth_chainId => Ok targetChainIdHex
  | eth_requestAccounts => Ok [alice]
  | call_totalSupply => Ok 3
  | call_maxSupply => Ok 1000
  | call_mintPrice => Ok (10 ^ 18)
  | call_maxPerWallet => Ok 2
  | call_mintedCount _ => Ok 1
  | call_balanceOf _ => Ok 1
  | _ => Ok tt
  end.

Definition rateLimited : JsError :=
  mkError (Some (-32603)) None (Some "Request is being rate limited").

(** Every submission of the mint transaction is rate limited. *)
Definition throttled (n : nat) (r : Request) : result (Response r) :=
  match r as r0 return result (Response r0) with
  | mint_send _ _ => Throw rateLimited
  | r0 => calm n r0
  end.

(** The [maxSupply] read fails. *)
Definition flaky (n : nat) (r : Request) : result (Response r) :=
  match r as r0 return result (Response r0) with
  | call_maxSupply => Throw (mkError None None (Some "network error"))
  | r0 => calm n r0
  end.

(** A contract without [mintedCount]. *)
Definition plain721 (n : nat) (r : Request) : result (Response r) :=
  match r as r0 return result (Response r0) with
  | call_mintedCount _ => Throw (mkError None (Some "no matching fragment") None)
  | call_balanceOf _ => Ok 2
  | r0 => calm n r0
  end.

(** A contract on which the account has minted more than a Number can
    count one by one. *)
Definition whale (n : nat) (r : Request) : result (Response r) :=
  match r as r0 return result (Response r0) with
  | call_mintedCount _ => Ok (2 ^ 53 + 1)
  | r0 => calm n r0
  end.

(** A wallet on another chain that does not know the target chain. *)
Definition elsewhere (n : nat) (r : Request) : result (Response r) :=
  match r as r0 return result (Response r0) with
  | eth_chainId => Ok "0x1"
  | wallet_switchEthereumChain _ =>
      Throw (mkError (Some 4902) None (Some "Unrecognized chain ID 0x279F"))
  | r0 => calm n r0
  end.

(** A wallet on another chain whose user refuses the switch. *)
Definition refused (n : nat) (r : Request) : result (Response r) :=
  match r as r0 return result (Response r0) with
  | eth_chainId => Ok "0x1"
  | wallet_switchEthereumChain _ =>
      Throw (mkError (Some 4001) None (Some "User rejected the request."))
  | r0 => calm n r0
  end.

(** The dry run reverts with a reason. *)
Definition saleClosed : JsError :=
  mkError None (Some "execution reverted: Sale not active")
    (Some "execution reverted: Sale not active (action=call, data=0x08c379a0, reason=Sale not active, code=CALL_EXCEPTION, version=6.13.0)").

Definition reverting (n : nat) (r : Request) : result (Response r) :=
  match r as r0 return result (Response r0) with
  | mint_staticCall _ _ => Throw saleClosed
  | r0 => calm n r0
  end.

Definition world (a : nat -> forall r : Request, result (Response r)) : World :=
  {| ethereum := true; CONTRACT_ADDRESS := Some "0xC0FFEE"; VITE_MONAD_RPC_URL := None;
     answer := a |}.

Definition fresh (st : State) : Store := {| react := st; trace := []; clock := 0 |}.

(** Alice connected, nothing minted yet. *)
Definition connected : State :=
  {| account := Some alice; minting := false; totalSupply := 3; maxSupply := 500;
     mintPriceWei := "1000000000000000000"; status := ""; mintQuantity := 1;
     userMintedCount := 0; contractMaxPerWallet := 2 |}.

(** Alice connected with her allowance used up. *)
Definition exhausted : State :=
  {| account := Some alice; minting := false; totalSupply := 3; maxSupply := 500;
     mintPriceWei := "1000000000000000000"; status := ""; mintQuantity := 1;
     userMintedCount := 2; contractMaxPerWallet := 2 |}.

End Sample.

(** ** The page as a whole *)

(** The store of a page that has just been loaded. *)
Definition pageLoad : Store := {| react := initialState; trace := []; clock := 0 |}.

(** Something that happens to the page.  [c] is the state of the render
    that created the closure which runs; the quantity controls are
    synchronous and work on the state they are rendered from. *)
Inductive Action : Type :=
| Mount (c : State)
| ClickConnect (c : State)
| ClickMint (c : State)
| AccountsChanged (c : State) (accounts : list string)
| ClickDecrement
| ClickIncrement
| TypeQuantity (value : string).

Definition handle (w : World) (a : Action) : M unit :=
  match a with
  | Mount c => refreshContractData w (account c)
  | ClickConnect c => connectWallet w c
  | ClickMint c => mintNFT w c
  | AccountsChanged c accounts => onAccountsChanged w c accounts
  | ClickDecrement => update fMintQuantity onDecrement
  | ClickIncrement => update fMintQuantity onIncrement
  | TypeQuantity value => update fMintQuantity (onChange value)
  end.

(** The store after a sequence of actions, each handler running to its end. *)
Definition after (w : World) (actions : list Action) (s : Store) : Store :=
  fold_left (fun s0 a => snd (handle w a s0)) actions s.

(** ** Footprints *)

(** A handler stays within [okE] and [R]: from any store, the events it
    adds to the log all satisfy [okE], and the state it leaves is related
    by [R] to the state it found. *)
Definition within (okE : Event -> bool) (R : State -> State -> Prop)
  (A : Type) (m : M A) : Prop :=
  forall s,
    R (react s) (react (snd (m s))) /\
    exists evs, trace (snd (m s)) = (trace s ++ evs)%list /\ forallb okE evs = true.
Arguments within okE R {A} m.

(** The read methods of the contract. *)
Definition is_read (r : Request) : bool :=
  match r with
  | call_totalSupply | call_maxSupply | call_mintPrice | call_maxPerWallet
  | call_mintedCount _ | call_balanceOf _ => true
  | _ => false
  end.

(** What a refresh may be seen to do: read the contract, log, and write the
    five chain-derived fields. *)
Definition refreshEvent (e : Event) : bool :=
  match e with
  | Call r => is_read r
  | Console _ _ => true
  | SetState f =>
      match f with
      | fTotalSupply | fMaxSupply | fMintPriceWei | fContractMaxPerWallet
      | fUserMintedCount => true
      | _ => false
      end
  | _ => false
  end.

(** The fields that belong to the session and to the user's input. *)
Definition sessionKept (a b : State) : Prop :=
  account b = account a /\ minting b = minting a /\
  status b = status a /\ mintQuantity b = mintQuantity a.

Definition anyEvent (e : Event) : bool := true.

(** [P] is kept: a state satisfying it is followed by one that does. *)
Definition keeps (P : State -> Prop) (a b : State) : Prop := P a -> P b.

(** What the view relies on: the displayed ceiling, and a price string that
    is the rendering of a BigInt. *)
Definition displayable (st : State) : Prop :=
  maxSupply st <= 500 /\ exists price, mintPriceWei st = BigInt.toString price.

(** ** View: the mint button *)

(** The [disabled] attribute of the mint button. *)
Definition mintDisabled (s : State) : bool :=
  minting s
  || (userMintedCount s >=? contractMaxPerWallet s)
  || (contractMaxPerWallet s - userMintedCount s <=? 0).

(** The text of the mint button; [None] when [BigInt(mintPriceWei)] throws
    while the component renders. *)
Definition mintLabel (s : State) : option string :=
  if minting s then Some "Minting..."
  else if (userMintedCount s >=? contractMaxPerWallet s)
          || (contractMaxPerWallet s - userMintedCount s <=? 0)
  then Some "Max NFTs Minted"
  else
    match BigInt.ofString (mintPriceWei s) with
    | Some price =>
        Some ("Mint " ++ Number.toString (mintQuantity s) ++ " ("
              ++ formatMon (BigInt.toString (price * mintQuantity s)) ++ " MON)")
    | None => None
    end.

(** The requests [connectWallet] sends to the wallet. *)
Definition is_connection_request (r : Request) : bool :=
  match r with
  | eth_chainId | wallet_switchEthereumChain _ | wallet_addEthereumChain _
  | eth_requestAccounts => true
  | _ => false
  end.

(** What a run of [mintNFT] from a render in state [c] may be seen to do:
    any request but those of the connection, any write but to [account] and
    [mintQuantity], and of the alerts only the missing wallet and the two
    reports on the quantity. *)
Definition mintEvent (c : State) (e : Event) : bool :=
  match e with
  | Call r => negb (is_connection_request r)
  | Alert msg =>
      String.eqb msg "Install MetaMask"
      || String.eqb msg ("Quantity must be 1-" ++ Number.toString (remainingAllowance c))
      || String.eqb msg ("Only " ++ Number.toString (remainingSupply c) ++ " left in supply")
  | SetState f => match f with fAccount | fMintQuantity => false | _ => true end
  | _ => true
  end.

(** The fields [mintNFT] never writes. *)
Definition inputKept (a b : State) : Prop :=
  account b = account a /\ mintQuantity b = mintQuantity a.

(** What the network check may be seen to do: the chain read, the switch
    and the add request, and its error log. *)
Definition networkEvent (e : Event) : bool :=
  match e with
  | Call eth_chainId | Call (wallet_switchEthereumChain _)
  | Call (wallet_addEthereumChain _) => true
  | Console _ _ => true
  | _ => false
  end.

(** The state is left as found. *)
Definition untouched (a b : State) : Prop := b = a.

(** The number of requests in a log. *)
Definition requests (tr : list Event) : nat := List.length (filter is_call tr).

(** The status after a confirmed mint. *)
Definition mintedStatus (c : State) : string :=
  "Minted " ++ Number.toString (mintQuantity c) ++ " NFT"
  ++ (if mintQuantity c >? 1 then "s" else "") ++ "!".

(** The store when, after [prepared], the dry run and the gas estimate have
    both gone through. *)
Definition simulated (c : State) (totalPrice : Z) (s : Store) : Store :=
  {| react := react (prepared s);
     trace := trace (prepared s)
              ++ [Call (mint_staticCall (mintQuantity c) totalPrice);
                  Call (mint_estimateGas (mintQuantity c) totalPrice)];
     clock := 2 + clock (prepared s) |}.

(** The store when the transaction sent from [s] has been accepted and
    confirmed, and the refresh that follows is about to start. *)
Definition confirmed (c : State) (totalPrice : Z) (s : Store) : Store :=
  {| react := mkState (account (react s)) (minting (react s)) (totalSupply (react s))
                (maxSupply (react s)) (mintPriceWei (react s)) (mintedStatus c)
                (mintQuantity (react s)) (userMintedCount (react s))
                (contractMaxPerWallet (react s));
     trace := trace s ++ [Call (sendRequest c totalPrice); SetState fStatus;
                          Call tx_wait; SetState fStatus];
     clock := 2 + clock s |}.

(** The submission at clock [n] fails with [e], either when the transaction
    is sent or when its confirmation is awaited. *)
Definition submissionFails (w : World) (c : State) (totalPrice : Z) (n : nat)
  (e : JsError) : Prop :=
  answer w n (sendRequest c totalPrice) = Throw e \/
  (answer w n (sendRequest c totalPrice) = Ok tt /\ answer w (S n) tx_wait = Throw e).

(** ** More sample worlds *)

Module Scenario.

(** The RPC node is rate limited for the first two requests it gets after
    the dry run, and recovers. *)
Definition congested (n : nat) (r : Request) : result (Response r) :=
  match r as r0 return result (Response r0) with
  | mint_send _ _ => if (n <? 2)%nat then Throw Sample.rateLimited else Ok tt
  | r0 => Sample.calm n r0
  end.

(** The transaction is sent, and the node is rate limited when the receipt
    is asked for. *)
Definition lostReceipt (n : nat) (r : Request) : result (Response r) :=
  match r as r0 return result (Response r0) with
  | tx_wait => Throw Sample.rateLimited
  | r0 => Sample.calm n r0
  end.

Definition userRejected : JsError :=
  mkError (Some 4001) None (Some "user rejected action").

(** The user declines the transaction in the wallet. *)
Definition declined (n : nat) (r : Request) : result (Response r) :=
  match r as r0 return result (Response r0) with
  | mint_send _ _ => Throw userRejected
  | r0 => Sample.calm n r0
  end.

(** A collection of 1000 of which 600 are minted. *)
Definition pastCeiling (n : nat) (r : Request) : result (Response r) :=
  match r as r0 return result (Response r0) with
  | call_totalSupply => Ok 600
  | r0 => Sample.calm n r0
  end.

(** The wallet refuses to hand out a signer. *)
Definition locked (n : nat) (r : Request) : result (Response r) :=
  match r as r0 return result (Response r0) with
  | getSigner => Throw (mkError (Some 4100) None (Some "wallet is locked"))
  | r0 => Sample.calm n r0
  end.

End Scenario.

(** Everything [mintNFT] needs before it submits: a wallet, an accepted
    quantity, a configured contract, a signer, the price, and a dry run and
    gas estimate that go through. *)
Definition readyToSubmit (w : World) (c : State) (s : Store) (price : Z) : Prop :=
  ethereum w = true /\
  quantityAccepted c = true /\
  JsString.truthy_opt (CONTRACT_ADDRESS w) = true /\
  answer w (clock s) getSigner = Ok tt /\
  answer w (1 + clock s) call_mintPrice = Ok price /\
  answer w (2 + clock s) (mint_staticCall (mintQuantity c) (price * mintQuantity c)) = Ok tt /\
  answer w (3 + clock s) (mint_estimateGas (mintQuantity c) (price * mintQuantity c)) = Ok tt.

(** ** View: the connected account *)

Fixpoint drop (n : nat) (s : string) : string :=
  match n, s with
  | O, _ => s
  | S _, "" => ""
  | S n', String _ s' => drop n' s'
  end.

(** [s.slice(-n)]: the last [n] characters, or all of [s] when it is
    shorter. *)
Definition slice_last (n : nat) (s : string) : string :=
  drop (String.length s - n) s.

(** The text shown for a connected account:
    [Connected: {account.slice(0, 6)}...{account.slice(-4)}]. *)
Definition connectedLabel (account : string) : string :=
  "Connected: " ++ JsString.take 6 account ++ "..." ++ slice_last 4 account.

(** ** The wallet's event emitter and the effect of [App]

    A function value is known by the moment it was created: evaluating an
    arrow function twice gives two different functions.  The emitter keeps
    the [accountsChanged] listeners in the order they were added, each with
    the state of the render that created it; [removeListener] takes out the
    most recently added listener that is the very function it is given. *)

Record Emitter : Type := mkEmitter {
  has_on : bool;                      (* ethereum.on is defined *)
  has_removeListener : bool;          (* ethereum.removeListener is defined *)
  created : nat;                      (* function values created so far *)
  listeners : list (nat * State)
}.

Fixpoint remove_first (f : nat) (l : list (nat * State)) : list (nat * State) :=
  match l with
  | [] => []
  | x :: l' => if (fst x =? f)%nat then l' else x :: remove_first f l'
  end.

Definition removeListener (f : nat) (l : list (nat * State)) : list (nat * State) :=
  rev (remove_first f (rev l)).

(** The registration done by the effect of a render in state [c]: with a
    wallet whose [on] is defined, a new listener is created and added. *)
Definition effect (w : World) (c : State) (em : Emitter) : Emitter :=
  if ethereum w && has_on em then
    {| has_on := has_on em; has_removeListener := has_removeListener em;
       created := S (created em);
       listeners := listeners em ++ [(created em, c)] |}
  else em.

(** The cleanup returned by the effect: it creates the function [() => {}]
    and asks the emitter to remove it. *)
Definition cleanup (w : World) (em : Emitter) : Emitter :=
  if ethereum w && has_removeListener em then
    {| has_on := has_on em; has_removeListener := has_removeListener em;
       created := S (created em);
       listeners := removeListener (created em) (listeners em) |}
  else em.

(** The effect runs again at each change of [refreshContractData], that is
    of [account]: the cleanup of the previous run, then the new run. *)
Fixpoint rerun (w : World) (renders : list State) (em : Emitter) : Emitter :=
  match renders with
  | [] => em
  | c :: renders' => rerun w renders' (effect w c (cleanup w em))
  end.

(** An emitter as the page finds it: no function of the page exists yet. *)
Definition newEmitter (on_ removeListener_ : bool) : Emitter :=
  {| has_on := on_; has_removeListener := removeListener_; created := 0; listeners := [] |}.

(** Every registered listener is a function that has been created. *)
Definition well_formed (em : Emitter) : Prop :=
  Forall (fun x => (fst x < created em)%nat) (listeners em).

(** The contract and the wallet answer a request the same way whenever it
    is sent. *)
Definition steady (w : World) : Prop :=
  forall (n m : nat) (r : Request), answer w n r = answer w m r.

(** [mintNFT] fails before it comes to the simulation: no signer, no
    configured contract, or no price; [e] is what is thrown. *)
Definition preparationFails (w : World) (s : Store) (e : JsError) : Prop :=
  answer w (clock s) getSigner = Throw e \/
  (answer w (clock s) getSigner = Ok tt /\
   JsString.truthy_opt (CONTRACT_ADDRESS w) = false /\
   e = mkError None None
         (Some "VITE_CONTRACT_ADDRESS is not set. Configure it in your Vercel env.")) \/
  (answer w (clock s) getSigner = Ok tt /\
   JsString.truthy_opt (CONTRACT_ADDRESS w) = true /\
   answer w (1 + clock s) call_mintPrice = Throw e).

(** The requests that go to the [mint] function of the contract. *)
Definition is_mint_request (e : Event) : bool :=
  match e with
  | Call (mint_staticCall _ _) | Call (mint_estimateGas _ _) | Call (mint_send _ _)
  | Call tx_wait => true
  | _ => false
  end.

(** The mint button is not locked. *)
Definition unlocked (st : State) : Prop := minting st = false.

(** An event that is neither a submission of the mint transaction nor a
    wait. *)
Definition quietEvent (e : Event) : bool :=
  match e with
  | Call (mint_send _ _) => false
  | Timeout _ => false
  | _ => true
  end.

(** Any change of state. *)
Definition anyChange (a b : State) : Prop := True.

(** A handler that submits at most four times, from any store. *)
Definition bounded (A : Type) (m : M A) : Prop :=
  forall s, exists evs,
    trace (snd (m s)) = (trace s ++ evs)%list /\
    (submissions evs <= 4)%nat /\
    ((submissions evs = 0%nat /\ timeouts evs = []) \/
     exists k, (k <= 3)%nat /\ submissions evs = S k /\
               timeouts evs = firstn k [500; 1000; 2000]).
Arguments bounded {A} m.

(* ===================================================================== *)
(** * Part II: properties                                                 *)
(* ===================================================================== *)

(** ** Binary64 operations and the order of their results *)

Section Rounding.

Local Unset Implicit Arguments.

Lemma pow2_pos (e : Z) : 0 <= e -> 0 < 2 ^ e.
Proof. intros He. apply Z.pow_pos_nonneg; lia. Qed.

Lemma pow2_split (a b : Z) : 0 <= a -> 0 <= b -> 2 ^ (a + b) = 2 ^ a * 2 ^ b.
Proof. intros Ha Hb. apply Z.pow_add_r; assumption. Qed.

Lemma pow2_le (a b : Z) : 0 <= a <= b -> 2 ^ a <= 2 ^ b.
Proof. intros H. apply Z.pow_le_mono_r; lia. Qed.

Lemma digits2_pos_spec (p : positive) :
  2 ^ (Zpos (digits2_pos p) - 1) <= Zpos p < 2 ^ Zpos (digits2_pos p).
Proof.
  induction p as [p IH|p IH|]; cbn [digits2_pos].
  - rewrite Pos2Z.inj_succ.
    replace (Z.succ (Zpos (digits2_pos p)) - 1) with (Z.succ (Zpos (digits2_pos p) - 1)) by lia.
    rewrite !Z.pow_succ_r by lia. lia.
  - rewrite Pos2Z.inj_succ.
    replace (Z.succ (Zpos (digits2_pos p)) - 1) with (Z.succ (Zpos (digits2_pos p) - 1)) by lia.
    rewrite !Z.pow_succ_r by lia. lia.
  - cbn. lia.
Qed.

Lemma shr_1_m (r : shr_record) : 0 <= shr_m r -> shr_m (shr_1 r) = shr_m r / 2.
Proof.
  destruct r as [m b s]. cbn [shr_m shr_1]. intros Hm.
  destruct m as [|[p|p|]|p]; cbn [shr_m]; try lia.
  - reflexivity.
  - change (Zpos p~1) with (2 * Zpos p + 1). apply Z.div_unique with (r := 1); lia.
  - change (Zpos p~0) with (2 * Zpos p). apply Z.div_unique with (r := 0); lia.
  - reflexivity.
Qed.

Lemma iter_shr_1_m (p : positive) :
  forall r, 0 <= shr_m r -> shr_m (iter_pos shr_1 p r) = shr_m r / 2 ^ Zpos p.
Proof.
  induction p as [p IH|p IH|]; intros r Hr; cbn [iter_pos].
  - assert (H1 : 0 <= shr_m (shr_1 r)) by (rewrite shr_1_m by exact Hr; apply Z.div_pos; lia).
    assert (H2 : 0 <= shr_m (iter_pos shr_1 p (shr_1 r)))
      by (rewrite IH by exact H1; apply Z.div_pos; [lia|apply pow2_pos; lia]).
    rewrite IH by exact H2. rewrite IH by exact H1. rewrite shr_1_m by exact Hr.
    rewrite !Z.div_div by (try apply pow2_pos; lia).
    apply (f_equal (Z.div (shr_m r))). change (Zpos p~1) with (2 * Zpos p + 1).
    replace (2 * Zpos p + 1) with (1 + Zpos p + Zpos p) by lia.
    rewrite !pow2_split by lia. change (2 ^ 1) with 2. lia.
  - assert (H2 : 0 <= shr_m (iter_pos shr_1 p r))
      by (rewrite IH by exact Hr; apply Z.div_pos; [lia|apply pow2_pos; lia]).
    rewrite IH by exact H2. rewrite IH by exact Hr.
    rewrite !Z.div_div by (try apply pow2_pos; lia).
    apply (f_equal (Z.div (shr_m r))). change (Zpos p~0) with (2 * Zpos p).
    replace (2 * Zpos p) with (Zpos p + Zpos p) by lia.
    rewrite !pow2_split by lia. lia.
  - rewrite shr_1_m by exact Hr. reflexivity.
Qed.

Lemma shr_record_of_loc_m (m : Z) (l : location) : shr_m (shr_record_of_loc m l) = m.
Proof. destruct l as [|[| |]]; reflexivity. Qed.

(** Bringing a mantissa to the exponent of the format divides it by a power
    of two. *)
Lemma shr_fexp_m (m e : Z) (l : location) :
  0 < m ->
  snd (shr_fexp prec emax m e l) = Z.max e (fexp prec emax (Zdigits2 m + e)) /\
  shr_m (fst (shr_fexp prec emax m e l))
  = m / 2 ^ (Z.max e (fexp prec emax (Zdigits2 m + e)) - e).
Proof.
  intros Hm. unfold shr_fexp, shr.
  destruct (fexp prec emax (Zdigits2 m + e) - e) as [|p|p] eqn:Hn; cbn [fst snd].
  - replace (Z.max e (fexp prec emax (Zdigits2 m + e))) with e by lia.
    rewrite Z.sub_diag, shr_record_of_loc_m. cbn. rewrite Z.div_1_r. split; reflexivity.
  - replace (Z.max e (fexp prec emax (Zdigits2 m + e))) with (e + Zpos p) by lia.
    split; [reflexivity|].
    rewrite iter_shr_1_m by (rewrite shr_record_of_loc_m; lia).
    rewrite shr_record_of_loc_m. replace (e + Zpos p - e) with (Zpos p) by lia. reflexivity.
  - replace (Z.max e (fexp prec emax (Zdigits2 m + e))) with e by lia.
    rewrite Z.sub_diag, shr_record_of_loc_m. cbn. rewrite Z.div_1_r. split; reflexivity.
Qed.

Lemma fexp_eq (x : Z) : fexp prec emax x = Z.max (x - 53) (-1074).
Proof. reflexivity. Qed.

Lemma weight_pos (m e : Z) : 0 < m -> - scale <= e -> 0 < weight m e.
Proof.
  intros Hm He. unfold weight. apply Z.mul_pos_pos; [exact Hm|apply pow2_pos; lia].
Qed.

(** The truncation stays above every representable bound the value was
    above. *)
Lemma trunc_ge (b m e : Z) :
  0 < b < 2 ^ 53 -> 0 < m -> - scale <= e ->
  weight b 0 <= weight m e ->
  weight b 0
  <= weight (m / 2 ^ (Z.max e (fexp prec emax (Zdigits2 m + e)) - e))
       (Z.max e (fexp prec emax (Zdigits2 m + e))).
Proof.
  intros Hb Hm He Hle. rewrite fexp_eq.
  destruct m as [|p|p]; try lia. cbn [Zdigits2].
  pose proof (digits2_pos_spec p) as Hd.
  set (d := Zpos (digits2_pos p)) in *.
  assert (Hd1 : 1 <= d) by (unfold d; lia).
  destruct (Z.max_spec e (Z.max (d + e - 53) (-1074))) as [[Hlt ->]|[Hge ->]].
  2:{ rewrite Z.sub_diag. cbn. rewrite Z.div_1_r. exact Hle. }
  remember (Z.max (d + e - 53) (-1074)) as e' eqn:He'def.
  assert (Hn : 0 < e' - e) by lia.
  unfold weight in *. rewrite Z.add_0_l in *.
  destruct (Z.le_gt_cases e' 0) as [Hneg|Hpos].
  - (* the bound is a multiple of 2^e' *)
    assert (He0 : e < 0) by lia.
    assert (Hbm : b * 2 ^ (- e) <= Zpos p).
    { replace scale with (- e + (e + scale)) in Hle at 1 by lia.
      rewrite pow2_split in Hle by lia.
      pose proof (pow2_pos (e + scale) ltac:(lia)). nia. }
    assert (Hq : b * 2 ^ (- e') <= Zpos p / 2 ^ (e' - e)).
    { apply Z.div_le_lower_bound; [apply pow2_pos; lia|].
      replace (- e) with ((e' - e) + (- e')) in Hbm by lia.
      rewrite pow2_split in Hbm by lia. lia. }
    replace scale with (- e' + (e' + scale)) at 1 by lia.
    rewrite pow2_split by (unfold scale in *; lia).
    pose proof (pow2_pos (e' + scale) ltac:(unfold scale; lia)). nia.
  - (* the result has a full mantissa *)
    assert (He' : e' = d + e - 53) by lia.
    assert (Hq : 2 ^ 52 <= Zpos p / 2 ^ (e' - e)).
    { apply Z.div_le_lower_bound; [apply pow2_pos; lia|].
      rewrite <- pow2_split by lia.
      replace (e' - e + 52) with (d - 1) by lia. lia. }
    replace (e' + scale) with (1 + (e' - 1) + scale) by lia.
    replace (1 + (e' - 1) + scale) with (1 + ((e' - 1) + scale)) by lia.
    rewrite (pow2_split 1) by (unfold scale; lia).
    rewrite (pow2_split (e' - 1)) by (unfold scale; lia).
    pose proof (pow2_pos (e' - 1) ltac:(lia)) as HA.
    pose proof (pow2_pos (scale) ltac:(unfold scale; lia)) as HB.
    change (2 ^ 1) with 2.
    clear Hle.
    remember (2 ^ (e' - 1)) as A eqn:EA. remember (2 ^ scale) as S eqn:ES.
    remember (Zpos p / 2 ^ (e' - e)) as q eqn:Eq.
    clear EA ES Eq.
    assert (b * S <= 2 ^ 53 * S) by nia.
    assert (2 ^ 52 * 2 * S <= q * (2 * (A * S))).
    { assert (1 * S <= A * S) by (apply Z.mul_le_mono_nonneg_r; lia).
      assert (2 ^ 52 * (2 * S) <= q * (2 * S)) by (apply Z.mul_le_mono_nonneg_r; lia).
      assert (q * (2 * (1 * S)) <= q * (2 * (A * S))) by (apply Z.mul_le_mono_nonneg_l; lia).
      lia. }
    change (2 ^ 53) with (2 ^ 52 * 2) in *. lia.
Qed.


Lemma round_nearest_even_ge (m : Z) (l : location) : m <= round_nearest_even m l.
Proof.
  unfold round_nearest_even. destruct l as [|[| |]]; try lia.
  destruct (Z.even m); lia.
Qed.

Lemma weight_mono (m m' e : Z) : - scale <= e -> m <= m' -> weight m e <= weight m' e.
Proof.
  intros He Hm. unfold weight. apply Z.mul_le_mono_nonneg_r; [|exact Hm].
  apply Z.lt_le_incl, pow2_pos. lia.
Qed.

Lemma weight_pos_inv (m e : Z) : - scale <= e -> 0 < weight m e -> 0 < m.
Proof.
  intros He H. unfold weight in H.
  pose proof (pow2_pos (e + scale) ltac:(lia)). nia.
Qed.

Lemma fexp_ge (x : Z) : -1074 <= fexp prec emax x.
Proof. rewrite fexp_eq. lia. Qed.

(** Rounding to nearest stays above every representable bound the value was
    above: the result is [+Infinity] or a Number worth at least [b]. *)
Lemma binary_round_aux_ge (b m e : Z) (l : location) :
  0 < b < 2 ^ 53 -> - scale <= e ->
  weight b 0 <= weight m e ->
  at_least b (binary_round_aux prec emax false m e l).
Proof.
  intros Hb He Hle.
  assert (Hb0 : 0 < weight b 0) by (apply weight_pos; unfold scale; lia).
  assert (Hm : 0 < m) by (apply (weight_pos_inv m e He); lia).
  unfold binary_round_aux.
  destruct (shr_fexp_m m e l Hm) as [He1 Hm1].
  destruct (shr_fexp prec emax m e l) as [mrs1 e1]. cbn [fst snd] in He1, Hm1.
  pose proof (trunc_ge b m e Hb Hm He Hle) as H1. rewrite <- Hm1, <- He1 in H1.
  assert (He1' : - scale <= e1) by lia.
  set (m1 := round_nearest_even (shr_m mrs1) (loc_of_shr_record mrs1)).
  assert (Hge : shr_m mrs1 <= m1) by apply round_nearest_even_ge.
  assert (H1' : weight b 0 <= weight m1 e1).
  { etransitivity; [exact H1|]. apply weight_mono; assumption. }
  assert (Hm1' : 0 < m1) by (apply (weight_pos_inv m1 e1 He1'); lia).
  destruct (shr_fexp_m m1 e1 loc_Exact Hm1') as [He2 Hm2].
  destruct (shr_fexp prec emax m1 e1 loc_Exact) as [mrs2 e2]. cbn [fst snd] in He2, Hm2.
  pose proof (trunc_ge b m1 e1 Hb Hm1' He1' H1') as H2. rewrite <- Hm2, <- He2 in H2.
  assert (He2' : -1074 <= e2).
  { rewrite He2. pose proof (fexp_ge (Zdigits2 m1 + e1)). lia. }
  assert (Hm2' : 0 < shr_m mrs2).
  { apply (weight_pos_inv _ e2); [unfold scale; lia|lia]. }
  destruct (shr_m mrs2) as [|p|p]; try lia.
  destruct (e2 <=? emax - prec); cbn [at_least]; [split; assumption|exact I].
Qed.


Lemma round_nearest_even_le (m : Z) (l : location) : round_nearest_even m l <= m + 1.
Proof.
  unfold round_nearest_even. destruct l as [|[| |]]; try lia.
  destruct (Z.even m); lia.
Qed.

Lemma digits2_pos_unique (p : positive) (d : Z) :
  2 ^ (d - 1) <= Zpos p < 2 ^ d -> Zpos (digits2_pos p) = d.
Proof.
  intros H. pose proof (digits2_pos_spec p) as H'.
  set (d' := Zpos (digits2_pos p)) in *.
  assert (Hd' : 1 <= d') by (unfold d'; lia).
  assert (Hd : 1 <= d).
  { destruct (Z.le_gt_cases 1 d) as [Hd|Hd]; [exact Hd|exfalso].
    destruct (Z.eq_dec d 0) as [->|Hne]; [cbn in H; lia|].
    rewrite (Z.pow_neg_r 2 d) in H by lia. lia. }
  destruct (Z.lt_trichotomy d' d) as [Hlt|[Heq|Hgt]]; [exfalso|exact Heq|exfalso].
  - pose proof (pow2_le d' (d - 1) ltac:(lia)). lia.
  - pose proof (pow2_le d (d' - 1) ltac:(lia)). lia.
Qed.




Lemma iter_xO (n p : positive) : Zpos (Pos.iter xO p n) = Zpos p * 2 ^ Zpos n.
Proof.
  induction n as [|n IH] using Pos.peano_ind.
  - cbn [Pos.iter]. change (2 ^ 1) with 2. lia.
  - rewrite Pos.iter_succ, Pos2Z.inj_succ, Z.pow_succ_r by lia.
    change (Zpos (Pos.iter xO p n)~0) with (2 * Zpos (Pos.iter xO p n)). lia.
Qed.

(** The Number nearest to an integer [z] is not below a representable
    integer [b] that [z] is not below. *)
Lemma binary_normalize_ge (b z : Z) :
  0 < b < 2 ^ 53 -> b <= z ->
  at_least b (binary_normalize prec emax z 0 false).
Proof.
  intros Hb Hz. destruct z as [|p|p]; try lia.
  cbn [binary_normalize]. unfold binary_round, shl_align.
  set (d := Zpos (digits2_pos p)).
  assert (Hd : 1 <= d) by (unfold d; lia).
  rewrite Z.add_0_r, fexp_eq.
  destruct (Z.max (d - 53) (-1074) - 0) as [|n|n] eqn:Hn; cbn iota beta.
  - apply binary_round_aux_ge; [exact Hb|unfold scale; lia|].
    apply weight_mono; [unfold scale; lia|exact Hz].
  - apply binary_round_aux_ge; [exact Hb|unfold scale; lia|].
    apply weight_mono; [unfold scale; lia|exact Hz].
  - apply binary_round_aux_ge; [exact Hb|unfold scale; lia|].
    rewrite iter_xO.
    assert (Hmax : Z.max (d - 53) (-1074) = - Zpos n) by lia. rewrite Hmax.
    unfold weight.
    replace (0 + scale) with (Zpos n + (- Zpos n + scale)) by lia.
    rewrite (pow2_split (Zpos n)) by (unfold scale; lia).
    pose proof (pow2_pos (- Zpos n + scale) ltac:(unfold scale; lia)) as HP.
    pose proof (pow2_pos (Zpos n) ltac:(lia)) as HQ.
    remember (2 ^ (- Zpos n + scale)) as P. remember (2 ^ Zpos n) as Q.
    assert (b * (Q * P) <= Zpos p * (Q * P)) by (apply Z.mul_le_mono_nonneg_r; nia).
    lia.
Qed.


Lemma Zdigits2_unique (m d : Z) :
  2 ^ (d - 1) <= m < 2 ^ d -> 0 < m -> Zdigits2 m = d.
Proof.
  intros H Hm. destruct m as [|p|p]; try lia.
  cbn [Zdigits2]. apply digits2_pos_unique. exact H.
Qed.

(** A mantissa of more than 53 bits is rounded to a valid Number. *)
Lemma binary_round_aux_valid (m e : Z) (l : location) :
  2 ^ 53 <= m -> -1074 <= e ->
  SpecFloat.valid_binary prec emax (binary_round_aux prec emax false m e l) = true.
Proof.
  intros Hm He.
  assert (Hm0 : 0 < m) by (assert (0 < 2 ^ 53) by (apply pow2_pos; lia); lia).
  unfold binary_round_aux.
  destruct (shr_fexp_m m e l Hm0) as [He1 Hm1].
  destruct (shr_fexp prec emax m e l) as [mrs1 e1]. cbn [fst snd] in He1, Hm1.
  rewrite fexp_eq in He1, Hm1.
  destruct m as [|p|p]; try lia. cbn [Zdigits2] in He1, Hm1.
  pose proof (digits2_pos_spec p) as Hd.
  set (d := Zpos (digits2_pos p)) in *.
  assert (Hd54 : 54 <= d).
  { destruct (Z.le_gt_cases 54 d) as [H|H]; [exact H|exfalso].
    pose proof (pow2_le d 53 ltac:(unfold d; lia)). lia. }
  replace (Z.max e (Z.max (d + e - 53) (-1074))) with (d + e - 53) in He1, Hm1 by lia.
  replace (d + e - 53 - e) with (d - 53) in Hm1 by lia.
  assert (Hq : 2 ^ 52 <= shr_m mrs1 < 2 ^ 53).
  { rewrite Hm1. split.
    - apply Z.div_le_lower_bound; [apply pow2_pos; lia|].
      rewrite <- pow2_split by lia. replace (d - 53 + 52) with (d - 1) by lia. lia.
    - apply Z.div_lt_upper_bound; [apply pow2_pos; lia|].
      rewrite <- pow2_split by lia. replace (d - 53 + 53) with d by lia. lia. }
  set (m1 := round_nearest_even (shr_m mrs1) (loc_of_shr_record mrs1)).
  pose proof (round_nearest_even_ge (shr_m mrs1) (loc_of_shr_record mrs1)) as Hlo.
  pose proof (round_nearest_even_le (shr_m mrs1) (loc_of_shr_record mrs1)) as Hhi.
  fold m1 in Hlo, Hhi.
  assert (H52 : 0 < 2 ^ 52) by (apply pow2_pos; lia).
  assert (Hm1' : 0 < m1) by lia.
  destruct (shr_fexp_m m1 e1 loc_Exact Hm1') as [He2 Hm2].
  destruct (shr_fexp prec emax m1 e1 loc_Exact) as [mrs2 e2]. cbn [fst snd] in He2, Hm2.
  rewrite fexp_eq in He2, Hm2.
  destruct (Z.eq_dec m1 (2 ^ 53)) as [Htop|Hlow].
  - assert (Hdig : Zdigits2 m1 = 54).
    { apply Zdigits2_unique; [|exact Hm1']. rewrite Htop.
      change (54 - 1) with 53. split; [lia|]. apply Z.pow_lt_mono_r; lia. }
    rewrite Hdig in He2, Hm2.
    replace (Z.max e1 (Z.max (54 + e1 - 53) (-1074))) with (e1 + 1) in He2, Hm2 by lia.
    replace (e1 + 1 - e1) with 1 in Hm2 by lia.
    rewrite Htop in Hm2. change (2 ^ 53 / 2 ^ 1) with (Zpos (Pos.pow 2 52)) in Hm2.
    rewrite Hm2.
    destruct (Z.leb_spec e2 (emax - prec)) as [Hfit|Hover]; [|reflexivity].
    cbn [SpecFloat.valid_binary]. unfold SpecFloat.bounded, canonical_mantissa.
    apply andb_true_intro. split; [|apply Z.leb_le; exact Hfit].
    apply Z.eqb_eq. rewrite fexp_eq.
    change (Zpos (digits2_pos (2 ^ 52))) with 53. lia.
  - assert (Hdig : Zdigits2 m1 = 53).
    { apply Zdigits2_unique; [|exact Hm1']. change (53 - 1) with 52. lia. }
    rewrite Hdig in He2, Hm2.
    replace (Z.max e1 (Z.max (53 + e1 - 53) (-1074))) with e1 in He2, Hm2 by lia.
    rewrite Z.sub_diag in Hm2. change (2 ^ 0) with 1 in Hm2. rewrite Z.div_1_r in Hm2.
    rewrite Hm2.
    destruct m1 as [|q|q] eqn:Em1; try lia.
    destruct (Z.leb_spec e2 (emax - prec)) as [Hfit|Hover]; [|reflexivity].
    cbn [SpecFloat.valid_binary]. unfold SpecFloat.bounded, canonical_mantissa.
    apply andb_true_intro. split; [|apply Z.leb_le; exact Hfit].
    apply Z.eqb_eq. rewrite fexp_eq.
    cbn [Zdigits2] in Hdig. rewrite Hdig. lia.
Qed.

(** [Number.ofZ] is the rounding of the specification, for every
    non-negative integer. *)
Lemma Prim2SF_ofZ (z : Z) :
  0 <= z -> Prim2SF (Number.ofZ z) = binary_normalize prec emax z 0 false.
Proof.
  intros Hz. destruct (Z.lt_ge_cases z (2 ^ 53)) as [Hsmall|Hbig].
  - assert (HwB : 2 ^ 53 < wB) by (vm_compute; reflexivity).
    unfold Number.ofZ.
    assert (E : binary_normalize prec emax z 0 false = Prim2SF (of_uint63 (Uint63.of_Z z))).
    { rewrite of_uint63_spec, Uint63.of_Z_spec, Z.mod_small by lia. reflexivity. }
    rewrite E, SF2Prim_Prim2SF. reflexivity.
  - unfold Number.ofZ. apply Prim2SF_SF2Prim. unfold valid_binary.
    destruct z as [|p|p]; try lia.
    cbn [binary_normalize]. unfold binary_round, shl_align.
    pose proof (digits2_pos_spec p) as Hd.
    set (d := Zpos (digits2_pos p)) in *.
    assert (Hd54 : 54 <= d).
    { destruct (Z.le_gt_cases 54 d) as [H|H]; [exact H|exfalso].
      pose proof (pow2_le d 53 ltac:(unfold d; lia)). lia. }
    rewrite Z.add_0_r, fexp_eq.
    destruct (Z.max (d - 53) (-1074) - 0) as [|n|n] eqn:Hn; try lia;
      cbn iota beta; apply binary_round_aux_valid; lia.
Qed.



Lemma at_least_finite (b : Z) (x : spec_float) :
  at_least b x ->
  x = S754_infinity false \/
  exists m e, x = S754_finite false m e /\ -1074 <= e /\ weight b 0 <= weight (Zpos m) e.
Proof.
  destruct x as [s|[|]| |[|] m e]; cbn [at_least]; try contradiction.
  - intros _. left. reflexivity.
  - intros [He Hw]. right. exists m, e. repeat split; assumption.
Qed.













End Rounding.

(** ** Integers as Numbers *)

Section Integers.

Local Unset Implicit Arguments.

(** The integer a Number worth at least [b] stands for is at least [b]. *)
Lemma toZ_at_least (b : Z) (x : Number.t) (n : Z) :
  at_least b (Prim2SF x) -> Number.toZ x = Some n -> b <= n.
Proof.
  intros Hx. unfold Number.toZ.
  destruct (at_least_finite _ _ Hx) as [E|(m & e & E & He & Hw)]; rewrite E;
    [discriminate|].
  unfold weight in Hw. rewrite Z.add_0_l in Hw. cbn [cond_Zopp].
  destruct (Z.leb_spec 0 e) as [Hpos|Hneg].
  - intros H. injection H as <-. rewrite Z.shiftl_mul_pow2 by lia.
    rewrite (Z.add_comm e scale), pow2_split in Hw by (unfold scale; lia).
    pose proof (pow2_pos scale ltac:(unfold scale; lia)) as HS.
    remember (2 ^ scale) as S. remember (2 ^ e) as P.
    destruct (Z.le_gt_cases b (Zpos m * P)) as [H|H]; [exact H|exfalso].
    assert (Zpos m * P * S < b * S) by (apply Z.mul_lt_mono_pos_r; lia).
    lia.
  - destruct (Z.land (Zpos m) (Z.ones (- e)) =? 0); [|discriminate].
    intros H. injection H as <-. rewrite Z.shiftr_div_pow2 by lia.
    apply Z.div_le_lower_bound; [apply pow2_pos; lia|].
    replace scale with (- e + (e + scale)) in Hw at 1 by lia.
    rewrite pow2_split in Hw by (unfold scale; lia).
    pose proof (pow2_pos (e + scale) ltac:(unfold scale; lia)) as HP.
    remember (2 ^ (e + scale)) as P. remember (2 ^ (- e)) as Q.
    destruct (Z.le_gt_cases (Q * b) (Zpos m)) as [H|H]; [exact H|exfalso].
    assert (Zpos m * P < Q * b * P) by (apply Z.mul_lt_mono_pos_r; lia).
    lia.
Qed.

(** [Number(z)] is not below a safe integer that [z] is not below. *)
Lemma ofBigInt_ge (b z : Z) : 0 < b < 2 ^ 53 -> b <= z -> b <= Number.ofBigInt z.
Proof.
  intros Hb Hz. unfold Number.ofBigInt.
  destruct (Number.toZ (Number.ofZ z)) as [n|] eqn:E; [|exact Hz].
  apply (toZ_at_least b (Number.ofZ z) n); [|exact E].
  rewrite Prim2SF_ofZ by lia. apply binary_normalize_ge; assumption.
Qed.

(** A mantissa of exactly 53 bits is kept as it is. *)
Lemma binary_round_aux_exact (sx : bool) (m : positive) (e : Z) :
  Zpos (digits2_pos m) = 53 -> -1074 <= e <= 971 ->
  binary_round_aux prec emax sx (Zpos m) e loc_Exact = S754_finite sx m e.
Proof.
  intros Hd He.
  assert (Hshift : shr_fexp prec emax (Zpos m) e loc_Exact
                   = ({| shr_m := Zpos m; shr_r := false; shr_s := false |}, e)).
  { unfold shr_fexp. cbn [Zdigits2]. rewrite Hd, fexp_eq.
    replace (Z.max (53 + e - 53) (-1074) - e) with 0 by lia. reflexivity. }
  unfold binary_round_aux. rewrite Hshift.
  cbn [shr_m loc_of_shr_record shr_r shr_s round_nearest_even]. rewrite Hshift.
  cbn [shr_m].
  assert (Hfit : (e <=? emax - prec) = true) by (apply Z.leb_le; change (emax - prec) with 971; lia).
  rewrite Hfit. reflexivity.
Qed.

(** [Number(z)] is [z] for a safe integer [z] that is not negative. *)
Lemma ofBigInt_safe (z : Z) : 0 <= z < 2 ^ 53 -> Number.ofBigInt z = z.
Proof.
  intros Hz. unfold Number.ofBigInt, Number.toZ. rewrite Prim2SF_ofZ by lia.
  destruct z as [|p|p]; try lia; [reflexivity|].
  cbn [binary_normalize]. unfold binary_round, shl_align.
  pose proof (digits2_pos_spec p) as Hd.
  set (d := Zpos (digits2_pos p)) in *.
  assert (Hd1 : 1 <= d) by (unfold d; lia).
  assert (Hd53 : d <= 53).
  { destruct (Z.le_gt_cases d 53) as [H|H]; [exact H|exfalso].
    pose proof (pow2_le 53 (d - 1) ltac:(lia)). lia. }
  rewrite Z.add_0_r, fexp_eq.
  destruct (Z.max (d - 53) (-1074) - 0) as [|n|n] eqn:Hn; try lia; cbn iota beta.
  - rewrite binary_round_aux_exact by (fold d; lia).
    cbn [cond_Zopp]. change (0 <=? 0) with true. cbv iota.
    rewrite Z.shiftl_0_r. reflexivity.
  - assert (Hk : Zpos n = 53 - d) by lia.
    assert (Hmax : Z.max (d - 53) (-1074) = - Zpos n) by lia. rewrite Hmax.
    assert (Hdig : Zpos (digits2_pos (Pos.iter xO p n)) = 53).
    { apply digits2_pos_unique. rewrite iter_xO.
      assert (E52 : 2 ^ (53 - 1) = 2 ^ (d - 1) * 2 ^ Zpos n)
        by (rewrite <- pow2_split by lia; f_equal; lia).
      assert (E53 : 2 ^ 53 = 2 ^ d * 2 ^ Zpos n)
        by (rewrite <- pow2_split by lia; f_equal; lia).
      rewrite E52, E53.
      pose proof (pow2_pos (Zpos n) ltac:(lia)) as HQ.
      split; [apply Z.mul_le_mono_nonneg_r; lia|apply Z.mul_lt_mono_pos_r; lia]. }
    rewrite binary_round_aux_exact by (assumption || lia).
    cbn [cond_Zopp].
    assert (Hneg : (0 <=? - Zpos n) = false) by (apply Z.leb_gt; lia).
    rewrite Hneg, Z.opp_involutive, iter_xO, Z.land_ones by lia.
    rewrite Z.mod_mul by (apply Z.pow_nonzero; lia).
    change (0 =? 0) with true. cbv iota.
    rewrite Z.shiftr_div_pow2 by lia.
    rewrite Z.div_mul by (apply Z.pow_nonzero; lia). reflexivity.
Qed.

Lemma ofBigInt_nonneg (z : Z) : 0 <= z -> 0 <= Number.ofBigInt z.
Proof.
  intros Hz. destruct (Z.eq_dec z 0) as [->|Hne].
  - rewrite ofBigInt_safe by lia. lia.
  - pose proof (ofBigInt_ge 1 z ltac:(lia) ltac:(lia)). lia.
Qed.

Lemma safeCount_spec (n : Z) : safeCount n = true <-> 0 <= n < 2 ^ 53.
Proof.
  unfold safeCount. rewrite andb_true_iff, Z.leb_le, Z.ltb_lt. reflexivity.
Qed.

Lemma isSafeInteger_spec (n : Z) :
  Number.isSafeInteger n = true <-> - 2 ^ 53 < n < 2 ^ 53.
Proof.
  unfold Number.isSafeInteger. rewrite andb_true_iff, !Z.ltb_lt. reflexivity.
Qed.

(** A safe integer prints as its decimal digits. *)
Lemma toString_safe (n : Z) :
  Number.isSafeInteger n = true -> Number.toString n = BigInt.toString n.
Proof.
  intros H. apply isSafeInteger_spec in H.
  unfold Number.toString, Number.toString_pos, BigInt.toString.
  destruct (Z.ltb_spec n 0) as [Hneg|Hpos].
  - assert (Hlt : (- n <? 2 ^ 53) = true) by (apply Z.ltb_lt; lia).
    rewrite Hlt. reflexivity.
  - assert (Hlt : (n <? 2 ^ 53) = true) by (apply Z.ltb_lt; lia).
    rewrite Hlt. reflexivity.
Qed.

End Integers.

(** ** Strings *)

Section StringFacts.

Lemma append_nil_r (s : string) : s ++ "" = s.
Proof. induction s; simpl; congruence. Qed.

Lemma append_assoc (a b c : string) : (a ++ b) ++ c = a ++ (b ++ c).
Proof. induction a; simpl; congruence. Qed.

Lemma length_append (a b : string) :
  String.length (a ++ b) = (String.length a + String.length b)%nat.
Proof. induction a; simpl; congruence. Qed.

Lemma take_append (k : nat) (a b : string) :
  (k <= String.length a)%nat -> JsString.take k (a ++ b) = JsString.take k a.
Proof.
  revert a; induction k as [|k IH]; intros a Hk; [reflexivity|].
  destruct a as [|c a]; simpl in *; [lia|].
  rewrite IH by lia. reflexivity.
Qed.

Lemma take_all (a : string) : JsString.take (String.length a) a = a.
Proof. induction a; simpl; congruence. Qed.

Lemma replicate_snoc (i : nat) (c : ascii) :
  JsString.replicate i c ++ String c "" = String c (JsString.replicate i c).
Proof. induction i; simpl; congruence. Qed.

Lemma all_digits_append (a b : string) :
  all_digits (a ++ b) = all_digits a && all_digits b.
Proof.
  induction a as [|c a IH]; simpl; [reflexivity|].
  rewrite IH. apply andb_assoc.
Qed.

End StringFacts.

(** ** Decimal digits *)

Arguments BigInt.digit_char : simpl never.
Arguments BigInt.digit_value : simpl never.
Arguments is_digit : simpl never.

Section Digits.

Lemma digit_char_cases (d : Z) :
  0 <= d < 10 ->
  d = 0 \/ d = 1 \/ d = 2 \/ d = 3 \/ d = 4 \/ d = 5 \/ d = 6 \/ d = 7 \/ d = 8 \/ d = 9.
Proof. lia. Qed.

Ltac each_digit d H :=
  destruct (digit_char_cases H) as [->|[->|[->|[->|[->|[->|[->|[->|[->| ->]]]]]]]]].

Lemma digit_value_char (d : Z) :
  0 <= d < 10 -> BigInt.digit_value 10 (BigInt.digit_char d) = Some d.
Proof. intros H. each_digit d H; reflexivity. Qed.

Lemma is_digit_char (d : Z) : 0 <= d < 10 -> is_digit (BigInt.digit_char d) = true.
Proof. intros H. each_digit d H; reflexivity. Qed.

Lemma length_fixed_digits (k : nat) (n : Z) : String.length (fixed_digits k n) = k.
Proof.
  revert n; induction k as [|k IH]; intros n; simpl; [reflexivity|].
  rewrite length_append, IH. simpl. lia.
Qed.

Lemma all_digits_fixed (k : nat) (n : Z) : all_digits (fixed_digits k n) = true.
Proof.
  revert n; induction k as [|k IH]; intros n; simpl; [reflexivity|].
  rewrite all_digits_append, IH. cbn [all_digits].
  rewrite is_digit_char; [reflexivity|]. apply Z.mod_pos_bound. lia.
Qed.

Lemma fixed_digits_zero (i : nat) : fixed_digits i 0 = JsString.replicate i "0".
Proof.
  induction i as [|i IH]; [reflexivity|].
  cbn [fixed_digits]. change (0 / 10) with 0. rewrite IH.
  change (BigInt.digit_char (0 mod 10)) with "0"%char.
  apply replicate_snoc.
Qed.

(** Padding with zeros on the left is what the fixed-width rendering does. *)
Lemma fixed_digits_pad (j i : nat) (n : Z) :
  0 <= n < 10 ^ Z.of_nat j ->
  fixed_digits (i + j) n = JsString.replicate i "0" ++ fixed_digits j n.
Proof.
  revert n; induction j as [|j IH]; intros n Hn.
  - assert (n = 0) by (simpl in Hn; lia). subst n.
    rewrite Nat.add_0_r, fixed_digits_zero. cbn [fixed_digits]. now rewrite append_nil_r.
  - rewrite Nat.add_succ_r. cbn [fixed_digits].
    rewrite IH, append_assoc; [reflexivity|].
    rewrite Nat2Z.inj_succ, Z.pow_succ_r in Hn by lia.
    split; [apply Z.div_pos; lia|].
    apply Z.div_lt_upper_bound; lia.
Qed.

(** The leading [k] digits of a [k + j]-digit rendering drop the [j]
    low-order digits of the number. *)
Lemma take_fixed_digits (j k : nat) (n : Z) :
  JsString.take k (fixed_digits (k + j) n) = fixed_digits k (n / 10 ^ Z.of_nat j).
Proof.
  revert n; induction j as [|j IH]; intros n.
  - rewrite Nat.add_0_r. simpl (10 ^ _). rewrite Z.div_1_r.
    rewrite <- (length_fixed_digits k n) at 1. apply take_all.
  - rewrite Nat.add_succ_r. cbn [fixed_digits].
    rewrite take_append by (rewrite length_fixed_digits; lia).
    rewrite IH. f_equal.
    rewrite Nat2Z.inj_succ, Z.pow_succ_r by lia.
    rewrite Z.div_div by lia. reflexivity.
Qed.

(** What the digit loop produces: a rendering of minimal width. *)
Lemma digits_fuel_fixed (fuel : nat) :
  forall n acc, (1 <= fuel)%nat -> 0 <= n < 2 ^ Z.of_nat fuel ->
    exists j : nat,
      (1 <= j)%nat /\ n < 10 ^ Z.of_nat j /\
      (j = 1%nat \/ 10 ^ (Z.of_nat j - 1) <= n) /\
      BigInt.digits_fuel fuel n acc = fixed_digits j n ++ acc.
Proof.
  induction fuel as [|fuel IH]; intros n acc Hf Hn.
  - lia.
  - cbn [BigInt.digits_fuel]. destruct (Z.eqb_spec (n / 10) 0) as [E|E].
    + exists 1%nat. split; [lia|]. split; [|split; [now left|reflexivity]].
      change (10 ^ Z.of_nat 1) with 10.
      pose proof (Z.div_mod n 10 ltac:(lia)).
      pose proof (Z.mod_pos_bound n 10 ltac:(lia)). lia.
    + assert (Hq : 0 <= n / 10 < 2 ^ Z.of_nat fuel).
      { rewrite Nat2Z.inj_succ, Z.pow_succ_r in Hn by lia.
        split; [apply Z.div_pos; lia|].
        apply Z.div_lt_upper_bound; lia. }
      assert (Hf' : (1 <= fuel)%nat).
      { destruct fuel; [|lia]. simpl in Hq.
        pose proof (Z.div_mod n 10 ltac:(lia)). lia. }
      destruct (IH (n / 10) (String (BigInt.digit_char (n mod 10)) acc) Hf' Hq)
        as (j & Hj & Hlt & Hmin & Heq).
      exists (S j). rewrite Heq. cbn [fixed_digits]. rewrite append_assoc.
      pose proof (Z.div_mod n 10 ltac:(lia)).
      pose proof (Z.mod_pos_bound n 10 ltac:(lia)).
      split; [lia|]. split; [|split; [right|reflexivity]].
      * rewrite Nat2Z.inj_succ, Z.pow_succ_r by lia. lia.
      * replace (Z.of_nat (S j) - 1) with (Z.succ (Z.of_nat j - 1)) by lia.
        rewrite Z.pow_succ_r by lia.
        destruct Hmin as [->|Hmin]; [simpl; lia|lia].
Qed.

Lemma digits_fixed (n : Z) :
  0 <= n ->
  exists j : nat,
    (1 <= j)%nat /\ n < 10 ^ Z.of_nat j /\
    (j = 1%nat \/ 10 ^ (Z.of_nat j - 1) <= n) /\
    BigInt.digits n = fixed_digits j n.
Proof.
  intros Hn. unfold BigInt.digits.
  destruct (digits_fuel_fixed (fuel := S (Z.to_nat (Z.log2 n))) (n := n) "")
    as (j & H1 & H2 & H3 & H4).
  - lia.
  - split; [assumption|].
    rewrite Nat2Z.inj_succ, Z2Nat.id by apply Z.log2_nonneg.
    destruct (Z.eq_dec n 0) as [->|Hz]; [reflexivity|].
    apply Z.log2_spec. lia.
  - exists j. rewrite H4, append_nil_r. auto.
Qed.

(** [String(n).padStart(k, "0")] for a number of at most [k] digits. *)
Lemma padStart_digits (k : nat) (n : Z) :
  (1 <= k)%nat -> 0 <= n < 10 ^ Z.of_nat k ->
  JsString.padStart k "0" (BigInt.digits n) = fixed_digits k n.
Proof.
  intros Hk1 [Hn Hk].
  destruct (digits_fixed Hn) as (j & Hj & Hlt & Hmin & ->).
  unfold JsString.padStart. rewrite length_fixed_digits.
  assert (Hjk : (j <= k)%nat).
  { destruct Hmin as [->|Hmin].
    - assumption.
    - destruct (le_lt_dec j k) as [|Hgt]; [assumption|exfalso].
      assert (10 ^ Z.of_nat k <= 10 ^ (Z.of_nat j - 1)) by (apply Z.pow_le_mono_r; lia).
      lia. }
  rewrite <- fixed_digits_pad by lia.
  f_equal. lia.
Qed.

Lemma parse_digits_append (r : Z) (a b : string) (acc : Z) :
  BigInt.parse_digits r (a ++ b) acc =
  match BigInt.parse_digits r a acc with
  | Some x => BigInt.parse_digits r b x
  | None => None
  end.
Proof.
  revert acc; induction a as [|c a IH]; intros acc; simpl; [reflexivity|].
  destruct (BigInt.digit_value r c); [apply IH|reflexivity].
Qed.

Lemma parse_fixed_digits (j : nat) :
  forall n acc, 0 <= n < 10 ^ Z.of_nat j ->
    BigInt.parse_digits 10 (fixed_digits j n) acc = Some (acc * 10 ^ Z.of_nat j + n).
Proof.
  induction j as [|j IH]; intros n acc Hn.
  - simpl in *. f_equal. lia.
  - cbn [fixed_digits]. rewrite parse_digits_append.
    rewrite Nat2Z.inj_succ, Z.pow_succ_r in * by lia.
    rewrite IH.
    + cbn [BigInt.parse_digits]. rewrite digit_value_char by (apply Z.mod_pos_bound; lia).
      f_equal. pose proof (Z.div_mod n 10 ltac:(lia)). lia.
    + split; [apply Z.div_pos; lia|apply Z.div_lt_upper_bound; lia].
Qed.

End Digits.

(** ** Reading a decimal literal back *)

Section ReadBack.

Lemma digit_not_white (c : ascii) : is_digit c = true -> BigInt.is_white c = false.
Proof.
  unfold is_digit, BigInt.is_white. intros H.
  apply andb_prop in H as [H1 H2].
  apply Nat.leb_le in H1. apply Nat.leb_le in H2.
  repeat (apply orb_false_intro); apply Nat.eqb_neq; lia.
Qed.

Lemma trim_start_digits (s : string) : all_digits s = true -> BigInt.trim_start s = s.
Proof.
  destruct s as [|c s]; [reflexivity|]. cbn [all_digits BigInt.trim_start].
  intros H. apply andb_prop in H as [Hc _].
  now rewrite (digit_not_white _ Hc).
Qed.

Lemma trim_end_digits (s : string) : all_digits s = true -> BigInt.trim_end s = s.
Proof.
  induction s as [|c s IH]; [reflexivity|]. cbn [all_digits BigInt.trim_end].
  intros H. apply andb_prop in H as [Hc Hs].
  rewrite (IH Hs), (digit_not_white _ Hc). now destruct s.
Qed.

Ltac split_ascii c :=
  let b0 := fresh in let b1 := fresh in let b2 := fresh in let b3 := fresh in
  let b4 := fresh in let b5 := fresh in let b6 := fresh in let b7 := fresh in
  destruct c as [b0 b1 b2 b3 b4 b5 b6 b7];
  destruct b0, b1, b2, b3, b4, b5, b6, b7.

(** A non-empty run of decimal digits is read as a decimal literal: it has
    no sign and no radix prefix. *)
Lemma ofString_digits (s : string) :
  s <> "" -> all_digits s = true -> BigInt.ofString s = BigInt.parse_digits 10 s 0.
Proof.
  intros Hne Hd. unfold BigInt.ofString.
  rewrite (trim_start_digits _ Hd), (trim_end_digits _ Hd).
  destruct s as [|c s]; [contradiction|].
  cbn [all_digits] in Hd. apply andb_prop in Hd as [Hc Hs].
  split_ascii c; try (vm_compute in Hc; discriminate Hc); try reflexivity.
  destruct s as [|c2 s]; [reflexivity|].
  cbn [all_digits] in Hs. apply andb_prop in Hs as [Hc2 _].
  split_ascii c2; try (vm_compute in Hc2; discriminate Hc2); reflexivity.
Qed.

Lemma ofString_toString (n : Z) : 0 <= n -> BigInt.ofString (BigInt.toString n) = Some n.
Proof.
  intros Hn. unfold BigInt.toString.
  destruct (Z.ltb_spec n 0) as [|_]; [lia|].
  destruct (digits_fixed Hn) as (j & Hj & Hlt & _ & ->).
  rewrite ofString_digits.
  - rewrite parse_fixed_digits by lia. reflexivity.
  - destruct j as [|j]; [lia|]. cbn [fixed_digits].
    destruct (fixed_digits j (n / 10)); discriminate.
  - apply all_digits_fixed.
Qed.

End ReadBack.

(** ** [formatMon] *)

Section FormatMon.

Lemma fixed_digits_4 (x : Z) :
  fixed_digits 4 x =
  String (BigInt.digit_char (x / 1000 mod 10))
    (String (BigInt.digit_char (x / 100 mod 10))
       (String (BigInt.digit_char (x / 10 mod 10))
          (String (BigInt.digit_char (x mod 10)) ""))).
Proof.
  cbn [fixed_digits String.append].
  rewrite !Z.div_div by lia. reflexivity.
Qed.

(** Digit [i] after the decimal point of [w / 10^18], read off the
    fractional part kept by [formatMon]. *)
Lemma fraction_digit (w : Z) (i : Z) :
  0 <= w -> 0 <= i <= 3 ->
  (w mod 10 ^ 18 / 10 ^ 14) / 10 ^ i mod 10 = w / 10 ^ (14 + i) mod 10.
Proof.
  intros Hw Hi.
  rewrite Z.div_div by (try apply Z.pow_pos_nonneg; lia).
  rewrite <- Z.pow_add_r by lia.
  replace (10 ^ 18) with (10 ^ (14 + i) * 10 ^ (4 - i))
    by (rewrite <- Z.pow_add_r by lia; f_equal; lia).
  assert (0 < 10 ^ (14 + i)) by (apply Z.pow_pos_nonneg; lia).
  assert (0 < 10 ^ (4 - i)) by (apply Z.pow_pos_nonneg; lia).
  rewrite Z.rem_mul_r by lia.
  rewrite (Z.mul_comm (10 ^ (14 + i))), Z.div_add by lia.
  rewrite (Z.div_small (w mod _)) by (apply Z.mod_pos_bound; lia).
  rewrite Z.add_0_l.
  replace (10 ^ (4 - i)) with (10 * 10 ^ (3 - i))
    by (rewrite <- Z.pow_succ_r by lia; f_equal; lia).
  assert (0 < 10 ^ (3 - i)) by (apply Z.pow_pos_nonneg; lia).
  rewrite Z.rem_mul_r by lia.
  rewrite (Z.mul_comm 10), Z.mod_add by lia.
  apply Z.mod_mod. lia.
Qed.

End FormatMon.

(** C3. For every non-negative wei amount [w], written as a decimal string,
    [formatMon] returns the whole part of [w / 10^18], a dot, and exactly the
    first four fractional decimal digits of [w / 10^18]: the digits
    [floor (w / 10^17) mod 10] down to [floor (w / 10^14) mod 10], the
    lower-order digits being dropped without rounding.  In particular one
    MON is "1.0000", and both 1.2345 and 1.23456 MON are "1.2345". *)
Theorem formatMon_truncates (w : Z) :
  0 <= w ->
  formatMon (BigInt.toString w) =
    BigInt.toString (w / 10 ^ 18) ++ "." ++
    String (BigInt.digit_char (w / 10 ^ 17 mod 10))
      (String (BigInt.digit_char (w / 10 ^ 16 mod 10))
         (String (BigInt.digit_char (w / 10 ^ 15 mod 10))
            (String (BigInt.digit_char (w / 10 ^ 14 mod 10)) "")))
  /\ formatMon "1000000000000000000" = "1.0000"
  /\ formatMon "1234500000000000000" = "1.2345"
  /\ formatMon "1234560000000000000" = "1.2345".
Proof.
  intros Hw. split; [|repeat split; vm_compute; reflexivity].
  unfold formatMon. rewrite (ofString_toString Hw). cbv zeta.
  unfold WEI_PER_MON.
  rewrite Z.quot_div_nonneg, Z.rem_mod_nonneg by lia.
  assert (Hf : 0 <= w mod 10 ^ 18 < 10 ^ 18) by (apply Z.mod_pos_bound; lia).
  unfold BigInt.toString at 2.
  destruct (Z.ltb_spec (w mod 10 ^ 18) 0) as [|_]; [lia|].
  rewrite (padStart_digits (k := 18)) by (try exact Hf; lia).
  rewrite (take_fixed_digits 14 4), fixed_digits_4.
  change (Z.of_nat 14) with 14.
  pose proof (fraction_digit Hw (i := 3) ltac:(lia)) as H3.
  pose proof (fraction_digit Hw (i := 2) ltac:(lia)) as H2.
  pose proof (fraction_digit Hw (i := 1) ltac:(lia)) as H1.
  pose proof (fraction_digit Hw (i := 0) ltac:(lia)) as H0.
  change (10 ^ 3) with 1000 in H3. change (10 ^ 2) with 100 in H2.
  change (10 ^ 1) with 10 in H1. change (10 ^ 0) with 1 in H0.
  rewrite Z.div_1_r in H0.
  change (14 + 3) with 17 in H3. change (14 + 2) with 16 in H2.
  change (14 + 1) with 15 in H1. change (14 + 0) with 14 in H0.
  rewrite H3, H2, H1, H0. reflexivity.
Qed.

Lemma formatMon_truncates_witness :
  0 <= 1234567890000000000 /\
  formatMon (BigInt.toString 1234567890000000000) =
    BigInt.toString (1234567890000000000 / 10 ^ 18) ++ "." ++
    String (BigInt.digit_char (1234567890000000000 / 10 ^ 17 mod 10))
      (String (BigInt.digit_char (1234567890000000000 / 10 ^ 16 mod 10))
         (String (BigInt.digit_char (1234567890000000000 / 10 ^ 15 mod 10))
            (String (BigInt.digit_char (1234567890000000000 / 10 ^ 14 mod 10)) ""))).
Proof.
  assert (H : 0 <= 1234567890000000000) by lia.
  split; [exact H|]. exact (proj1 (formatMon_truncates H)).
Defined.


(** ** Running handlers *)

Arguments BigInt.toString : simpl never.
Arguments Z.min : simpl never.
Arguments Z.max : simpl never.
Arguments JsString.test_ci : simpl never.
Arguments String.append : simpl never.

Section Running.

Lemma events_since_app (s s' : Store) (evs : list Event) :
  trace s' = (trace s ++ evs)%list -> events_since s s' = evs.
Proof.
  unfold events_since. intros ->.
  rewrite skipn_app, skipn_all, Nat.sub_diag. reflexivity.
Qed.

Lemma events_since_refl (s : Store) : events_since s s = [].
Proof. apply events_since_app. now rewrite app_nil_r. Qed.

End Running.

(** Unfolds the monadic combinators and the state setters. *)
Ltac js_unfold :=
  cbv beta iota zeta delta
      [bind try_catch finally ret throw perform alert console sleep emit update
       setAccount setMinting setTotalSupply setMaxSupply setMintPriceWei setStatus
       setUserMintedCount setContractMaxPerWallet withMintQuantity
       react trace clock
       account minting totalSupply maxSupply mintPriceWei status mintQuantity
       userMintedCount contractMaxPerWallet
       Nat.add negb] in *;
  cbn [fst snd] in *.

(** Names the components of a store, or of a state, so that projections
    compute. *)
Ltac open_store s := destruct s as [[? ? ? ? ? ? ? ? ?] ? ?].
Ltac open_state c := destruct c as [? ? ? ? ? ? ? ? ?].

(** Splits on the answer of the world to the next request. *)
Ltac next_answer :=
  match goal with
  | H : answer ?w ?n ?r = _ |- context [answer ?w ?n ?r] => rewrite H
  | |- context [answer ?w ?n ?r] =>
      let E := fresh "E" in destruct (answer w n r) eqn:E
  end; cbn [fst snd react trace clock].

(** Puts a trace in the form [old ++ new events]. *)
Ltac trace_norm := repeat rewrite <- app_assoc; cbn [app].

(** Names the events a run has added to the trace. *)
Ltac since :=
  match goal with
  | |- context [events_since ?s ?s'] =>
      let H := fresh in
      eassert (H : events_since s s' = _)
        by (first [ apply events_since_refl
                  | apply events_since_app; cbn [trace]; trace_norm; reflexivity ]);
      rewrite H; clear H
  end.

(** ** Chain reader *)

Section Refresh.

Variable w : World.

Lemma refreshContractData_ok (account : option string) (s : Store) :
  fst (refreshContractData w account s) = Ok tt.
Proof.
  open_store s. unfold refreshContractData, getContract.
  destruct (ethereum w); js_unfold; [|reflexivity].
  destruct (JsString.truthy_opt (CONTRACT_ADDRESS w)); js_unfold; [|reflexivity].
  repeat (next_answer; try reflexivity).
  destruct account as [acct|]; js_unfold; [|reflexivity].
  destruct (JsString.truthy acct); js_unfold; [|reflexivity].
  repeat (next_answer; try reflexivity).
Qed.

Lemma refreshContractData_extends (account : option string) (s : Store) :
  exists evs, trace (snd (refreshContractData w account s)) = (trace s ++ evs)%list.
Proof.
  open_store s. unfold refreshContractData, getContract.
  destruct (ethereum w); js_unfold.
  2:{ exists []. now rewrite app_nil_r. }
  destruct (JsString.truthy_opt (CONTRACT_ADDRESS w)); js_unfold.
  2:{ eexists. reflexivity. }
  repeat (next_answer; try (eexists; trace_norm; reflexivity)).
  destruct account as [acct|]; js_unfold; [|eexists; trace_norm; reflexivity].
  destruct (JsString.truthy acct); js_unfold; [|eexists; trace_norm; reflexivity].
  repeat (next_answer; try (eexists; trace_norm; reflexivity)).
Qed.

(** A refresh that cannot finish its four primary reads writes nothing. *)
Lemma refreshContractData_atomic (account : option string) (s : Store) :
  ethereum w = false \/
  JsString.truthy_opt (CONTRACT_ADDRESS w) = false \/
  (exists e, answer w (clock s) call_totalSupply = Throw e) \/
  (exists e, answer w (1 + clock s) call_maxSupply = Throw e) \/
  (exists e, answer w (2 + clock s) call_mintPrice = Throw e) \/
  (exists e, answer w (3 + clock s) call_maxPerWallet = Throw e) ->
  react (snd (refreshContractData w account s)) = react s /\
  existsb is_write (events_since s (snd (refreshContractData w account s))) = false.
Proof.
  intros H. open_store s. unfold refreshContractData, getContract.
  destruct (ethereum w) eqn:Heth; js_unfold.
  2:{ now rewrite events_since_refl. }
  destruct (JsString.truthy_opt (CONTRACT_ADDRESS w)) eqn:Haddr; js_unfold.
  2:{ split; [reflexivity|]. since. reflexivity. }
  destruct H as [H|[H|[[e H]|[[e H]|[[e H]|[e H]]]]]]; try discriminate H.
  all: repeat (next_answer; try discriminate;
               try (split; [reflexivity|since; reflexivity])).
Qed.

End Refresh.
(** C5. [refreshContractData] never throws to its caller; and when the
    provider is absent, or one of the four primary reads ([totalSupply],
    [maxSupply], [mintPrice], [maxPerWallet]) fails, the whole React state is
    as before, in particular [totalSupply], [maxSupply], [mintPriceWei],
    [contractMaxPerWallet] and [userMintedCount], and no setter ran. *)
Theorem refreshContractData_never_throws_and_failure_keeps_state
  (w : World) (account : option string) (s : Store) :
  fst (refreshContractData w account s) = Ok tt /\
  (ethereum w = false \/
   (exists e, answer w (clock s) call_totalSupply = Throw e) \/
   (exists e, answer w (1 + clock s) call_maxSupply = Throw e) \/
   (exists e, answer w (2 + clock s) call_mintPrice = Throw e) \/
   (exists e, answer w (3 + clock s) call_maxPerWallet = Throw e) ->
   let s' := snd (refreshContractData w account s) in
   react s' = react s /\
   totalSupply (react s') = totalSupply (react s) /\
   maxSupply (react s') = maxSupply (react s) /\
   mintPriceWei (react s') = mintPriceWei (react s) /\
   contractMaxPerWallet (react s') = contractMaxPerWallet (react s) /\
   userMintedCount (react s') = userMintedCount (react s) /\
   existsb is_write (events_since s s') = false).
Proof.
  split; [apply refreshContractData_ok|].
  intros H s'.
  destruct (refreshContractData_atomic w account s) as [Hr Hw].
  { destruct H as [H|[H|[H|[H|H]]]]; auto 10. }
  subst s'. rewrite Hr. repeat split; assumption.
Qed.

(** C6, as the code has it.  When the refresh runs for an account that is
    not the empty string and gets through its primary reads,
    [userMintedCount] becomes [Number(x)] for the [x] that
    [mintedCount(account)] returned; if that read fails, for the [x] that
    [balanceOf(account)] returned; if both fail, 0.  [Number(x)] is [x] when
    [x] is a safe integer.  For the empty string, which is not null but is
    falsy, neither method is called and the count stays as it was.  The
    refresh does not fail in any of these cases. *)
Theorem refreshContractData_minted_count_fallback
  (w : World) (a : string) (s : Store) (supply max price maxPerWallet : Z) :
  ethereum w = true ->
  JsString.truthy_opt (CONTRACT_ADDRESS w) = true ->
  answer w (clock s) call_totalSupply = Ok supply ->
  answer w (1 + clock s) call_maxSupply = Ok max ->
  answer w (2 + clock s) call_mintPrice = Ok price ->
  answer w (3 + clock s) call_maxPerWallet = Ok maxPerWallet ->
  fst (refreshContractData w (Some a) s) = Ok tt /\
  (a <> "" ->
     userMintedCount (react (snd (refreshContractData w (Some a) s))) =
       match answer w (4 + clock s) (call_mintedCount a) with
       | Ok minted => Number.ofBigInt minted
       | Throw _ =>
           match answer w (5 + clock s) (call_balanceOf a) with
           | Ok bal => Number.ofBigInt bal
           | Throw _ => 0
           end
       end /\
     (forall minted,
        answer w (4 + clock s) (call_mintedCount a) = Ok minted ->
        0 <= minted < 2 ^ 53 ->
        userMintedCount (react (snd (refreshContractData w (Some a) s))) = minted) /\
     (forall e bal,
        answer w (4 + clock s) (call_mintedCount a) = Throw e ->
        answer w (5 + clock s) (call_balanceOf a) = Ok bal ->
        0 <= bal < 2 ^ 53 ->
        userMintedCount (react (snd (refreshContractData w (Some a) s))) = bal) /\
     exists evs,
       events_since s (snd (refreshContractData w (Some a) s))
       = [Call call_totalSupply; Call call_maxSupply; Call call_mintPrice;
          Call call_maxPerWallet; SetState fTotalSupply; SetState fMaxSupply;
          SetState fMintPriceWei; SetState fContractMaxPerWallet;
          Console Log "Contract values - maxPerWallet:";
          Call (call_mintedCount a)] ++ evs)%list /\
  (a = "" ->
     userMintedCount (react (snd (refreshContractData w (Some a) s)))
     = userMintedCount (react s) /\
     events_since s (snd (refreshContractData w (Some a) s))
     = [Call call_totalSupply; Call call_maxSupply; Call call_mintPrice;
        Call call_maxPerWallet; SetState fTotalSupply; SetState fMaxSupply;
        SetState fMintPriceWei; SetState fContractMaxPerWallet;
        Console Log "Contract values - maxPerWallet:"]).
Proof.
  intros Heth Haddr H0 H1 H2 H3.
  split; [apply refreshContractData_ok|].
  assert (Hcount : a <> "" ->
    userMintedCount (react (snd (refreshContractData w (Some a) s))) =
      match answer w (4 + clock s) (call_mintedCount a) with
      | Ok minted => Number.ofBigInt minted
      | Throw _ =>
          match answer w (5 + clock s) (call_balanceOf a) with
          | Ok bal => Number.ofBigInt bal
          | Throw _ => 0
          end
      end).
  { intros Ha. assert (Ht : JsString.truthy a = true) by (destruct a; [contradiction|reflexivity]).
    open_store s. unfold refreshContractData, getContract. rewrite Heth, Haddr, Ht.
    js_unfold. rewrite H0. js_unfold. rewrite H1. js_unfold. rewrite H2. js_unfold.
    rewrite H3. js_unfold.
    repeat next_answer; reflexivity. }
  split.
  - intros Ha. split; [exact (Hcount Ha)|]. split; [|split].
    + intros minted Hm Hsafe. rewrite (Hcount Ha), Hm. apply ofBigInt_safe. exact Hsafe.
    + intros e bal Hm Hb Hsafe. rewrite (Hcount Ha), Hm, Hb. apply ofBigInt_safe. exact Hsafe.
    + assert (Ht : JsString.truthy a = true) by (destruct a; [contradiction|reflexivity]).
      open_store s. unfold refreshContractData, getContract. rewrite Heth, Haddr, Ht.
      js_unfold. rewrite H0. js_unfold. rewrite H1. js_unfold. rewrite H2. js_unfold.
      rewrite H3. js_unfold.
      repeat next_answer; eexists; since; reflexivity.
  - intros ->.
    open_store s. unfold refreshContractData, getContract. rewrite Heth, Haddr.
    js_unfold. rewrite H0. js_unfold. rewrite H1. js_unfold. rewrite H2. js_unfold.
    rewrite H3. js_unfold.
    split; [reflexivity|]. since. reflexivity.
Qed.


Lemma refreshContractData_never_throws_and_failure_keeps_state_witness :
  fst (refreshContractData (Sample.world Sample.flaky) (Some Sample.alice)
         (Sample.fresh Sample.connected)) = Ok tt /\
  react (snd (refreshContractData (Sample.world Sample.flaky) (Some Sample.alice)
                (Sample.fresh Sample.connected))) = Sample.connected.
Proof.
  destruct (refreshContractData_never_throws_and_failure_keeps_state
              (Sample.world Sample.flaky) (Some Sample.alice)
              (Sample.fresh Sample.connected)) as [H1 H2].
  split; [exact H1|].
  apply H2. right. right. left. eexists. reflexivity.
Defined.

Lemma refreshContractData_minted_count_fallback_witness :
  userMintedCount
    (react (snd (refreshContractData (Sample.world Sample.plain721) (Some Sample.alice)
                   (Sample.fresh Sample.connected)))) = 2.
Proof.
  destruct (@refreshContractData_minted_count_fallback
              (Sample.world Sample.plain721) Sample.alice
              (Sample.fresh Sample.connected) 3 1000 (10 ^ 18) 2
              eq_refl eq_refl eq_refl eq_refl eq_refl eq_refl) as (_ & H & _).
  assert (Ha : Sample.alice <> "") by discriminate.
  destruct (H Ha) as (_ & _ & Hbal & _).
  apply (Hbal (mkError None (Some "no matching fragment") None) 2 eq_refl eq_refl).
  split; [lia|reflexivity].
Defined.

(** C6 as stated fails twice over.  The empty string is an account that is
    not null, and with it the count stays at 2 although [mintedCount]
    answers 1; and a count of [2^53 + 1] is stored as [2^53]. *)
Lemma refreshContractData_minted_count_is_not_always_read :
  answer (Sample.world Sample.calm) 4 (call_mintedCount "") = Ok 1 /\
  userMintedCount
    (react (snd (refreshContractData (Sample.world Sample.calm) (Some "")
                   (Sample.fresh Sample.exhausted)))) = 2 /\
  answer (Sample.world Sample.whale) 4 (call_mintedCount Sample.alice) = Ok (2 ^ 53 + 1) /\
  userMintedCount
    (react (snd (refreshContractData (Sample.world Sample.whale) (Some Sample.alice)
                   (Sample.fresh Sample.connected)))) = 2 ^ 53.
Proof.
  split; [reflexivity|]. split; [vm_compute; reflexivity|].
  split; [reflexivity|]. vm_compute. reflexivity.
Qed.



(** ** Network guarantor and wallet session *)

Section Network.

Variable w : World.

(** Every run of the check, by the answers it gets. *)
Ltac ensure_cases :=
  repeat (first [ next_answer
                | match goal with
                  | |- context [String.eqb ?a targetChainIdHex] =>
                      destruct (String.eqb a targetChainIdHex) eqn:?; js_unfold
                  | |- context [unrecognizedChain ?e] =>
                      destruct (unrecognizedChain e) eqn:?; js_unfold
                  end ]).

Lemma ensureMonadNetwork_reads_chain_first (s : Store) :
  (exists evs, trace (snd (ensureMonadNetwork w s)) = (trace s ++ Call eth_chainId :: evs)%list) /\
  (exists evs, events_since s (snd (ensureMonadNetwork w s)) = Call eth_chainId :: evs) /\
  existsb is_requestAccounts (events_since s (snd (ensureMonadNetwork w s))) = false.
Proof.
  open_store s. unfold ensureMonadNetwork. js_unfold.
  ensure_cases;
    (split; [eexists; trace_norm; reflexivity|]);
    (split; [eexists|]; since; reflexivity).
Qed.

Lemma ensureMonadNetwork_switches (s : Store) (current : string) :
  answer w (clock s) eth_chainId = Ok current ->
  current <> targetChainIdHex ->
  exists evs,
    events_since s (snd (ensureMonadNetwork w s)) = Call eth_chainId :: Call switchRequest :: evs.
Proof.
  intros Hc Hne. apply String.eqb_neq in Hne.
  open_store s. unfold ensureMonadNetwork, switchRequest. js_unfold.
  rewrite Hc. js_unfold. rewrite Hne. js_unfold.
  ensure_cases; eexists; since; reflexivity.
Qed.

Lemma ensureMonadNetwork_adds_unknown_chain (s : Store) (current : string) (err : JsError) :
  answer w (clock s) eth_chainId = Ok current ->
  current <> targetChainIdHex ->
  answer w (1 + clock s) switchRequest = Throw err ->
  unrecognizedChain err = true ->
  fst (ensureMonadNetwork w s) = answer w (2 + clock s) (addRequest w) /\
  exists evs,
    events_since s (snd (ensureMonadNetwork w s))
    = Call eth_chainId :: Call switchRequest :: Call (addRequest w) :: evs.
Proof.
  intros Hc Hne Hs Hu. apply String.eqb_neq in Hne.
  open_store s. unfold ensureMonadNetwork, switchRequest, addRequest in *. js_unfold.
  rewrite Hc. js_unfold. rewrite Hne. js_unfold. rewrite Hs. js_unfold.
  rewrite Hu. js_unfold.
  next_answer; (split; [reflexivity|eexists; since; reflexivity]).
Qed.

Lemma ensureMonadNetwork_other_switch_failure (s : Store) (current : string) (err : JsError) :
  answer w (clock s) eth_chainId = Ok current ->
  current <> targetChainIdHex ->
  answer w (1 + clock s) switchRequest = Throw err ->
  unrecognizedChain err = false ->
  fst (ensureMonadNetwork w s) = Throw err /\
  events_since s (snd (ensureMonadNetwork w s))
  = [Call eth_chainId; Call switchRequest; Console Error "ensureMonadNetwork error"] /\
  react (snd (ensureMonadNetwork w s)) = react s.
Proof.
  intros Hc Hne Hs Hu. apply String.eqb_neq in Hne.
  open_store s. unfold ensureMonadNetwork, switchRequest in *. js_unfold.
  rewrite Hc. js_unfold. rewrite Hne. js_unfold. rewrite Hs. js_unfold.
  rewrite Hu. js_unfold.
  repeat split. since. reflexivity.
Qed.

(** [connectWallet] runs the network check, and only a check that went
    through is followed by the account request. *)
Lemma connectWallet_after_network_check (c : State) (s : Store) :
  ethereum w = true ->
  exists rest,
    events_since s (snd (connectWallet w c s))
    = (events_since s (snd (ensureMonadNetwork w s)) ++ rest)%list /\
    (fst (ensureMonadNetwork w s) = Ok tt ->
       exists rest', rest = Call eth_requestAccounts :: rest') /\
    (forall e, fst (ensureMonadNetwork w s) = Throw e ->
       rest = [Console Error ""; SetState fStatus] /\
       fst (connectWallet w c s) = Ok tt /\
       status (react (snd (connectWallet w c s))) = "Failed to connect wallet").
Proof.
  intros Heth.
  destruct (ensureMonadNetwork_reads_chain_first s) as ([evs Htr] & _ & _).
  rewrite (@events_since_app s _ _ Htr).
  remember (connectWallet w c s) as out eqn:Hout.
  unfold connectWallet in Hout. rewrite Heth in Hout. cbn [negb] in Hout.
  unfold try_catch, bind in Hout.
  destruct (ensureMonadNetwork w s) as [[[]|e] s1]; cbn [fst snd] in *.
  - unfold perform in Hout.
    destruct (answer w (clock s1) eth_requestAccounts) as [accounts|e].
    + unfold setAccount, setStatus, update in Hout.
      match type of Hout with
      | context [refreshContractData w (account c) ?s0] =>
          destruct (refreshContractData_extends w (account c) s0) as [evs' Hext];
          pose proof (refreshContractData_ok w (account c) s0) as Hok;
          destruct (refreshContractData w (account c) s0) as [[[]|e'] s2]
      end; cbn [fst snd trace] in *; [|discriminate Hok].
      subst out. cbn [fst snd].
      eexists. split; [|split; [intros _; eexists; reflexivity|intros e0 H0; discriminate H0]].
      apply events_since_app. rewrite Hext, Htr. trace_norm. reflexivity.
    + unfold console, setStatus, update, emit in Hout. subst out. cbn [fst snd trace].
      eexists. split; [|split; [intros _; eexists; reflexivity|intros e0 H0; discriminate H0]].
      apply events_since_app. cbn [trace]. rewrite Htr. trace_norm. reflexivity.
  - unfold console, setStatus, update, emit in Hout. subst out.
    cbn [fst snd trace react status].
    eexists. split; [|split; [intros H0; discriminate H0|]].
    + apply events_since_app. cbn [trace]. rewrite Htr. trace_norm. reflexivity.
    + intros e0 _. repeat split.
Qed.

End Network.

(** The test on the switch error, spelled out. *)
Lemma unrecognizedChain_spec (err : JsError) :
  unrecognizedChain err = true <->
  (code err = Some 4902 \/
   exists m, message err = Some m /\ JsString.test_ci "Unrecognized chain ID" m = true).
Proof.
  unfold unrecognizedChain. rewrite orb_true_iff. split.
  - intros [H|H].
    + left. destruct (code err) as [k|]; [|discriminate].
      apply Z.eqb_eq in H. now subst k.
    + right. destruct (message err) as [m|]; [|discriminate]. exists m. now split.
  - intros [H|(m & Hm & H)].
    + left. rewrite H. reflexivity.
    + right. rewrite Hm. exact H.
Qed.

(** The network definition sent with the add request, spelled out. *)
Lemma monadTestnet_spec (w : World) :
  monadTestnet w
  = {| chainId := "0x279F";
       chainName := "Monad Testnet";
       nativeCurrency := ("MON", "MON", 18);
       rpcUrls := [match VITE_MONAD_RPC_URL w with
                   | Some (String ch u) => String ch u
                   | _ => "https://testnet-rpc.monad.xyz"
                   end];
       blockExplorerUrls := ["https://testnet.monadexplorer.com"] |}.
Proof.
  unfold monadTestnet, JsString.or_else.
  destruct (VITE_MONAD_RPC_URL w) as [[|ch u]|]; reflexivity.
Qed.

Lemma ensureMonadNetwork_stays_on_target (w : World) (s : Store) :
  answer w (clock s) eth_chainId = Ok targetChainIdHex ->
  fst (ensureMonadNetwork w s) = Ok tt /\
  events_since s (snd (ensureMonadNetwork w s)) = [Call eth_chainId] /\
  react (snd (ensureMonadNetwork w s)) = react s.
Proof.
  intros Hc. open_store s. unfold ensureMonadNetwork. js_unfold.
  rewrite Hc. js_unfold. rewrite String.eqb_refl. js_unfold.
  split; [reflexivity|]. split; [since; reflexivity|reflexivity].
Qed.

Lemma ensureMonadNetwork_switched (w : World) (s : Store) (current : string) :
  answer w (clock s) eth_chainId = Ok current ->
  current <> targetChainIdHex ->
  answer w (1 + clock s) switchRequest = Ok tt ->
  fst (ensureMonadNetwork w s) = Ok tt /\
  events_since s (snd (ensureMonadNetwork w s)) = [Call eth_chainId; Call switchRequest].
Proof.
  intros Hc Hne Hs. apply String.eqb_neq in Hne.
  open_store s. unfold ensureMonadNetwork, switchRequest in *. js_unfold.
  rewrite Hc. js_unfold. rewrite Hne. js_unfold. rewrite Hs. js_unfold.
  split; [reflexivity|]. since. reflexivity.
Qed.

Lemma ensureMonadNetwork_added
  (w : World) (s : Store) (current : string) (err : JsError)
  (p : AddEthereumChainParameter) :
  p = monadTestnet w ->
  answer w (clock s) eth_chainId = Ok current ->
  current <> targetChainIdHex ->
  answer w (1 + clock s) switchRequest = Throw err ->
  unrecognizedChain err = true ->
  fst (ensureMonadNetwork w s) = answer w (2 + clock s) (wallet_addEthereumChain p) /\
  events_since s (snd (ensureMonadNetwork w s))
  = ([Call eth_chainId; Call switchRequest; Call (wallet_addEthereumChain p)]
     ++ match answer w (2 + clock s) (wallet_addEthereumChain p) with
        | Ok _ => []
        | Throw _ => [Console Error "ensureMonadNetwork error"]
        end)%list.
Proof.
  intros -> Hc Hne Hs Hu. apply String.eqb_neq in Hne.
  open_store s. unfold ensureMonadNetwork, switchRequest in *. js_unfold.
  rewrite Hc. js_unfold. rewrite Hne. js_unfold. rewrite Hs. js_unfold.
  rewrite Hu. js_unfold.
  next_answer; (split; [try destruct u; reflexivity|since; reflexivity]).
Qed.

(** C7. [ensureMonadNetwork] first reads the wallet's chain id and sends
    nothing more when it is the target id "0x279F"; when it differs it
    requests a switch to that id; a switch refused with code 4902, or with a
    message in which "Unrecognized chain ID" occurs in whatever case, is
    followed by one add-chain request carrying the configured network
    definition (chain id "0x279F", name "Monad Testnet", currency MON with
    18 decimals, the RPC URL of the build or else the public one, the
    explorer URL), whose outcome is the outcome of the check; any other
    switch failure is thrown on, without a further request, and
    [connectWallet] then ends with the status "Failed to connect wallet".
    [connectWallet] asks for the accounts only after the check, and only
    when the check succeeded. *)
Theorem ensureMonadNetwork_switch_add_or_fail (w : World) (c : State) (s : Store) :
  (exists evs, events_since s (snd (ensureMonadNetwork w s)) = Call eth_chainId :: evs) /\
  (answer w (clock s) eth_chainId = Ok "0x279F" ->
     fst (ensureMonadNetwork w s) = Ok tt /\
     events_since s (snd (ensureMonadNetwork w s)) = [Call eth_chainId]) /\
  (forall current,
     answer w (clock s) eth_chainId = Ok current ->
     current <> "0x279F" ->
     (exists evs, events_since s (snd (ensureMonadNetwork w s))
                  = Call eth_chainId :: Call (wallet_switchEthereumChain "0x279F") :: evs) /\
     (answer w (1 + clock s) (wallet_switchEthereumChain "0x279F") = Ok tt ->
        fst (ensureMonadNetwork w s) = Ok tt /\
        events_since s (snd (ensureMonadNetwork w s))
        = [Call eth_chainId; Call (wallet_switchEthereumChain "0x279F")]) /\
     (forall err,
        answer w (1 + clock s) (wallet_switchEthereumChain "0x279F") = Throw err ->
        let definition :=
          {| chainId := "0x279F";
             chainName := "Monad Testnet";
             nativeCurrency := ("MON", "MON", 18);
             rpcUrls := [match VITE_MONAD_RPC_URL w with
                         | Some (String ch u) => String ch u
                         | _ => "https://testnet-rpc.monad.xyz"
                         end];
             blockExplorerUrls := ["https://testnet.monadexplorer.com"] |} in
        (code err = Some 4902 \/
         (exists m, message err = Some m /\
                    JsString.test_ci "Unrecognized chain ID" m = true) ->
           fst (ensureMonadNetwork w s)
           = answer w (2 + clock s) (wallet_addEthereumChain definition) /\
           events_since s (snd (ensureMonadNetwork w s))
           = ([Call eth_chainId; Call (wallet_switchEthereumChain "0x279F");
               Call (wallet_addEthereumChain definition)]
              ++ match answer w (2 + clock s) (wallet_addEthereumChain definition) with
                 | Ok _ => []
                 | Throw _ => [Console Error "ensureMonadNetwork error"]
                 end)%list) /\
        (code err <> Some 4902 ->
         (forall m, message err = Some m ->
                    JsString.test_ci "Unrecognized chain ID" m = false) ->
           fst (ensureMonadNetwork w s) = Throw err /\
           events_since s (snd (ensureMonadNetwork w s))
           = [Call eth_chainId; Call (wallet_switchEthereumChain "0x279F");
              Console Error "ensureMonadNetwork error"] /\
           (ethereum w = true ->
              fst (connectWallet w c s) = Ok tt /\
              status (react (snd (connectWallet w c s))) = "Failed to connect wallet" /\
              events_since s (snd (connectWallet w c s))
              = [Call eth_chainId; Call (wallet_switchEthereumChain "0x279F");
                 Console Error "ensureMonadNetwork error";
                 Console Error ""; SetState fStatus])))) /\
  (ethereum w = true ->
     existsb is_requestAccounts (events_since s (snd (ensureMonadNetwork w s))) = false /\
     exists rest,
       events_since s (snd (connectWallet w c s))
       = (events_since s (snd (ensureMonadNetwork w s)) ++ rest)%list /\
       (fst (ensureMonadNetwork w s) = Ok tt ->
          exists rest', rest = Call eth_requestAccounts :: rest') /\
       (forall e, fst (ensureMonadNetwork w s) = Throw e ->
          rest = [Console Error ""; SetState fStatus])) /\
  JsString.test_ci "Unrecognized chain ID"
    "Unrecognized chain ID 0x279f. Try adding the chain using wallet_addEthereumChain first."
  = true /\
  JsString.test_ci "Unrecognized chain ID" "error: unrecognized CHAIN id" = true /\
  JsString.test_ci "Unrecognized chain ID" "User rejected the request." = false /\
  JsString.test_ci "Unrecognized chain ID" "Unrecognized chain" = false.
Proof.
  split; [apply ensureMonadNetwork_reads_chain_first|].
  split; [intros Hc; destruct (@ensureMonadNetwork_stays_on_target w s Hc) as (H1 & H2 & _);
          split; assumption|].
  split; [|split; [|repeat split; vm_compute; reflexivity]].
  - intros current Hc Hne.
    change "0x279F" with targetChainIdHex in Hne.
    change (wallet_switchEthereumChain "0x279F") with switchRequest.
    split; [exact (ensureMonadNetwork_switches w s Hc Hne)|].
    split; [exact (@ensureMonadNetwork_switched w s current Hc Hne)|].
    intros err Hs definition. split.
    + intros Hu. apply unrecognizedChain_spec in Hu.
      exact (@ensureMonadNetwork_added w s current err definition
               (eq_sym (monadTestnet_spec w)) Hc Hne Hs Hu).
    + intros Hcode Hmsg.
      assert (Hu : unrecognizedChain err = false).
      { destruct (unrecognizedChain err) eqn:E; [|reflexivity].
        apply unrecognizedChain_spec in E as [E|(m & Hm & E)].
        - contradiction.
        - rewrite (Hmsg m Hm) in E. discriminate E. }
      destruct (ensureMonadNetwork_other_switch_failure w s Hc Hne Hs Hu) as (Hr & Hev & _).
      split; [exact Hr|]. split; [exact Hev|].
      intros Heth.
      destruct (connectWallet_after_network_check w c s Heth) as (rest & Hall & _ & Hfail).
      destruct (Hfail err Hr) as (-> & Hok & Hst).
      rewrite Hall, Hev. repeat split; assumption.
  - intros Heth.
    split; [apply ensureMonadNetwork_reads_chain_first|].
    destruct (connectWallet_after_network_check w c s Heth) as (rest & Hall & Hok & Hfail).
    exists rest. split; [exact Hall|]. split; [exact Hok|].
    intros e He. exact (proj1 (Hfail e He)).
Qed.

Lemma ensureMonadNetwork_switch_add_or_fail_witness :
  fst (ensureMonadNetwork (Sample.world Sample.elsewhere) (Sample.fresh initialState)) = Ok tt /\
  events_since (Sample.fresh initialState)
    (snd (ensureMonadNetwork (Sample.world Sample.elsewhere) (Sample.fresh initialState)))
  = [Call eth_chainId; Call (wallet_switchEthereumChain "0x279F");
     Call (wallet_addEthereumChain
             {| chainId := "0x279F";
                chainName := "Monad Testnet";
                nativeCurrency := ("MON", "MON", 18);
                rpcUrls := ["https://testnet-rpc.monad.xyz"];
                blockExplorerUrls := ["https://testnet.monadexplorer.com"] |})].
Proof.
  pose proof (ensureMonadNetwork_switch_add_or_fail
                (Sample.world Sample.elsewhere) initialState (Sample.fresh initialState)) as H.
  destruct H as (_ & _ & H & _).
  assert (Hne : "0x1" <> "0x279F") by discriminate.
  destruct (H "0x1" eq_refl Hne) as (_ & _ & Hsw).
  destruct (Hsw _ eq_refl) as (Hadd & _).
  exact (Hadd (or_introl eq_refl)).
Defined.

(** ** Mint orchestrator: retries *)

Section Retry.

Variable w : World.
Variable c : State.
Variable totalPrice : Z.

Lemma attemptMint_step (attempt : nat) (s : Store) :
  attemptMint w c totalPrice attempt s =
  match submitMint w c totalPrice s with
  | (Ok u, s') => (Ok u, s')
  | (Throw err, s') =>
      if isRateLimited err && (attempt <? 3)%nat
      then attemptMint w c totalPrice (S attempt) (snd (backoff attempt s'))
      else (Throw err, s')
  end.
Proof.
  rewrite attemptMint_equation_1.
  destruct (submitMint w c totalPrice s) as [[u|err] s'].
  - reflexivity.
  - rewrite attemptMint_clause_1_equation_2.
    destruct (bool_dec (isRateLimited err && (attempt <? 3)%nat) true) as [H|H].
    + rewrite attemptMint_clause_1_clause_2_equation_1. rewrite H. reflexivity.
    + rewrite attemptMint_clause_1_clause_2_equation_2.
      apply not_true_is_false in H. rewrite H. reflexivity.
Qed.


(** A submission that is rejected stops the [try] block at once. *)
Lemma submitMint_rejected (s : Store) (e : JsError) :
  answer w (clock s) (sendRequest c totalPrice) = Throw e ->
  submitMint w c totalPrice s
  = (Throw e, {| react := react s; trace := trace s ++ [Call (sendRequest c totalPrice)]; clock := S (clock s) |}).
Proof.
  intros H. open_store s. unfold submitMint, sendRequest in *. js_unfold.
  rewrite H. reflexivity.
Qed.

(** One rate-limited attempt below the bound: a status, a wait of
    [500 * 2^attempt] ms, and the next attempt. *)
Lemma attemptMint_retry (attempt : nat) (s : Store) (e : JsError) :
  answer w (clock s) (sendRequest c totalPrice) = Throw e ->
  isRateLimited e = true ->
  (attempt < 3)%nat ->
  exists st,
    attemptMint w c totalPrice attempt s =
    attemptMint w c totalPrice (S attempt)
      {| react := st;
         trace := trace s ++ [Call (sendRequest c totalPrice); SetState fStatus; Timeout (delayMs attempt)];
         clock := S (clock s) |}.
Proof.
  intros Ha He Hlt. rewrite attemptMint_step, (submitMint_rejected s Ha), He.
  apply Nat.ltb_lt in Hlt. rewrite Hlt. cbn [andb].
  unfold backoff, bind, setStatus, update, sleep, emit. cbn [fst snd react trace clock].
  eexists. trace_norm. reflexivity.
Qed.

(** At attempt 3 the error is thrown on. *)
Lemma attemptMint_gives_up (attempt : nat) (s : Store) (e : JsError) :
  answer w (clock s) (sendRequest c totalPrice) = Throw e ->
  (3 <= attempt)%nat ->
  attemptMint w c totalPrice attempt s
  = (Throw e, {| react := react s; trace := trace s ++ [Call (sendRequest c totalPrice)]; clock := S (clock s) |}).
Proof.
  intros Ha Hge. rewrite attemptMint_step, (submitMint_rejected s Ha).
  apply Nat.ltb_ge in Hge. rewrite Hge, andb_false_r. reflexivity.
Qed.

Lemma attemptMint_all_rate_limited (s : Store) :
  (forall n, exists e, answer w n (sendRequest c totalPrice) = Throw e /\ isRateLimited e = true) ->
  exists e st,
    answer w (3 + clock s) (sendRequest c totalPrice) = Throw e /\
    attemptMint w c totalPrice 0 s
    = (Throw e,
       {| react := st;
          trace := trace s ++ [Call (sendRequest c totalPrice); SetState fStatus; Timeout 500;
                               Call (sendRequest c totalPrice); SetState fStatus; Timeout 1000;
                               Call (sendRequest c totalPrice); SetState fStatus; Timeout 2000;
                               Call (sendRequest c totalPrice)];
          clock := 4 + clock s |}).
Proof.
  intros Hrl.
  destruct (Hrl (clock s)) as (e0 & A0 & R0).
  destruct (Hrl (1 + clock s)%nat) as (e1 & A1 & R1).
  destruct (Hrl (2 + clock s)%nat) as (e2 & A2 & R2).
  destruct (Hrl (3 + clock s)%nat) as (e3 & A3 & R3).
  cbn [Nat.add] in *.
  destruct (@attemptMint_retry 0%nat s e0 A0 R0 ltac:(lia)) as [st0 ->].
  match goal with
  | |- context [attemptMint w c totalPrice 1 ?s1] =>
      destruct (@attemptMint_retry 1%nat s1 e1 A1 R1 ltac:(lia)) as [st1 ->]
  end.
  match goal with
  | |- context [attemptMint w c totalPrice 2 ?s2] =>
      destruct (@attemptMint_retry 2%nat s2 e2 A2 R2 ltac:(lia)) as [st2 ->]
  end.
  match goal with
  | |- context [attemptMint w c totalPrice 3 ?s3] =>
      rewrite (@attemptMint_gives_up 3%nat s3 e3 A3 ltac:(lia))
  end.
  cbn [trace clock react]. exists e3, st2. split; [exact A3|].
  trace_norm. reflexivity.
Qed.

End Retry.

(** [mintNFT] once the quantity is accepted, the signer obtained and the
    price read: the dry run and the submission, under the outer handler. *)
Lemma mintNFT_after_price (w : World) (c : State) (s : Store) (price : Z) :
  ethereum w = true ->
  quantityAccepted c = true ->
  JsString.truthy_opt (CONTRACT_ADDRESS w) = true ->
  answer w (clock s) getSigner = Ok tt ->
  answer w (1 + clock s) call_mintPrice = Ok price ->
  mintNFT w c s
  = finally
      (try_catch
         (simulate w c (price * mintQuantity c) ;;
          attemptMint w c (price * mintQuantity c) 0)
         mintFailed)
      (setMinting false) (prepared s).
Proof.
  intros Heth Hq Haddr Hsig Hprice.
  unfold quantityAccepted in Hq.
  apply andb_prop in Hq as [Hq H4]. apply andb_prop in Hq as [Hq H3].
  apply andb_prop in Hq as [H1 H2].
  apply negb_true_iff in H1, H2, H3, H4.
  unfold mintNFT, getContract. rewrite Heth, Haddr.
  cbn [negb]. cbv zeta. rewrite H1, H2, H3.
  unfold bind at 1. unfold console at 1. unfold emit at 1.
  rewrite H4.
  unfold bind at 1. unfold setMinting at 1. unfold update at 1.
  unfold bind at 1. unfold setStatus at 1. unfold update at 1.
  unfold finally, try_catch, bind, perform, ret, prepared.
  cbn [react trace clock Nat.add account minting totalSupply maxSupply mintPriceWei
       status mintQuantity userMintedCount contractMaxPerWallet] in *.
  rewrite Hsig, Hprice. cbn [react trace clock]. trace_norm. reflexivity.
Qed.

(** The whole operation when the checks, the signer, the price read and the
    dry run go through and every submission is rate limited. *)
Lemma mintNFT_all_rate_limited (w : World) (c : State) (s : Store) (price : Z) :
  ethereum w = true ->
  quantityAccepted c = true ->
  JsString.truthy_opt (CONTRACT_ADDRESS w) = true ->
  answer w (clock s) getSigner = Ok tt ->
  answer w (1 + clock s) call_mintPrice = Ok price ->
  answer w (2 + clock s) (mint_staticCall (mintQuantity c) (price * mintQuantity c)) = Ok tt ->
  answer w (3 + clock s) (mint_estimateGas (mintQuantity c) (price * mintQuantity c)) = Ok tt ->
  (forall n, exists e,
     answer w n (sendRequest c (price * mintQuantity c)) = Throw e /\ isRateLimited e = true) ->
  exists e,
    answer w (7 + clock s) (sendRequest c (price * mintQuantity c)) = Throw e /\
    fst (mintNFT w c s) = Ok tt /\
    minting (react (snd (mintNFT w c s))) = false /\
    status (react (snd (mintNFT w c s))) = JsString.or_else (message e) "Mint failed" /\
    submissions (events_since s (snd (mintNFT w c s))) = 4%nat /\
    timeouts (events_since s (snd (mintNFT w c s))) = [500; 1000; 2000].
Proof.
  intros Heth Hq Haddr Hsig Hprice Hstatic Hgas Hrl.
  rewrite (@mintNFT_after_price w c s price Heth Hq Haddr Hsig Hprice).
  unfold finally, simulate, try_catch, bind, perform, prepared.
  cbn [fst snd react trace clock Nat.add] in *.
  rewrite Hstatic. cbn [fst snd react trace clock]. rewrite Hgas.
  cbn [fst snd react trace clock].
  match goal with
  | |- context [attemptMint w c ?p 0 ?s0] =>
      destruct (@attemptMint_all_rate_limited w c p s0 Hrl) as (e & st & He & Hrun);
      rewrite Hrun
  end.
  unfold mintFailed, bind, console, emit, setStatus, setMinting, update.
  cbn [fst snd react trace clock Nat.add minting status] in *.
  exists e. split; [exact He|]. repeat split.
  - since. reflexivity.
  - since. reflexivity.
Qed.

(** C1, as the code has it.  When every submission of the mint transaction
    fails with a rate-limit RPC error, [attemptMint] submits four times
    (attempts 0 to 3, the gate [attempt < 3] letting attempts 0, 1 and 2
    retry), waits three times, 500 ms, 1000 ms and 2000 ms (the wait before
    retry [i] is [500 * 2^i] ms), never submits a fifth time, and throws the
    fourth error; [mintNFT] then ends with that error's message as status and
    the minting flag cleared. *)
Theorem attemptMint_rate_limited_three_waits
  (w : World) (c : State) (totalPrice : Z) (s : Store) :
  (forall n, exists e,
     answer w n (sendRequest c totalPrice) = Throw e /\ isRateLimited e = true) ->
  (exists e, fst (attemptMint w c totalPrice 0 s) = Throw e /\
             answer w (3 + clock s) (sendRequest c totalPrice) = Throw e) /\
  submissions (events_since s (snd (attemptMint w c totalPrice 0 s))) = 4%nat /\
  timeouts (events_since s (snd (attemptMint w c totalPrice 0 s)))
  = [delayMs 0; delayMs 1; delayMs 2] /\
  timeouts (events_since s (snd (attemptMint w c totalPrice 0 s))) = [500; 1000; 2000] /\
  clock (snd (attemptMint w c totalPrice 0 s)) = (4 + clock s)%nat /\
  (forall price,
     totalPrice = price * mintQuantity c ->
     ethereum w = true ->
     quantityAccepted c = true ->
     JsString.truthy_opt (CONTRACT_ADDRESS w) = true ->
     answer w (clock s) getSigner = Ok tt ->
     answer w (1 + clock s) call_mintPrice = Ok price ->
     answer w (2 + clock s) (mint_staticCall (mintQuantity c) totalPrice) = Ok tt ->
     answer w (3 + clock s) (mint_estimateGas (mintQuantity c) totalPrice) = Ok tt ->
     exists e,
       answer w (7 + clock s) (sendRequest c totalPrice) = Throw e /\
       fst (mintNFT w c s) = Ok tt /\
       minting (react (snd (mintNFT w c s))) = false /\
       status (react (snd (mintNFT w c s))) = JsString.or_else (message e) "Mint failed" /\
       submissions (events_since s (snd (mintNFT w c s))) = 4%nat /\
       timeouts (events_since s (snd (mintNFT w c s))) = [500; 1000; 2000]).
Proof.
  intros Hrl.
  destruct (@attemptMint_all_rate_limited w c totalPrice s Hrl) as (e & st & He & Hrun).
  rewrite Hrun. cbn [fst snd clock].
  split; [exists e; split; [reflexivity|exact He]|].
  repeat split; try (since; reflexivity).
  intros price -> Heth Hq Haddr Hsig Hprice Hstatic Hgas.
  exact (@mintNFT_all_rate_limited w c s price Heth Hq Haddr Hsig Hprice Hstatic Hgas Hrl).
Qed.

Lemma attemptMint_rate_limited_three_waits_witness :
  submissions
    (events_since (Sample.fresh Sample.connected)
       (snd (attemptMint (Sample.world Sample.throttled) Sample.connected (10 ^ 18) 0
               (Sample.fresh Sample.connected)))) = 4%nat /\
  timeouts
    (events_since (Sample.fresh Sample.connected)
       (snd (attemptMint (Sample.world Sample.throttled) Sample.connected (10 ^ 18) 0
               (Sample.fresh Sample.connected)))) = [500; 1000; 2000].
Proof.
  assert (Hrl : forall n, exists e,
            answer (Sample.world Sample.throttled) n (sendRequest Sample.connected (10 ^ 18))
            = Throw e /\ isRateLimited e = true).
  { intros n. exists Sample.rateLimited. split; reflexivity. }
  destruct (@attemptMint_rate_limited_three_waits
              (Sample.world Sample.throttled) Sample.connected
              (10 ^ 18) (Sample.fresh Sample.connected) Hrl)
    as (_ & Hs & _ & Ht & _).
  split; [exact Hs|exact Ht].
Defined.

(** C1 as stated fails: with every submission rate limited, the fourth
    submission is made, after a third wait of 2000 ms. *)
Lemma attemptMint_fourth_submission_is_made :
  (forall n q v, answer (Sample.world Sample.throttled) n (mint_send q v)
                 = Throw Sample.rateLimited) /\
  isRateLimited Sample.rateLimited = true /\
  submissions
    (events_since (Sample.fresh Sample.connected)
       (snd (mintNFT (Sample.world Sample.throttled) Sample.connected
               (Sample.fresh Sample.connected)))) = 4%nat /\
  timeouts
    (events_since (Sample.fresh Sample.connected)
       (snd (mintNFT (Sample.world Sample.throttled) Sample.connected
               (Sample.fresh Sample.connected)))) = [500; 1000; 2000] /\
  ~ ((submissions
        (events_since (Sample.fresh Sample.connected)
           (snd (mintNFT (Sample.world Sample.throttled) Sample.connected
                   (Sample.fresh Sample.connected)))) <= 3)%nat /\
     timeouts
       (events_since (Sample.fresh Sample.connected)
          (snd (mintNFT (Sample.world Sample.throttled) Sample.connected
                  (Sample.fresh Sample.connected)))) = [500; 1000]).
Proof.
  split; [reflexivity|]. split; [reflexivity|].
  assert (Hs : submissions
    (events_since (Sample.fresh Sample.connected)
       (snd (mintNFT (Sample.world Sample.throttled) Sample.connected
               (Sample.fresh Sample.connected)))) = 4%nat) by (vm_compute; reflexivity).
  assert (Ht : timeouts
    (events_since (Sample.fresh Sample.connected)
       (snd (mintNFT (Sample.world Sample.throttled) Sample.connected
               (Sample.fresh Sample.connected)))) = [500; 1000; 2000]) by (vm_compute; reflexivity).
  split; [exact Hs|]. split; [exact Ht|].
  rewrite Hs. intros [Hle _]. lia.
Qed.

(** ** Mint orchestrator: validation *)

(** In a safe state the two remainders [mintNFT] computes are safe
    integers, and print as their decimal digits. *)
Lemma safeState_remainders (c : State) :
  safeState c = true ->
  Number.toString (remainingAllowance c) = BigInt.toString (remainingAllowance c) /\
  Number.toString (remainingSupply c) = BigInt.toString (remainingSupply c) /\
  Number.toString (userMintedCount c) = BigInt.toString (userMintedCount c) /\
  Number.toString (mintQuantity c) = BigInt.toString (mintQuantity c).
Proof.
  unfold safeState. rewrite !andb_true_iff, !safeCount_spec, isSafeInteger_spec.
  intros ((((Ht & Hm) & Hu) & Hc) & Hq).
  unfold remainingAllowance, remainingSupply.
  repeat split; apply toString_safe, isSafeInteger_spec; lia.
Qed.

(** C4, as the code has it.  For a quantity outside
    [1, min(contractMaxPerWallet - userMintedCount, maxSupply - totalSupply)]
    [mintNFT] returns before any request is sent and without touching the
    minting flag.  When some allowance is left it reports through one alert
    and leaves the whole state as it was; when none is left it reports by
    setting the status to "Max per wallet reached", the one state change.
    With safe integers on the page, the alert reads "Quantity must be 1-"
    followed by the digits of the remaining allowance, or, for a quantity
    within the allowance, "Only n left in supply" with the digits of the
    remaining supply. *)
Theorem mintNFT_rejects_invalid_quantity (w : World) (c : State) (s : Store) :
  ethereum w = true ->
  mintQuantity c < 1 \/
  mintQuantity c > Z.min (contractMaxPerWallet c - userMintedCount c)
                         (maxSupply c - totalSupply c) ->
  fst (mintNFT w c s) = Ok tt /\
  existsb is_call (events_since s (snd (mintNFT w c s))) = false /\
  clock (snd (mintNFT w c s)) = clock s /\
  existsb (writes fMinting) (events_since s (snd (mintNFT w c s))) = false /\
  same_but_status (react (snd (mintNFT w c s))) (react s) /\
  (remainingAllowance c <= 0 ->
     events_since s (snd (mintNFT w c s)) = [SetState fStatus] /\
     status (react (snd (mintNFT w c s))) = "Max per wallet reached") /\
  (0 < remainingAllowance c ->
     react (snd (mintNFT w c s)) = react s /\
     (exists msg, events_since s (snd (mintNFT w c s)) = [Alert msg]) /\
     (safeState c = true ->
        events_since s (snd (mintNFT w c s))
        = [Alert (if (mintQuantity c <? 1) || (mintQuantity c >? remainingAllowance c)
                  then "Quantity must be 1-" ++ BigInt.toString (remainingAllowance c)
                  else "Only " ++ BigInt.toString (remainingSupply c)
                       ++ " left in supply")])).
Proof.
  intros Heth Hout. unfold mintNFT. rewrite Heth. cbn [negb]. cbv zeta.
  unfold same_but_status.
  destruct (Z.leb_spec (remainingAllowance c) 0) as [Hra|Hra].
  - unfold setStatus, update. cbn [fst snd react trace clock status account minting
      totalSupply maxSupply mintPriceWei mintQuantity userMintedCount contractMaxPerWallet].
    repeat split; try (since; reflexivity); try lia.
  - destruct ((mintQuantity c <? 1) || (mintQuantity c >? remainingAllowance c)) eqn:Hq.
    + unfold alert, emit. cbn [fst snd react trace clock].
      repeat split; try (since; reflexivity); try lia.
      * eexists. since. reflexivity.
      * intros Hsafe. destruct (safeState_remainders c Hsafe) as (<- & _).
        since. reflexivity.
    + apply orb_false_elim in Hq as [Hq1 Hq2].
      apply Z.ltb_ge in Hq1. rewrite Z.gtb_ltb in Hq2. apply Z.ltb_ge in Hq2.
      assert (Hsup : (mintQuantity c >? remainingSupply c) = true).
      { rewrite Z.gtb_ltb. apply Z.ltb_lt.
        unfold remainingAllowance, remainingSupply in *. lia. }
      rewrite Hsup. unfold alert, emit. cbn [fst snd react trace clock].
      repeat split; try (since; reflexivity); try lia.
      * eexists. since. reflexivity.
      * intros Hsafe. destruct (safeState_remainders c Hsafe) as (_ & <- & _).
        since. reflexivity.
Qed.

Lemma mintNFT_rejects_invalid_quantity_witness :
  events_since (Sample.fresh Sample.connected)
    (snd (mintNFT (Sample.world Sample.calm)
            (withMintQuantity 3 Sample.connected) (Sample.fresh Sample.connected)))
  = [Alert "Quantity must be 1-2"].
Proof.
  assert (Heth : ethereum (Sample.world Sample.calm) = true) by reflexivity.
  assert (Hout : mintQuantity (withMintQuantity 3 Sample.connected) < 1 \/
                 mintQuantity (withMintQuantity 3 Sample.connected)
                 > Z.min (contractMaxPerWallet (withMintQuantity 3 Sample.connected)
                          - userMintedCount (withMintQuantity 3 Sample.connected))
                         (maxSupply (withMintQuantity 3 Sample.connected)
                          - totalSupply (withMintQuantity 3 Sample.connected)))
    by (right; vm_compute; reflexivity).
  assert (Hra : 0 < remainingAllowance (withMintQuantity 3 Sample.connected))
    by (vm_compute; reflexivity).
  assert (Hsafe : safeState (withMintQuantity 3 Sample.connected) = true)
    by (vm_compute; reflexivity).
  destruct (@mintNFT_rejects_invalid_quantity
              (Sample.world Sample.calm) (withMintQuantity 3 Sample.connected)
              (Sample.fresh Sample.connected) Heth Hout)
    as (_ & _ & _ & _ & _ & _ & Halert).
  exact (proj2 (proj2 (Halert Hra)) Hsafe).
Defined.

(** C4 as stated fails: with the allowance used up every quantity is out of
    range, and the report goes through the status, which is a state change. *)
Lemma mintNFT_exhausted_allowance_sets_status :
  mintQuantity Sample.exhausted
  > Z.min (contractMaxPerWallet Sample.exhausted - userMintedCount Sample.exhausted)
          (maxSupply Sample.exhausted - totalSupply Sample.exhausted) /\
  status (react (Sample.fresh Sample.exhausted)) = "" /\
  status (react (snd (mintNFT (Sample.world Sample.calm) Sample.exhausted
                        (Sample.fresh Sample.exhausted)))) = "Max per wallet reached" /\
  react (snd (mintNFT (Sample.world Sample.calm) Sample.exhausted
                (Sample.fresh Sample.exhausted)))
  <> react (Sample.fresh Sample.exhausted).
Proof.
  split; [vm_compute; reflexivity|]. split; [reflexivity|]. split; [reflexivity|].
  vm_compute. discriminate.
Qed.

(** ** Mint orchestrator: simulation *)

Section Simulation.

Variable w : World.
Variable c : State.
Variable totalPrice : Z.

Lemma submitMint_submits_first (s : Store) :
  exists evs,
    trace (snd (submitMint w c totalPrice s))
    = (trace s ++ Call (sendRequest c totalPrice) :: evs)%list.
Proof.
  remember (submitMint w c totalPrice s) as out eqn:Hout.
  unfold submitMint, sendRequest, bind, perform, setStatus, update in *.
  destruct (answer w (clock s) (mint_send (mintQuantity c) totalPrice)).
  - cbn [fst snd react trace clock] in Hout.
    destruct (answer w (S (clock s)) tx_wait).
    + match type of Hout with
      | context [refreshContractData w (account c) ?s0] =>
          destruct (refreshContractData_extends w (account c) s0) as [evs' Hext]
      end.
      subst out. rewrite Hext. cbn [trace]. eexists. trace_norm. reflexivity.
    + subst out. cbn [snd trace]. eexists. trace_norm. reflexivity.
  - subst out. cbn [snd trace]. eexists. reflexivity.
Qed.

(** Whatever happens next, [attemptMint] begins by sending the transaction. *)
Lemma attemptMint_submits_first (attempt : nat) (s : Store) :
  exists evs,
    trace (snd (attemptMint w c totalPrice attempt s))
    = (trace s ++ Call (sendRequest c totalPrice) :: evs)%list.
Proof.
  remember (3 - attempt)%nat as k eqn:Hk.
  revert attempt s Hk. induction k as [|k IH]; intros attempt s Hk;
    rewrite attemptMint_step;
    destruct (submitMint_submits_first s) as [evs Hevs];
    destruct (submitMint w c totalPrice s) as [[u|err] s']; cbn [snd] in Hevs;
    try (exists evs; exact Hevs).
  - assert (Hge : (attempt <? 3)%nat = false) by (apply Nat.ltb_ge; lia).
    rewrite Hge, andb_false_r. exists evs. exact Hevs.
  - destruct (isRateLimited err && (attempt <? 3)%nat) eqn:Hretry;
      [|exists evs; exact Hevs].
    destruct (IH (S attempt) (snd (backoff attempt s')) ltac:(lia)) as [evs' Hevs'].
    rewrite Hevs'. unfold backoff, bind, setStatus, update, sleep, emit.
    cbn [fst snd trace]. rewrite Hevs. eexists. trace_norm. reflexivity.
Qed.

End Simulation.


(** A benign failure of the simulation: a warning, an advisory status, and
    the handler returns normally. *)
Lemma simulate_benign (w : World) (c : State) (totalPrice : Z) (s : Store) (simErr : JsError) :
  simulationFails w c totalPrice (clock s) simErr ->
  benignSimFailure (simulationMessage simErr) = true ->
  exists s' pre,
    simulate w c totalPrice s = (Ok tt, s') /\
    trace s' = (trace s ++ pre ++ [Console Warn "Simulation failed, proceeding to send:";
                                   SetState fStatus])%list /\
    existsb is_submission pre = false /\
    status (react s') = "Simulation unavailable, submitting transaction...".
Proof.
  intros Hfail Hbenign. unfold simulate, try_catch, bind, perform.
  destruct Hfail as [H|[H1 H2]].
  - rewrite H. cbv zeta. rewrite Hbenign. unfold console, emit, setStatus, update.
    cbn [fst snd react trace clock status].
    eexists. exists [Call (mint_staticCall (mintQuantity c) totalPrice)].
    split; [reflexivity|]. split; [trace_norm; reflexivity|]. split; reflexivity.
  - rewrite H1. cbn [fst snd react trace clock]. rewrite H2. cbv zeta.
    rewrite Hbenign. unfold console, emit, setStatus, update.
    cbn [fst snd react trace clock status].
    eexists. exists [Call (mint_staticCall (mintQuantity c) totalPrice);
                     Call (mint_estimateGas (mintQuantity c) totalPrice)].
    split; [reflexivity|]. split; [trace_norm; reflexivity|]. split; reflexivity.
Qed.

(** Any other failure: the inspected message becomes the status and the
    error is thrown on. *)
Lemma simulate_fatal (w : World) (c : State) (totalPrice : Z) (s : Store) (simErr : JsError) :
  simulationFails w c totalPrice (clock s) simErr ->
  benignSimFailure (simulationMessage simErr) = false ->
  exists s' pre,
    simulate w c totalPrice s = (Throw simErr, s') /\
    trace s' = (trace s ++ pre ++ [SetState fStatus])%list /\
    existsb is_submission pre = false /\
    status (react s') = simulationMessage simErr /\
    minting (react s') = minting (react s).
Proof.
  intros Hfail Hbenign. unfold simulate, try_catch, bind, perform.
  destruct Hfail as [H|[H1 H2]].
  - rewrite H. cbv zeta. rewrite Hbenign. unfold throw, setStatus, update.
    cbn [fst snd react trace clock status minting].
    eexists. exists [Call (mint_staticCall (mintQuantity c) totalPrice)].
    split; [reflexivity|]. split; [trace_norm; reflexivity|]. repeat split.
  - rewrite H1. cbn [fst snd react trace clock]. rewrite H2. cbv zeta.
    rewrite Hbenign. unfold throw, setStatus, update.
    cbn [fst snd react trace clock status minting].
    eexists. exists [Call (mint_staticCall (mintQuantity c) totalPrice);
                     Call (mint_estimateGas (mintQuantity c) totalPrice)].
    split; [reflexivity|]. split; [trace_norm; reflexivity|]. repeat split.
Qed.

Section SimulationOutcome.

Variable w : World.
Variable c : State.
Variable s : Store.
Variable price : Z.
Variable simErr : JsError.

Hypothesis Heth : ethereum w = true.
Hypothesis Hq : quantityAccepted c = true.
Hypothesis Haddr : JsString.truthy_opt (CONTRACT_ADDRESS w) = true.
Hypothesis Hsig : answer w (clock s) getSigner = Ok tt.
Hypothesis Hprice : answer w (1 + clock s) call_mintPrice = Ok price.
Hypothesis Hfail : simulationFails w c (price * mintQuantity c) (2 + clock s) simErr.

(** After a benign failure the transaction is still submitted. *)
Lemma mintNFT_benign_simulation_submits :
  benignSimFailure (simulationMessage simErr) = true ->
  exists pre evs,
    events_since s (snd (mintNFT w c s))
    = (pre ++ Console Warn "Simulation failed, proceeding to send:" :: SetState fStatus
           :: Call (sendRequest c (price * mintQuantity c)) :: evs)%list /\
    existsb is_submission pre = false.
Proof.
  intros Hbenign.
  rewrite (@mintNFT_after_price w c s price Heth Hq Haddr Hsig Hprice).
  destruct (@simulate_benign w c (price * mintQuantity c) (prepared s) simErr Hfail Hbenign)
    as (s1 & pre & Hsim & Htr & Hpre & _).
  unfold finally, try_catch, bind. rewrite Hsim.
  destruct (attemptMint_submits_first w c (price * mintQuantity c) 0 s1) as [evs Hevs].
  exists ([Console Log "Mint attempt - userMintedCount:"; SetState fMinting; SetState fStatus;
           Call getSigner; Call call_mintPrice] ++ pre)%list.
  destruct (attemptMint w c (price * mintQuantity c) 0 s1) as [[u|e] s2];
    cbn [fst snd] in *.
  - unfold setMinting, update. cbn [snd trace].
    eexists. split.
    + apply events_since_app. rewrite Hevs, Htr. unfold prepared. cbn [trace].
      trace_norm. reflexivity.
    + rewrite existsb_app, Hpre. reflexivity.
  - unfold mintFailed, bind, console, emit, setStatus, setMinting, update.
    cbn [fst snd trace].
    eexists. split.
    + apply events_since_app. rewrite Hevs, Htr. unfold prepared. cbn [trace].
      trace_norm. reflexivity.
    + rewrite existsb_app, Hpre. reflexivity.
Qed.

(** After any other failure nothing is submitted, and the status the user is
    left with is the one written by the outer handler. *)
Lemma mintNFT_fatal_simulation_aborts :
  benignSimFailure (simulationMessage simErr) = false ->
  fst (mintNFT w c s) = Ok tt /\
  minting (react (snd (mintNFT w c s))) = false /\
  status (react (snd (mintNFT w c s))) = JsString.or_else (message simErr) "Mint failed" /\
  submissions (events_since s (snd (mintNFT w c s))) = 0%nat.
Proof.
  intros Hfatal.
  rewrite (@mintNFT_after_price w c s price Heth Hq Haddr Hsig Hprice).
  destruct (@simulate_fatal w c (price * mintQuantity c) (prepared s) simErr Hfail Hfatal)
    as (s1 & pre & Hsim & Htr & Hpre & _ & _).
  unfold finally, try_catch, bind. rewrite Hsim.
  unfold mintFailed, bind, console, emit, setStatus, setMinting, update.
  cbn [fst snd react trace status minting].
  repeat split.
  erewrite events_since_app.
  2:{ cbn [trace]. rewrite Htr. unfold prepared. cbn [trace]. trace_norm. reflexivity. }
  unfold submissions. cbn [filter is_submission].
  rewrite filter_app. cbn [filter is_submission app].
  rewrite app_nil_r.
  clear -Hpre. induction pre as [|ev pre IH]; [reflexivity|].
  cbn [existsb filter] in *. apply orb_false_elim in Hpre as [Hev Hpre].
  rewrite Hev. exact (IH Hpre).
Qed.

End SimulationOutcome.

(** C8, on the code.  The dry run reverts with the short message
    "execution reverted: Sale not active", which matches none of the benign
    patterns.  [mintNFT] does not submit and clears the minting flag, but the
    status it ends with is the long [message] of the error, written by the
    outer handler over the short message the simulation handler had set. *)
Theorem mintNFT_fatal_simulation_status_is_overwritten :
  simulationMessage Sample.saleClosed = "execution reverted: Sale not active" /\
  benignSimFailure (simulationMessage Sample.saleClosed) = false /\
  fst (mintNFT (Sample.world Sample.reverting) Sample.connected
         (Sample.fresh Sample.connected)) = Ok tt /\
  submissions
    (events_since (Sample.fresh Sample.connected)
       (snd (mintNFT (Sample.world Sample.reverting) Sample.connected
               (Sample.fresh Sample.connected)))) = 0%nat /\
  events_since (Sample.fresh Sample.connected)
    (snd (mintNFT (Sample.world Sample.reverting) Sample.connected
            (Sample.fresh Sample.connected)))
  = [Console Log "Mint attempt - userMintedCount:"; SetState fMinting; SetState fStatus;
     Call getSigner; Call call_mintPrice; Call (mint_staticCall 1 (10 ^ 18));
     SetState fStatus; Console Error ""; SetState fStatus; SetState fMinting] /\
  status (react (snd (mintNFT (Sample.world Sample.reverting) Sample.connected
                        (Sample.fresh Sample.connected))))
  = "execution reverted: Sale not active (action=call, data=0x08c379a0, reason=Sale not active, code=CALL_EXCEPTION, version=6.13.0)" /\
  status (react (snd (mintNFT (Sample.world Sample.reverting) Sample.connected
                        (Sample.fresh Sample.connected))))
  <> simulationMessage Sample.saleClosed.
Proof.
  repeat split; try (vm_compute; reflexivity).
  vm_compute. discriminate.
Qed.

(** ** Quantity controls *)

Section Quantity.




(** With an empty interval the number input stores [maxAllowed] itself. *)
Lemma onChange_below_one (value : string) (s : State) :
  maxAllowed s < 1 -> mintQuantity (onChange value s) = maxAllowed s.
Proof.
  intros HM. cbn [onChange withMintQuantity mintQuantity].
  unfold maxAllowed in *.
  destruct (parseInt value) as [[|p|p]|]; lia.
Qed.

End Quantity.




(** ** Progress bar *)

Section Progress.














End Progress.




(* ===================================================================== *)
(** * Part III: further properties                                        *)
(* ===================================================================== *)

(** ** Footprints of handlers *)

Section Footprint.

Variable okE : Event -> bool.
Variable R : State -> State -> Prop.
Hypothesis R_refl : forall a, R a a.
Hypothesis R_trans : forall a b c, R a b -> R b c -> R a c.

Lemma within_ret (A : Type) (a : A) : within okE R (ret a).
Proof.
  intros s. split; [apply R_refl|]. exists []. now rewrite app_nil_r.
Qed.

Lemma within_throw (A : Type) (e : JsError) : within okE R (@throw A e).
Proof.
  intros s. split; [apply R_refl|]. exists []. now rewrite app_nil_r.
Qed.

Lemma within_seq (s1 s2 s3 : Store) :
  (R (react s1) (react s2) /\
   exists evs, trace s2 = (trace s1 ++ evs)%list /\ forallb okE evs = true) ->
  (R (react s2) (react s3) /\
   exists evs, trace s3 = (trace s2 ++ evs)%list /\ forallb okE evs = true) ->
  R (react s1) (react s3) /\
  exists evs, trace s3 = (trace s1 ++ evs)%list /\ forallb okE evs = true.
Proof.
  intros [H1 (e1 & T1 & O1)] [H2 (e2 & T2 & O2)].
  split; [exact (R_trans H1 H2)|].
  exists (e1 ++ e2)%list. rewrite T2, T1, app_assoc, forallb_app, O1, O2. now split.
Qed.

Lemma within_bind (A B : Type) (m : M A) (k : A -> M B) :
  within okE R m -> (forall a, within okE R (k a)) -> within okE R (bind m k).
Proof.
  intros Hm Hk s. unfold bind. specialize (Hm s).
  destruct (m s) as [[a|e] s1]; cbn [snd] in *; [|exact Hm].
  eapply within_seq; [exact Hm|apply Hk].
Qed.

Lemma within_try_catch (A : Type) (m : M A) (h : JsError -> M A) :
  within okE R m -> (forall e, within okE R (h e)) -> within okE R (try_catch m h).
Proof.
  intros Hm Hh s. unfold try_catch. specialize (Hm s).
  destruct (m s) as [[a|e] s1]; cbn [snd] in *; [exact Hm|].
  eapply within_seq; [exact Hm|apply Hh].
Qed.

Lemma within_finally (A : Type) (m : M A) (f : M unit) :
  within okE R m -> within okE R f -> within okE R (finally m f).
Proof.
  intros Hm Hf s. unfold finally. specialize (Hm s).
  destruct (m s) as [r s1]; cbn [snd] in *.
  eapply within_seq; [exact Hm|apply Hf].
Qed.

Lemma within_emit (e : Event) : okE e = true -> within okE R (emit e).
Proof.
  intros He s. split; [apply R_refl|]. exists [e]. cbn. now rewrite He.
Qed.

Lemma within_perform (w : World) (r : Request) :
  okE (Call r) = true -> within okE R (perform w r).
Proof.
  intros He s. split; [apply R_refl|]. exists [Call r]. cbn. now rewrite He.
Qed.

Lemma within_update (f : Field) (g : State -> State) :
  okE (SetState f) = true -> (forall st, R st (g st)) -> within okE R (update f g).
Proof.
  intros He Hg s. split; [apply Hg|]. exists [SetState f]. cbn. now rewrite He.
Qed.

Lemma within_attemptMint (w : World) (c : State) (totalPrice : Z) :
  within okE R (submitMint w c totalPrice) ->
  (forall attempt, within okE R (backoff attempt)) ->
  forall attempt, within okE R (attemptMint w c totalPrice attempt).
Proof.
  intros Hsub Hback attempt.
  remember (3 - attempt)%nat as k eqn:Hk.
  revert attempt Hk. induction k as [|k IH]; intros attempt Hk s;
    rewrite attemptMint_step; specialize (Hsub s);
    destruct (submitMint w c totalPrice s) as [[u|err] s1]; cbn [snd] in *;
    try exact Hsub.
  - assert (Hge : (attempt <? 3)%nat = false) by (apply Nat.ltb_ge; lia).
    rewrite Hge, andb_false_r. exact Hsub.
  - destruct (isRateLimited err && (attempt <? 3)%nat); [|exact Hsub].
    eapply within_seq; [exact Hsub|].
    eapply within_seq; [apply Hback|].
    apply (IH (S attempt)). lia.
Qed.

End Footprint.

(** Walks through a handler, leaving the conditions on its events and on
    its setters. *)
Ltac footprint_step :=
  first
    [ assumption
    | match goal with
      | H : forall acct, within _ _ (refreshContractData _ acct) |- _ => apply H
      end
    | apply within_ret; [assumption]
    | apply within_throw; [assumption]
    | apply within_bind; [assumption| |intros ?]
    | apply within_try_catch; [assumption| |intros ?]
    | apply within_finally; [assumption| |]
    | apply within_attemptMint; [assumption| |intros ?]
    | apply within_emit; [assumption|]
    | apply within_perform; [assumption|]
    | apply within_update; [|intros ?]
    | match goal with
      | |- within _ _ (if ?b then _ else _) => destruct b
      | |- within _ _ (match ?x with _ => _ end) => destruct x
      end ].

Ltac footprint :=
  repeat (cbv zeta;
          unfold getContract, simulate, mintFailed, backoff, submitMint,
                 alert, console, sleep,
                 setAccount, setMinting, setTotalSupply, setMaxSupply, setMintPriceWei,
                 setStatus, setUserMintedCount, setContractMaxPerWallet;
          footprint_step).

Section RefreshFootprint.

Variable w : World.

Lemma sessionKept_refl (a : State) : sessionKept a a.
Proof. repeat split. Qed.

Lemma sessionKept_trans (a b c : State) :
  sessionKept a b -> sessionKept b c -> sessionKept a c.
Proof. unfold sessionKept. intuition congruence. Qed.

Lemma refreshContractData_within (account : option string) :
  within refreshEvent sessionKept (refreshContractData w account).
Proof.
  pose proof sessionKept_refl as Hr. pose proof sessionKept_trans as Ht.
  unfold refreshContractData. footprint; try reflexivity; repeat split.
Qed.

End RefreshFootprint.

(** ** Reading any BigInt back *)

Section ReadBackSigned.

Lemma digits_nonempty (n : Z) : 0 <= n -> BigInt.digits n <> "".
Proof.
  intros Hn. destruct (digits_fixed Hn) as (j & Hj & _ & _ & ->).
  destruct j as [|j]; [lia|]. cbn [fixed_digits].
  destruct (fixed_digits j (n / 10)); discriminate.
Qed.

Lemma all_digits_digits (n : Z) : 0 <= n -> all_digits (BigInt.digits n) = true.
Proof.
  intros Hn. destruct (digits_fixed Hn) as (j & _ & _ & _ & ->). apply all_digits_fixed.
Qed.

Lemma parse_digits_digits (n : Z) :
  0 <= n -> BigInt.parse_digits 10 (BigInt.digits n) 0 = Some n.
Proof.
  intros Hn. destruct (digits_fixed Hn) as (j & _ & Hlt & _ & ->).
  rewrite parse_fixed_digits by lia. reflexivity.
Qed.

(** [BigInt(String(z)) = z] for every BigInt [z], negative ones included. *)
Lemma ofString_toString_signed (z : Z) : BigInt.ofString (BigInt.toString z) = Some z.
Proof.
  destruct (Z.ltb_spec z 0) as [Hneg|Hpos]; [|now apply ofString_toString].
  unfold BigInt.toString. apply Z.ltb_lt in Hneg. rewrite Hneg. apply Z.ltb_lt in Hneg.
  assert (Hn : 0 <= - z) by lia.
  pose proof (digits_nonempty Hn) as Hne.
  pose proof (all_digits_digits Hn) as Hd.
  pose proof (parse_digits_digits Hn) as Hp.
  unfold BigInt.ofString.
  cbn [BigInt.trim_start]. change (BigInt.is_white "-") with false. cbv iota.
  cbn [BigInt.trim_end]. rewrite (trim_end_digits _ Hd).
  destruct (BigInt.digits (- z)) as [|ch ds] eqn:E; [contradiction|].
  unfold BigInt.parse_nonempty. rewrite Hp. cbn [option_map]. f_equal. lia.
Qed.

End ReadBackSigned.

(** ** What a refresh touches *)

Section Since.

Lemma since_forallb (okE : Event -> bool) (s s' : Store) :
  (exists evs, trace s' = (trace s ++ evs)%list /\ forallb okE evs = true) ->
  forallb okE (events_since s s') = true.
Proof. intros (evs & Htr & Hok). now rewrite (@events_since_app s s' evs Htr). Qed.

Lemma within_weaken (okE okE' : Event -> bool) (R R' : State -> State -> Prop)
  (A : Type) (m : M A) :
  (forall e, okE e = true -> okE' e = true) ->
  (forall a b, R a b -> R' a b) ->
  within okE R m -> within okE' R' m.
Proof.
  intros HE HR Hm s. destruct (Hm s) as [H1 (evs & Htr & Hok)].
  split; [exact (HR _ _ H1)|]. exists evs. split; [exact Htr|].
  rewrite forallb_forall in *. intros e He. apply HE, Hok, He.
Qed.

End Since.

(** X1. Whatever the contract and the wallet answer, a refresh only reads
    the contract (no wallet request, no signer, no transaction), shows no
    alert and starts no timer; it writes only the five chain-derived fields
    and leaves [account], [minting], [status] and [mintQuantity] alone. *)
Theorem refreshContractData_footprint (w : World) (acct : option string) (s : Store) :
  forallb refreshEvent (events_since s (snd (refreshContractData w acct s))) = true /\
  account (react (snd (refreshContractData w acct s))) = account (react s) /\
  minting (react (snd (refreshContractData w acct s))) = minting (react s) /\
  status (react (snd (refreshContractData w acct s))) = status (react s) /\
  mintQuantity (react (snd (refreshContractData w acct s))) = mintQuantity (react s).
Proof.
  destruct (refreshContractData_within w acct s) as [Hk Hev].
  split; [exact (since_forallb _ _ _ Hev)|exact Hk].
Qed.

(** The state after a refresh whose four primary reads succeed. *)
Lemma refreshContractData_after_reads
  (w : World) (acct : option string) (s : Store) (supply max price maxPerWallet : Z) :
  ethereum w = true ->
  JsString.truthy_opt (CONTRACT_ADDRESS w) = true ->
  answer w (clock s) call_totalSupply = Ok supply ->
  answer w (1 + clock s) call_maxSupply = Ok max ->
  answer w (2 + clock s) call_mintPrice = Ok price ->
  answer w (3 + clock s) call_maxPerWallet = Ok maxPerWallet ->
  totalSupply (react (snd (refreshContractData w acct s))) = Number.ofBigInt supply /\
  maxSupply (react (snd (refreshContractData w acct s))) = Z.min (Number.ofBigInt max) 500 /\
  mintPriceWei (react (snd (refreshContractData w acct s))) = BigInt.toString price /\
  contractMaxPerWallet (react (snd (refreshContractData w acct s)))
  = Number.ofBigInt maxPerWallet /\
  remainingSupply (react (snd (refreshContractData w acct s)))
  = Z.max 0 (Z.min (Number.ofBigInt max) 500 - Number.ofBigInt supply).
Proof.
  intros Heth Haddr H0 H1 H2 H3.
  open_store s. unfold remainingSupply, refreshContractData, getContract.
  rewrite Heth, Haddr.
  js_unfold. rewrite H0. js_unfold. rewrite H1. js_unfold. rewrite H2. js_unfold.
  rewrite H3. js_unfold.
  destruct acct as [a|]; js_unfold; [|repeat split].
  destruct (JsString.truthy a); js_unfold; [|repeat split].
  repeat next_answer; repeat split.
Qed.

(** X2. A refresh whose four primary reads succeed stores what it read:
    [totalSupply] as the Number [Number(x)] of the supply read, [maxSupply]
    as the Number of the maximum read capped at 500, the price as the
    decimal digits of the BigInt, and [contractMaxPerWallet] as the Number
    of the limit read, whether or not the minted count of the account can be
    read afterwards.  [Number(x)] is [x] itself for every [x] below [2^53],
    and is never below a safe integer that [x] is not below. *)
Theorem refreshContractData_stores_what_it_read
  (w : World) (acct : option string) (s : Store) (supply max price maxPerWallet : Z) :
  ethereum w = true ->
  JsString.truthy_opt (CONTRACT_ADDRESS w) = true ->
  answer w (clock s) call_totalSupply = Ok supply ->
  answer w (1 + clock s) call_maxSupply = Ok max ->
  answer w (2 + clock s) call_mintPrice = Ok price ->
  answer w (3 + clock s) call_maxPerWallet = Ok maxPerWallet ->
  (totalSupply (react (snd (refreshContractData w acct s))) = Number.ofBigInt supply /\
   maxSupply (react (snd (refreshContractData w acct s))) = Z.min (Number.ofBigInt max) 500 /\
   mintPriceWei (react (snd (refreshContractData w acct s))) = BigInt.toString price /\
   contractMaxPerWallet (react (snd (refreshContractData w acct s)))
   = Number.ofBigInt maxPerWallet /\
   remainingSupply (react (snd (refreshContractData w acct s)))
   = Z.max 0 (Z.min (Number.ofBigInt max) 500 - Number.ofBigInt supply)) /\
  (forall x, 0 <= x < 2 ^ 53 -> Number.ofBigInt x = x) /\
  (forall b x, 0 < b < 2 ^ 53 -> b <= x -> b <= Number.ofBigInt x) /\
  Number.ofBigInt (2 ^ 53 + 1) = 2 ^ 53 /\
  Number.ofBigInt (2 ^ 256 - 1) = 2 ^ 256.
Proof.
  intros Heth Haddr H0 H1 H2 H3.
  split; [exact (@refreshContractData_after_reads w acct s supply max price maxPerWallet
                   Heth Haddr H0 H1 H2 H3)|].
  split; [exact ofBigInt_safe|]. split; [exact ofBigInt_ge|].
  split; vm_compute; reflexivity.
Qed.

Lemma refreshContractData_stores_what_it_read_witness :
  totalSupply (react (snd (refreshContractData (Sample.world Sample.calm) (Some Sample.alice)
                             (Sample.fresh initialState)))) = 3 /\
  maxSupply (react (snd (refreshContractData (Sample.world Sample.calm) (Some Sample.alice)
                           (Sample.fresh initialState)))) = 500 /\
  mintPriceWei (react (snd (refreshContractData (Sample.world Sample.calm) (Some Sample.alice)
                              (Sample.fresh initialState)))) = "1000000000000000000".
Proof.
  destruct (@refreshContractData_stores_what_it_read
              (Sample.world Sample.calm) (Some Sample.alice) (Sample.fresh initialState)
              3 1000 (10 ^ 18) 2 eq_refl eq_refl eq_refl eq_refl eq_refl eq_refl)
    as ((Ht & Hm & Hp & _) & _).
  split; [exact Ht|]. split; [exact Hm|exact Hp].
Defined.

(** ** What every handler keeps *)

Section Displayable.

Variable w : World.

Lemma keeps_refl (P : State -> Prop) (a : State) : keeps P a a.
Proof. intros H. exact H. Qed.

Lemma keeps_trans (P : State -> Prop) (a b c : State) :
  keeps P a b -> keeps P b c -> keeps P a c.
Proof. unfold keeps. auto. Qed.

(** Closes the conditions left by [footprint] for this invariant: a setter
    either leaves both fields alone or stores a capped ceiling or a rendered
    price. *)
Ltac displayable_setter :=
  try reflexivity;
  try (unfold keeps, displayable; cbn [maxSupply mintPriceWei];
       intros [Hmax Hprice]; split; [try exact Hmax; lia|try exact Hprice; eexists; reflexivity]).

Lemma refreshContractData_displayable (acct : option string) :
  within anyEvent (keeps displayable) (refreshContractData w acct).
Proof.
  pose proof (keeps_refl displayable) as Hr. pose proof (@keeps_trans displayable) as Ht.
  unfold refreshContractData. footprint; displayable_setter.
Qed.

Lemma ensureMonadNetwork_displayable :
  within anyEvent (keeps displayable) (ensureMonadNetwork w).
Proof.
  pose proof (keeps_refl displayable) as Hr. pose proof (@keeps_trans displayable) as Ht.
  unfold ensureMonadNetwork. footprint; displayable_setter.
Qed.

Lemma handle_displayable (a : Action) : within anyEvent (keeps displayable) (handle w a).
Proof.
  pose proof (keeps_refl displayable) as Hr. pose proof (@keeps_trans displayable) as Ht.
  pose proof refreshContractData_displayable as Hrefresh.
  pose proof ensureMonadNetwork_displayable as Hensure.
  destruct a as [c|c|c|c accounts| | |value]; cbn [handle].
  - apply Hrefresh.
  - unfold connectWallet. footprint; displayable_setter.
  - unfold mintNFT. footprint; displayable_setter.
  - unfold onAccountsChanged. footprint; displayable_setter.
  - footprint; displayable_setter.
  - footprint; displayable_setter.
  - footprint; displayable_setter.
Qed.

Lemma after_displayable (actions : list Action) (s : Store) :
  displayable (react s) -> displayable (react (after w actions s)).
Proof.
  revert s. induction actions as [|a actions IH]; intros s Hs; [exact Hs|].
  cbn [after fold_left]. apply IH.
  exact (proj1 (handle_displayable a s) Hs).
Qed.

Lemma pageLoad_displayable : displayable (react pageLoad).
Proof. split; [cbn; lia|]. exists 0. reflexivity. Qed.

End Displayable.

(** X3. The ceiling of the progress bar never exceeds 500: after any
    sequence of page loads, wallet connections, mints, account changes and
    quantity edits, from whatever renders their closures come and whatever
    the wallet and the contract answer, [maxSupply] is at most 500. *)
Theorem maxSupply_never_exceeds_500 (w : World) (actions : list Action) :
  maxSupply (react (after w actions pageLoad)) <= 500.
Proof. exact (proj1 (after_displayable w actions pageLoad pageLoad_displayable)). Qed.

(** ** Safe integers on the page *)

Section SafeIntegers.

Variable w : World.
Hypothesis Hsafe : safeContract w.

Lemma safeState_spec (st : State) :
  safeState st = true <->
  (0 <= totalSupply st < 2 ^ 53 /\ 0 <= maxSupply st < 2 ^ 53 /\
   0 <= userMintedCount st < 2 ^ 53 /\ 0 <= contractMaxPerWallet st < 2 ^ 53 /\
   - 2 ^ 53 < mintQuantity st < 2 ^ 53).
Proof.
  unfold safeState. rewrite !andb_true_iff, !safeCount_spec, isSafeInteger_spec.
  tauto.
Qed.

Lemma forallb_anyEvent (evs : list Event) : forallb anyEvent evs = true.
Proof. induction evs as [|e evs IH]; [reflexivity|exact IH]. Qed.

(** Splits on the answer to the next request and records that a counter it
    returns is safe. *)
Ltac safe_answer :=
  match goal with
  | |- context [answer w ?n ?r] =>
      let E := fresh "E" in
      let v := fresh "v" in
      destruct (answer w n r) as [v|] eqn:E; cbn [fst snd react trace clock];
      [try (let Hv := fresh "Hv" in
            pose proof (@Hsafe n r v v E eq_refl) as Hv;
            apply safeCount_spec in Hv)|]
  end.

Lemma refreshContractData_safe (acct : option string) :
  within anyEvent (keeps safeP) (refreshContractData w acct).
Proof.
  intros s. split.
  2:{ destruct (refreshContractData_extends w acct s) as [evs Hevs].
      exists evs. split; [exact Hevs|apply forallb_anyEvent]. }
  unfold keeps, safeP. rewrite !safeState_spec.
  open_store s. unfold refreshContractData, getContract.
  destruct (ethereum w); js_unfold; [|tauto].
  destruct (JsString.truthy_opt (CONTRACT_ADDRESS w)); js_unfold; [|tauto].
  repeat (safe_answer; try tauto).
  destruct acct as [a|]; js_unfold; [|rewrite ?ofBigInt_safe by assumption; intros; lia].
  destruct (JsString.truthy a); js_unfold;
    [|rewrite ?ofBigInt_safe by assumption; intros; lia].
  repeat (safe_answer; try (rewrite ?ofBigInt_safe by assumption; intros; lia)).
Qed.

Lemma onDecrement_safe (st : State) : keeps safeP st (onDecrement st).
Proof.
  unfold keeps, safeP. rewrite !safeState_spec.
  destruct st; cbn [onDecrement withMintQuantity totalSupply maxSupply userMintedCount
                    contractMaxPerWallet mintQuantity]. lia.
Qed.

Lemma onIncrement_safe (st : State) : keeps safeP st (onIncrement st).
Proof.
  unfold keeps, safeP. rewrite !safeState_spec.
  destruct st; cbn [onIncrement withMintQuantity totalSupply maxSupply userMintedCount
                    contractMaxPerWallet mintQuantity]. lia.
Qed.

Lemma onChange_safe (value : string) (st : State) : keeps safeP st (onChange value st).
Proof.
  unfold keeps, safeP. rewrite !safeState_spec.
  unfold onChange, maxAllowed.
  destruct st; cbn [withMintQuantity totalSupply maxSupply userMintedCount
                    contractMaxPerWallet mintQuantity].
  destruct (parseInt value) as [[|p|p]|]; lia.
Qed.

(** Closes the conditions left by [footprint]: a setter of a field that is
    no number keeps every number. *)
Ltac safe_setter :=
  try reflexivity;
  try (unfold keeps, safeP, safeState;
       cbn [totalSupply maxSupply userMintedCount contractMaxPerWallet mintQuantity];
       intros H; exact H).

Lemma handle_safe (a : Action) : within anyEvent (keeps safeP) (handle w a).
Proof.
  pose proof (keeps_refl safeP) as Hr. pose proof (@keeps_trans safeP) as Ht.
  pose proof refreshContractData_safe as Hrefresh.
  destruct a as [c|c|c|c accounts| | |value]; cbn [handle].
  - apply Hrefresh.
  - unfold connectWallet, ensureMonadNetwork. footprint; safe_setter.
  - unfold mintNFT. footprint; safe_setter.
  - unfold onAccountsChanged. footprint; safe_setter.
  - footprint; try reflexivity. apply onDecrement_safe.
  - footprint; try reflexivity. apply onIncrement_safe.
  - footprint; try reflexivity. apply onChange_safe.
Qed.

Lemma after_safe (actions : list Action) (s : Store) :
  safeP (react s) -> safeP (react (after w actions s)).
Proof.
  revert s. induction actions as [|a actions IH]; intros s Hs; [exact Hs|].
  cbn [after fold_left]. apply IH.
  exact (proj1 (handle_safe a s) Hs).
Qed.

End SafeIntegers.

(** X4. The mint button can always be rendered: after any sequence of
    actions [mintPriceWei] is the decimal rendering of a BigInt, which
    [BigInt(mintPriceWei)] reads back, so the label is never missing.
    Against a contract whose counters are safe integers every number of the
    page stays a safe integer, and the label is "Minting...", "Max NFTs
    Minted", or "Mint q (t MON)" where [q] is the quantity in decimal digits
    and [t] formats the price times the quantity. *)
Theorem mintLabel_always_renders (w : World) (actions : list Action) :
  exists price,
    mintPriceWei (react (after w actions pageLoad)) = BigInt.toString price /\
    BigInt.ofString (mintPriceWei (react (after w actions pageLoad))) = Some price /\
    (exists label, mintLabel (react (after w actions pageLoad)) = Some label) /\
    (safeContract w ->
       safeState (react (after w actions pageLoad)) = true /\
       mintLabel (react (after w actions pageLoad))
       = Some (if minting (react (after w actions pageLoad)) then "Minting..."
               else if mintDisabled (react (after w actions pageLoad))
               then "Max NFTs Minted"
               else "Mint " ++ BigInt.toString (mintQuantity (react (after w actions pageLoad)))
                    ++ " (" ++ formatMon (BigInt.toString
                                 (price * mintQuantity (react (after w actions pageLoad))))
                    ++ " MON)")).
Proof.
  destruct (after_displayable w actions pageLoad pageLoad_displayable) as [_ [price Hp]].
  exists price. split; [exact Hp|].
  assert (Hread : BigInt.ofString (mintPriceWei (react (after w actions pageLoad))) = Some price)
    by (rewrite Hp; apply ofString_toString_signed).
  split; [exact Hread|].
  assert (Hlabel : mintLabel (react (after w actions pageLoad))
    = Some (if minting (react (after w actions pageLoad)) then "Minting..."
            else if mintDisabled (react (after w actions pageLoad)) then "Max NFTs Minted"
            else "Mint " ++ Number.toString (mintQuantity (react (after w actions pageLoad)))
                 ++ " (" ++ formatMon (BigInt.toString
                              (price * mintQuantity (react (after w actions pageLoad))))
                 ++ " MON)")).
  { unfold mintLabel, mintDisabled. rewrite Hread.
    destruct (minting (react (after w actions pageLoad))); [reflexivity|].
    cbn [orb].
    destruct ((userMintedCount (react (after w actions pageLoad))
               >=? contractMaxPerWallet (react (after w actions pageLoad)))
              || (contractMaxPerWallet (react (after w actions pageLoad))
                  - userMintedCount (react (after w actions pageLoad)) <=? 0)); reflexivity. }
  split; [eexists; exact Hlabel|].
  intros Hsafe.
  assert (Hst : safeState (react (after w actions pageLoad)) = true)
    by (apply (after_safe Hsafe); vm_compute; reflexivity).
  split; [exact Hst|].
  rewrite Hlabel. destruct (safeState_remainders _ Hst) as (_ & _ & _ & ->). reflexivity.
Qed.

Lemma mintLabel_always_renders_witness :
  exists price,
    mintPriceWei (react (after (Sample.world Sample.calm)
                           [Mount initialState; ClickConnect initialState; ClickIncrement]
                           pageLoad)) = BigInt.toString price /\
    mintLabel (react (after (Sample.world Sample.calm)
                        [Mount initialState; ClickConnect initialState; ClickIncrement]
                        pageLoad))
    = Some ("Mint 2 (" ++ formatMon (BigInt.toString (price * 2)) ++ " MON)").
Proof.
  destruct (mintLabel_always_renders (Sample.world Sample.calm)
              [Mount initialState; ClickConnect initialState; ClickIncrement])
    as (price & Hp & _ & _ & H).
  assert (Hsafe : safeContract (Sample.world Sample.calm)).
  { intros n r v k E Hk. destruct r; cbn in E, Hk; try discriminate Hk;
      injection Hk as <-; injection E as <-; reflexivity. }
  exists price. split; [exact Hp|].
  exact (proj2 (H Hsafe)).
Defined.

(** ** Mint orchestrator: what every run does *)

Section MintAlways.

Variable w : World.
Variable c : State.

Lemma inputKept_refl (a : State) : inputKept a a.
Proof. split; reflexivity. Qed.

Lemma inputKept_trans (a b d : State) : inputKept a b -> inputKept b d -> inputKept a d.
Proof. unfold inputKept. intuition congruence. Qed.

Lemma refreshEvent_mintEvent (e : Event) : refreshEvent e = true -> mintEvent c e = true.
Proof.
  destruct e as [r|msg|l tag|ms|f]; cbn [refreshEvent mintEvent]; try discriminate; try reflexivity.
  - destruct r; cbn; try discriminate; reflexivity.
  - destruct f; try discriminate; reflexivity.
Qed.

Lemma refreshContractData_mintEvent (acct : option string) :
  within (mintEvent c) inputKept (refreshContractData w acct).
Proof.
  apply within_weaken with (okE := refreshEvent) (R := sessionKept).
  - exact refreshEvent_mintEvent.
  - intros a b (Ha & _ & _ & Hq). split; assumption.
  - apply refreshContractData_within.
Qed.

(** The fourth check of [mintNFT] cannot fail once the first three have
    passed. *)
Lemma wallet_restriction_implied :
  (remainingAllowance c <=? 0) = false ->
  (mintQuantity c <? 1) || (mintQuantity c >? remainingAllowance c) = false ->
  (userMintedCount c + mintQuantity c >? contractMaxPerWallet c) = false.
Proof.
  intros H1 H2. apply orb_false_elim in H2 as [_ H2].
  rewrite Z.gtb_ltb in *. apply Z.ltb_ge. apply Z.ltb_ge in H2. apply Z.leb_gt in H1.
  unfold remainingAllowance in *. lia.
Qed.

Lemma mintNFT_within : within (mintEvent c) inputKept (mintNFT w c).
Proof.
  pose proof inputKept_refl as Hr. pose proof inputKept_trans as Ht.
  pose proof refreshContractData_mintEvent as Hrefresh.
  unfold mintNFT. destruct (negb (ethereum w)).
  { footprint. reflexivity. }
  cbv zeta.
  destruct (remainingAllowance c <=? 0) eqn:H1.
  { footprint; [reflexivity|split; reflexivity]. }
  destruct ((mintQuantity c <? 1) || (mintQuantity c >? remainingAllowance c)) eqn:H2.
  { footprint. cbn [mintEvent]. rewrite String.eqb_refl, orb_true_r. reflexivity. }
  destruct (mintQuantity c >? remainingSupply c) eqn:H3.
  { footprint. cbn [mintEvent]. rewrite String.eqb_refl. apply orb_true_r. }
  rewrite (wallet_restriction_implied H1 H2).
  footprint; try reflexivity; split; reflexivity.
Qed.

Lemma try_catch_handled (m : M unit) (h : JsError -> M unit) (s : Store) :
  (forall e s0, fst (h e s0) = Ok tt) -> fst (try_catch m h s) = Ok tt.
Proof.
  intros Hh. unfold try_catch. destruct (m s) as [[[]|e] s1]; [reflexivity|apply Hh].
Qed.

Lemma mintNFT_returns (s : Store) : fst (mintNFT w c s) = Ok tt.
Proof.
  unfold mintNFT. destruct (negb (ethereum w)); [reflexivity|]. cbv zeta.
  destruct (remainingAllowance c <=? 0); [reflexivity|].
  destruct ((mintQuantity c <? 1) || (mintQuantity c >? remainingAllowance c)); [reflexivity|].
  destruct (mintQuantity c >? remainingSupply c); [reflexivity|].
  unfold bind at 1. unfold console at 1. unfold emit at 1.
  destruct (userMintedCount c + mintQuantity c >? contractMaxPerWallet c); [reflexivity|].
  unfold bind at 1. unfold setMinting at 1. unfold update at 1.
  unfold bind at 1. unfold setStatus at 1. unfold update at 1.
  unfold finally.
  match goal with
  | |- fst (let (r, s') := try_catch ?m ?h ?s0 in _) = _ =>
      pose proof (@try_catch_handled m h s0) as H; destruct (try_catch m h s0) as [r s1]
  end.
  cbn [fst] in *. apply H. intros e s0. reflexivity.
Qed.

Lemma mintNFT_minting (s : Store) :
  minting (react (snd (mintNFT w c s)))
  = minting (react s) && negb (ethereum w && quantityAccepted c).
Proof.
  unfold mintNFT, quantityAccepted. destruct (ethereum w); cbn [negb andb].
  2:{ now rewrite andb_true_r. }
  cbv zeta.
  destruct (remainingAllowance c <=? 0) eqn:H1.
  { cbn. now rewrite andb_true_r. }
  destruct ((mintQuantity c <? 1) || (mintQuantity c >? remainingAllowance c)) eqn:H2.
  { cbn. now rewrite andb_true_r. }
  destruct (mintQuantity c >? remainingSupply c) eqn:H3.
  { cbn. now rewrite andb_true_r. }
  rewrite (wallet_restriction_implied H1 H2). cbn [negb andb]. rewrite andb_false_r.
  unfold bind at 1. unfold console at 1. unfold emit at 1.
  unfold bind at 1. unfold setMinting at 1. unfold update at 1.
  unfold bind at 1. unfold setStatus at 1. unfold update at 1.
  unfold finally.
  match goal with
  | |- context [try_catch ?m ?h ?s0] => destruct (try_catch m h s0) as [r s1]
  end.
  reflexivity.
Qed.

End MintAlways.

(** X5. [mintNFT] never throws to its caller, and it never leaves the
    button locked: the minting flag it leaves is false whenever it got past
    its checks, and untouched otherwise.  It never changes [account] or
    [mintQuantity]. *)
Theorem mintNFT_returns_and_releases_minting (w : World) (c : State) (s : Store) :
  fst (mintNFT w c s) = Ok tt /\
  minting (react (snd (mintNFT w c s)))
  = minting (react s) && negb (ethereum w && quantityAccepted c) /\
  account (react (snd (mintNFT w c s))) = account (react s) /\
  mintQuantity (react (snd (mintNFT w c s))) = mintQuantity (react s).
Proof.
  split; [apply mintNFT_returns|]. split; [apply mintNFT_minting|].
  exact (proj1 (mintNFT_within w c s)).
Qed.

(** X6. Of the four checks of [mintNFT] the last one is implied by the
    first three, so its alert ("You can only mint ... more") is never shown:
    the only alerts of a run are "Install MetaMask", "Quantity must be 1-N"
    and "Only N left in supply".  A run never sends a connection request to
    the wallet and never writes [account] or [mintQuantity]. *)
Theorem mintNFT_wallet_restriction_alert_is_dead (w : World) (c : State) (s : Store) :
  forallb (mintEvent c) (events_since s (snd (mintNFT w c s))) = true /\
  quantityAccepted c
  = negb (remainingAllowance c <=? 0)
    && negb ((mintQuantity c <? 1) || (mintQuantity c >? remainingAllowance c))
    && negb (mintQuantity c >? remainingSupply c).
Proof.
  split.
  - apply since_forallb. exact (proj2 (mintNFT_within w c s)).
  - unfold quantityAccepted.
    destruct (remainingAllowance c <=? 0) eqn:H1; [reflexivity|].
    destruct ((mintQuantity c <? 1) || (mintQuantity c >? remainingAllowance c)) eqn:H2;
      [reflexivity|].
    rewrite (wallet_restriction_implied c H1 H2). cbn [negb andb]. now rewrite andb_true_r.
Qed.

(** ** Network guarantor and wallet session: what every run does *)

Section Session.

Variable w : World.

Lemma untouched_refl (a : State) : untouched a a.
Proof. reflexivity. Qed.

Lemma untouched_trans (a b d : State) : untouched a b -> untouched b d -> untouched a d.
Proof. unfold untouched. congruence. Qed.

Lemma ensureMonadNetwork_within : within networkEvent untouched (ensureMonadNetwork w).
Proof.
  pose proof untouched_refl as Hr. pose proof untouched_trans as Ht.
  unfold ensureMonadNetwork. footprint; reflexivity.
Qed.

(** The check sends one, two or three requests. *)
Lemma ensureMonadNetwork_clock (s : Store) :
  (clock (snd (ensureMonadNetwork w s)) <= 3 + clock s)%nat /\
  (1 <= requests (events_since s (snd (ensureMonadNetwork w s))) <= 3)%nat.
Proof.
  open_store s. unfold ensureMonadNetwork, requests. js_unfold.
  repeat (first [ next_answer
                | match goal with
                  | |- context [String.eqb ?a targetChainIdHex] =>
                      destruct (String.eqb a targetChainIdHex) eqn:?; js_unfold
                  | |- context [unrecognizedChain ?e] =>
                      destruct (unrecognizedChain e) eqn:?; js_unfold
                  end ]);
    (split; [lia|since; cbn; lia]).
Qed.

Lemma ensureMonadNetwork_on_target (s : Store) :
  answer w (clock s) eth_chainId = Ok targetChainIdHex ->
  fst (ensureMonadNetwork w s) = Ok tt /\
  events_since s (snd (ensureMonadNetwork w s)) = [Call eth_chainId].
Proof.
  intros H. open_store s. unfold ensureMonadNetwork. js_unfold. rewrite H. js_unfold.
  split; [reflexivity|]. since. reflexivity.
Qed.

Lemma ensureMonadNetwork_unreadable (s : Store) (e : JsError) :
  answer w (clock s) eth_chainId = Throw e ->
  fst (ensureMonadNetwork w s) = Throw e /\
  events_since s (snd (ensureMonadNetwork w s))
  = [Call eth_chainId; Console Error "ensureMonadNetwork error"].
Proof.
  intros H. open_store s. unfold ensureMonadNetwork. js_unfold. rewrite H. js_unfold.
  split; [reflexivity|]. since. reflexivity.
Qed.

Lemma refreshContractData_null_account (s : Store) :
  userMintedCount (react (snd (refreshContractData w None s))) = userMintedCount (react s).
Proof.
  open_store s. unfold refreshContractData, getContract.
  destruct (ethereum w); js_unfold; [|reflexivity].
  destruct (JsString.truthy_opt (CONTRACT_ADDRESS w)); js_unfold; [|reflexivity].
  repeat (next_answer; try reflexivity).
Qed.

(** [connectWallet] in full, by the outcome of the check and of the account
    request. *)
Lemma connectWallet_cases (c : State) (s : Store) :
  ethereum w = true ->
  fst (connectWallet w c s) = Ok tt /\
  match fst (ensureMonadNetwork w s),
        answer w (clock (snd (ensureMonadNetwork w s))) eth_requestAccounts with
  | Ok _, Ok accounts =>
      account (react (snd (connectWallet w c s))) = hd_error accounts /\
      status (react (snd (connectWallet w c s))) = "Wallet connected" /\
      minting (react (snd (connectWallet w c s))) = minting (react s) /\
      mintQuantity (react (snd (connectWallet w c s))) = mintQuantity (react s) /\
      (account c = None ->
       userMintedCount (react (snd (connectWallet w c s))) = userMintedCount (react s))
  | _, _ =>
      same_but_status (react (snd (connectWallet w c s))) (react s) /\
      status (react (snd (connectWallet w c s))) = "Failed to connect wallet"
  end.
Proof.
  intros Heth.
  destruct (ensureMonadNetwork_within s) as [Hst (evs & Htr & Hev)].
  unfold untouched in Hst.
  remember (connectWallet w c s) as out eqn:Hout.
  unfold connectWallet in Hout. rewrite Heth in Hout. cbn [negb] in Hout.
  unfold try_catch, bind in Hout.
  destruct (ensureMonadNetwork w s) as [[[]|e] s1]; cbn [fst snd] in *.
  - unfold perform in Hout.
    destruct (answer w (clock s1) eth_requestAccounts) as [accounts|e].
    + unfold setAccount, setStatus, update in Hout.
      match type of Hout with
      | context [refreshContractData w (account c) ?s0] =>
          destruct (refreshContractData_within w (account c) s0) as [(Ha & Hm & Hs & Hq) _];
          pose proof (refreshContractData_ok w (account c) s0) as Hok;
          assert (Hnull : account c = None ->
                    userMintedCount (react (snd (refreshContractData w (account c) s0)))
                    = userMintedCount (react s0))
            by (intros Hc; rewrite Hc; apply refreshContractData_null_account);
          destruct (refreshContractData w (account c) s0) as [[[]|e'] s2]
      end; cbn [fst snd react account minting status mintQuantity userMintedCount] in *;
        [|discriminate Hok].
      subst out. cbn [fst snd]. rewrite Ha, Hm, Hs, Hq, Hst.
      split; [reflexivity|]. repeat split.
      intros Hc. rewrite (Hnull Hc), Hst. reflexivity.
    + unfold console, setStatus, update, emit in Hout. subst out.
      cbn [fst snd react trace status]. rewrite Hst.
      split; [reflexivity|]. split; [repeat split|reflexivity].
  - unfold console, setStatus, update, emit in Hout. subst out.
    cbn [fst snd react trace status]. rewrite Hst.
    split; [reflexivity|]. split; [repeat split|reflexivity].
Qed.

End Session.

(** X7. The network check never touches the React state and sends between
    one and three requests, all of them among the chain read, the switch and
    the add request.  A wallet already on the target chain is asked nothing
    more than its chain id, and a chain id that cannot be read fails the
    check with that error. *)
Theorem ensureMonadNetwork_requests (w : World) (s : Store) :
  react (snd (ensureMonadNetwork w s)) = react s /\
  forallb networkEvent (events_since s (snd (ensureMonadNetwork w s))) = true /\
  (1 <= requests (events_since s (snd (ensureMonadNetwork w s))) <= 3)%nat /\
  (answer w (clock s) eth_chainId = Ok targetChainIdHex ->
     fst (ensureMonadNetwork w s) = Ok tt /\
     events_since s (snd (ensureMonadNetwork w s)) = [Call eth_chainId]) /\
  (forall e, answer w (clock s) eth_chainId = Throw e ->
     fst (ensureMonadNetwork w s) = Throw e /\
     events_since s (snd (ensureMonadNetwork w s))
     = [Call eth_chainId; Console Error "ensureMonadNetwork error"]).
Proof.
  destruct (ensureMonadNetwork_within w s) as [Hst Hev].
  split; [exact Hst|]. split; [exact (since_forallb _ _ _ Hev)|].
  split; [exact (proj2 (ensureMonadNetwork_clock w s))|].
  split; [apply ensureMonadNetwork_on_target|].
  intros e. apply ensureMonadNetwork_unreadable.
Qed.

Lemma ensureMonadNetwork_requests_witness :
  fst (ensureMonadNetwork (Sample.world Sample.calm) (Sample.fresh initialState)) = Ok tt /\
  events_since (Sample.fresh initialState)
    (snd (ensureMonadNetwork (Sample.world Sample.calm) (Sample.fresh initialState)))
  = [Call eth_chainId].
Proof.
  destruct (ensureMonadNetwork_requests (Sample.world Sample.calm) (Sample.fresh initialState))
    as (_ & _ & _ & H & _).
  exact (H eq_refl).
Defined.

(** X8. With a wallet present [connectWallet] never throws and ends in one
    of two ways.  When the network check and the account request both
    succeed, [account] is the first account returned and the status is
    "Wallet connected"; the refresh that follows runs for the account of the
    render the button was clicked in, so a first connection leaves
    [userMintedCount] as it was.  Otherwise nothing but the status changes,
    and the status is "Failed to connect wallet".  The minting flag and the
    quantity are never changed. *)
Theorem connectWallet_outcome (w : World) (c : State) (s : Store) :
  ethereum w = true ->
  fst (connectWallet w c s) = Ok tt /\
  match fst (ensureMonadNetwork w s),
        answer w (clock (snd (ensureMonadNetwork w s))) eth_requestAccounts with
  | Ok _, Ok accounts =>
      account (react (snd (connectWallet w c s))) = hd_error accounts /\
      status (react (snd (connectWallet w c s))) = "Wallet connected" /\
      minting (react (snd (connectWallet w c s))) = minting (react s) /\
      mintQuantity (react (snd (connectWallet w c s))) = mintQuantity (react s) /\
      (account c = None ->
       userMintedCount (react (snd (connectWallet w c s))) = userMintedCount (react s))
  | _, _ =>
      same_but_status (react (snd (connectWallet w c s))) (react s) /\
      status (react (snd (connectWallet w c s))) = "Failed to connect wallet"
  end.
Proof. apply connectWallet_cases. Qed.

Lemma connectWallet_outcome_witness :
  account (react (snd (connectWallet (Sample.world Sample.calm) initialState
                         (Sample.fresh Sample.exhausted)))) = Some Sample.alice /\
  status (react (snd (connectWallet (Sample.world Sample.calm) initialState
                        (Sample.fresh Sample.exhausted)))) = "Wallet connected" /\
  userMintedCount (react (snd (connectWallet (Sample.world Sample.calm) initialState
                                 (Sample.fresh Sample.exhausted)))) = 2.
Proof.
  destruct (@connectWallet_outcome (Sample.world Sample.calm) initialState
              (Sample.fresh Sample.exhausted) eq_refl) as (_ & Ha & Hs & _ & _ & Hu).
  split; [exact Ha|]. split; [exact Hs|]. exact (Hu eq_refl).
Defined.

(** ** Mint orchestrator: every run of [attemptMint] *)

Section Counting.

Lemma submissions_app (a b : list Event) :
  submissions (a ++ b) = (submissions a + submissions b)%nat.
Proof. unfold submissions. now rewrite filter_app, length_app. Qed.

Lemma timeouts_app (a b : list Event) :
  timeouts (a ++ b) = (timeouts a ++ timeouts b)%list.
Proof.
  induction a as [|e a IH]; [reflexivity|].
  destruct e; cbn [app timeouts]; rewrite IH; reflexivity.
Qed.

(** A refresh neither submits nor waits. *)
Lemma refreshEvent_quiet (evs : list Event) :
  forallb refreshEvent evs = true -> submissions evs = 0%nat /\ timeouts evs = [].
Proof.
  induction evs as [|e evs IH]; [split; reflexivity|].
  cbn [forallb]. intros H. apply andb_prop in H as [He Hevs].
  destruct (IH Hevs) as [IHs IHt]. unfold submissions in *.
  destruct e as [r|msg|l tag|ms|f]; cbn [refreshEvent] in He; try discriminate He;
    cbn [filter is_submission timeouts].
  - destruct r; cbn in He; try discriminate He; cbn; split; assumption.
  - split; assumption.
  - split; assumption.
Qed.

Lemma delays_of_attempts (k : nat) :
  (k <= 3)%nat -> map delayMs (seq 0 k) = firstn k [500; 1000; 2000].
Proof. intros Hk. destruct k as [|[|[|[|k]]]]; try lia; reflexivity. Qed.

End Counting.

Section Attempts.

Variable w : World.
Variable c : State.
Variable totalPrice : Z.

(** One run of the [try] block: the transaction is sent once, and nothing
    else in it submits or waits. *)
Lemma submitMint_once (s : Store) :
  exists evs,
    trace (snd (submitMint w c totalPrice s))
    = (trace s ++ Call (sendRequest c totalPrice) :: evs)%list /\
    submissions evs = 0%nat /\ timeouts evs = [].
Proof.
  remember (submitMint w c totalPrice s) as out eqn:Hout.
  unfold submitMint, sendRequest, bind, perform, setStatus, update in *.
  destruct (answer w (clock s) (mint_send (mintQuantity c) totalPrice)).
  - cbn [fst snd react trace clock] in Hout.
    destruct (answer w (S (clock s)) tx_wait).
    + match type of Hout with
      | context [refreshContractData w (account c) ?s0] =>
          destruct (refreshContractData_within w (account c) s0) as [_ (evs' & Hext & Hok)]
      end.
      destruct (refreshEvent_quiet _ Hok) as [Hs Ht].
      subst out. rewrite Hext. cbn [trace]. eexists. split; [trace_norm; reflexivity|].
      split; [exact Hs|exact Ht].
    + subst out. cbn [snd trace]. eexists. split; [trace_norm; reflexivity|].
      split; reflexivity.
  - subst out. cbn [snd trace]. exists []. repeat split.
Qed.

(** From attempt [a] on: [k] waits, of [delayMs a], [delayMs (a + 1)], ...,
    and [k + 1] submissions, with [a + k] at most 3. *)
Lemma attemptMint_attempts (a : nat) (s : Store) :
  (a <= 3)%nat ->
  exists k evs,
    (a + k <= 3)%nat /\
    trace (snd (attemptMint w c totalPrice a s)) = (trace s ++ evs)%list /\
    submissions evs = S k /\ timeouts evs = map delayMs (seq a k).
Proof.
  remember (3 - a)%nat as n eqn:Hn.
  revert a s Hn. induction n as [|n IH]; intros a s Hn Ha;
    rewrite attemptMint_step;
    destruct (submitMint_once s) as (evs & Hevs & Hsub & Htim);
    destruct (submitMint w c totalPrice s) as [[u|err] s1]; cbn [snd] in Hevs.
  - exists 0%nat. eexists. split; [lia|]. split; [exact Hevs|].
    change (Call (sendRequest c totalPrice) :: evs) with ([Call (sendRequest c totalPrice)] ++ evs)%list.
    rewrite submissions_app, timeouts_app, Hsub, Htim. split; reflexivity.
  - assert (Hge : (a <? 3)%nat = false) by (apply Nat.ltb_ge; lia).
    rewrite Hge, andb_false_r. cbn [snd].
    exists 0%nat. eexists. split; [lia|]. split; [exact Hevs|].
    change (Call (sendRequest c totalPrice) :: evs) with ([Call (sendRequest c totalPrice)] ++ evs)%list.
    rewrite submissions_app, timeouts_app, Hsub, Htim. split; reflexivity.
  - exists 0%nat. eexists. split; [lia|]. split; [exact Hevs|].
    change (Call (sendRequest c totalPrice) :: evs) with ([Call (sendRequest c totalPrice)] ++ evs)%list.
    rewrite submissions_app, timeouts_app, Hsub, Htim. split; reflexivity.
  - destruct (isRateLimited err && (a <? 3)%nat) eqn:Hretry.
    + apply andb_prop in Hretry as [_ Hlt]. apply Nat.ltb_lt in Hlt.
      destruct (IH (S a) (snd (backoff a s1)) ltac:(lia) ltac:(lia))
        as (k & evs' & Hk & Htr & Hs' & Ht').
      exists (S k), ((Call (sendRequest c totalPrice) :: evs)
                     ++ [SetState fStatus; Timeout (delayMs a)] ++ evs')%list.
      split; [lia|]. split.
      * rewrite Htr. unfold backoff, bind, setStatus, update, sleep, emit.
        cbn [fst snd trace]. rewrite Hevs. trace_norm. reflexivity.
      * change (Call (sendRequest c totalPrice) :: evs)
          with ([Call (sendRequest c totalPrice)] ++ evs)%list.
        rewrite !submissions_app, !timeouts_app, Hsub, Htim, Hs', Ht'.
        split; reflexivity.
    + cbn [snd]. exists 0%nat. eexists. split; [lia|]. split; [exact Hevs|].
      change (Call (sendRequest c totalPrice) :: evs) with ([Call (sendRequest c totalPrice)] ++ evs)%list.
      rewrite submissions_app, timeouts_app, Hsub, Htim. split; reflexivity.
Qed.

End Attempts.

(** X9. Whatever the node answers, [attemptMint] sends the transaction at
    least once and at most four times, and waits once between two
    submissions: after [k + 1] submissions it has waited [k] times, for the
    first [k] of 500 ms, 1000 ms and 2000 ms. *)
Theorem attemptMint_at_most_four_submissions
  (w : World) (c : State) (totalPrice : Z) (s : Store) :
  exists k,
    (k <= 3)%nat /\
    submissions (events_since s (snd (attemptMint w c totalPrice 0 s))) = S k /\
    timeouts (events_since s (snd (attemptMint w c totalPrice 0 s)))
    = firstn k [500; 1000; 2000].
Proof.
  destruct (@attemptMint_attempts w c totalPrice 0%nat s ltac:(lia))
    as (k & evs & Hk & Htr & Hs & Ht).
  exists k. rewrite (@events_since_app s _ evs Htr).
  split; [lia|]. split; [exact Hs|].
  rewrite Ht. apply delays_of_attempts. lia.
Qed.

Section Outcomes.

Variable w : World.
Variable c : State.
Variable totalPrice : Z.

(** A rate-limited rejection below the bound: the status, the wait, and the
    next attempt on a state that differs in the status only. *)
Lemma attemptMint_retries_once (a : nat) (s : Store) (e : JsError) :
  answer w (clock s) (sendRequest c totalPrice) = Throw e ->
  isRateLimited e = true ->
  (a < 3)%nat ->
  exists s1,
    attemptMint w c totalPrice a s = attemptMint w c totalPrice (S a) s1 /\
    clock s1 = S (clock s) /\
    trace s1 = (trace s ++ [Call (sendRequest c totalPrice); SetState fStatus;
                            Timeout (delayMs a)])%list /\
    same_but_status (react s1) (react s).
Proof.
  intros Ha He Hlt.
  rewrite attemptMint_step, (@submitMint_rejected w c totalPrice s e Ha), He.
  apply Nat.ltb_lt in Hlt. rewrite Hlt. cbn [andb].
  eexists. split; [reflexivity|].
  unfold backoff, bind, setStatus, update, sleep, emit.
  cbn [fst snd react trace clock]. split; [reflexivity|].
  split; [trace_norm; reflexivity|]. repeat split.
Qed.

Lemma same_but_status_trans (a b d : State) :
  same_but_status a b -> same_but_status b d -> same_but_status a d.
Proof. unfold same_but_status. intuition congruence. Qed.

Lemma same_but_status_refl (a : State) : same_but_status a a.
Proof. repeat split. Qed.

(** [k] rate-limited rejections in a row, from attempt [a]. *)
Lemma attemptMint_after_retries (k : nat) :
  forall (a : nat) (s : Store),
    (a + k <= 3)%nat ->
    (forall i, (i < k)%nat ->
       exists e, answer w (i + clock s) (sendRequest c totalPrice) = Throw e /\
                 isRateLimited e = true) ->
    exists s1 evs,
      attemptMint w c totalPrice a s = attemptMint w c totalPrice (a + k) s1 /\
      clock s1 = (k + clock s)%nat /\
      trace s1 = (trace s ++ evs)%list /\
      submissions evs = k /\ timeouts evs = map delayMs (seq a k) /\
      same_but_status (react s1) (react s).
Proof.
  induction k as [|k IH]; intros a s Hak Hrl.
  - exists s, []. rewrite Nat.add_0_r, app_nil_r.
    repeat split; reflexivity.
  - destruct (Hrl 0%nat ltac:(lia)) as (e & He & Hr). cbn [Nat.add] in He.
    destruct (@attemptMint_retries_once a s e He Hr ltac:(lia)) as (s1 & Hrun & Hc1 & Ht1 & Hs1).
    destruct (IH (S a) s1 ltac:(lia)) as (s2 & evs & Hrun2 & Hc2 & Ht2 & Hsub & Htim & Hs2).
    { intros i Hi. destruct (Hrl (S i) ltac:(lia)) as (e' & He' & Hr').
      exists e'. split; [|exact Hr']. rewrite Hc1.
      replace (i + S (clock s))%nat with (S i + clock s)%nat by lia. exact He'. }
    exists s2, ([Call (sendRequest c totalPrice); SetState fStatus; Timeout (delayMs a)] ++ evs)%list.
    split; [rewrite Hrun, Hrun2; f_equal; lia|].
    split; [lia|]. split; [rewrite Ht2, Ht1; trace_norm; reflexivity|].
    split; [rewrite submissions_app, Hsub; reflexivity|].
    split; [rewrite timeouts_app, Htim; reflexivity|].
    exact (same_but_status_trans Hs2 Hs1).
Qed.

(** The [try] block when the transaction is accepted and confirmed. *)
Lemma submitMint_confirmed (s : Store) :
  answer w (clock s) (sendRequest c totalPrice) = Ok tt ->
  answer w (S (clock s)) tx_wait = Ok tt ->
  fst (submitMint w c totalPrice s) = Ok tt /\
  status (react (snd (submitMint w c totalPrice s))) = mintedStatus c /\
  minting (react (snd (submitMint w c totalPrice s))) = minting (react s) /\
  exists evs,
    trace (snd (submitMint w c totalPrice s))
    = (trace s ++ [Call (sendRequest c totalPrice); SetState fStatus; Call tx_wait;
                   SetState fStatus] ++ evs)%list /\
    forallb refreshEvent evs = true.
Proof.
  intros Hsend Hwait.
  remember (submitMint w c totalPrice s) as out eqn:Hout.
  unfold submitMint, sendRequest, bind, perform, setStatus, update in *.
  rewrite Hsend in Hout. cbn [fst snd react trace clock] in Hout.
  rewrite Hwait in Hout. cbn [fst snd react trace clock] in Hout.
  match type of Hout with
  | context [refreshContractData w (account c) ?s0] =>
      destruct (refreshContractData_within w (account c) s0)
        as [(_ & Hm & Hs & _) (evs & Hext & Hok)];
      pose proof (refreshContractData_ok w (account c) s0) as Hfst
  end.
  subst out. cbn [react status minting trace] in *.
  split; [exact Hfst|]. split; [exact Hs|]. split; [exact Hm|].
  exists evs. split; [rewrite Hext; trace_norm; reflexivity|exact Hok].
Qed.

(** The [try] block when the submission fails. *)
Lemma submitMint_fails (s : Store) (e : JsError) :
  submissionFails w c totalPrice (clock s) e ->
  fst (submitMint w c totalPrice s) = Throw e /\
  exists evs,
    trace (snd (submitMint w c totalPrice s))
    = (trace s ++ Call (sendRequest c totalPrice) :: evs)%list /\
    submissions evs = 0%nat /\ timeouts evs = [] /\
    same_but_status (react (snd (submitMint w c totalPrice s))) (react s).
Proof.
  intros [H|[H1 H2]]; unfold submitMint, sendRequest, bind, perform, setStatus, update in *.
  - rewrite H. cbn [fst snd react trace]. split; [reflexivity|].
    exists []. repeat split.
  - rewrite H1. cbn [fst snd react trace clock]. rewrite H2. cbn [fst snd react trace].
    split; [reflexivity|]. eexists. split; [trace_norm; reflexivity|]. repeat split.
Qed.

End Outcomes.

(** X10. When the first [k] submissions ([k] at most 3) are rejected with a
    rate-limit error and the next one is accepted and confirmed,
    [attemptMint] returns normally after [k + 1] submissions and [k] waits
    (the first [k] of 500, 1000 and 2000 ms), and the status reads
    "Minted q NFT!" ("NFTs" when [q > 1]). *)
Theorem attemptMint_succeeds_after_retries
  (w : World) (c : State) (totalPrice : Z) (s : Store) (k : nat) :
  (k <= 3)%nat ->
  (forall i, (i < k)%nat ->
     exists e, answer w (i + clock s) (sendRequest c totalPrice) = Throw e /\
               isRateLimited e = true) ->
  answer w (k + clock s) (sendRequest c totalPrice) = Ok tt ->
  answer w (S k + clock s) tx_wait = Ok tt ->
  fst (attemptMint w c totalPrice 0 s) = Ok tt /\
  status (react (snd (attemptMint w c totalPrice 0 s))) = mintedStatus c /\
  submissions (events_since s (snd (attemptMint w c totalPrice 0 s))) = S k /\
  timeouts (events_since s (snd (attemptMint w c totalPrice 0 s)))
  = firstn k [500; 1000; 2000].
Proof.
  intros Hk Hrl Hsend Hwait.
  destruct (@attemptMint_after_retries w c totalPrice k 0%nat s ltac:(lia) Hrl)
    as (s1 & evs & Hrun & Hc1 & Ht1 & Hsub & Htim & _).
  rewrite Hrun, attemptMint_step. cbn [Nat.add].
  rewrite <- Hc1 in Hsend. cbn [Nat.add] in Hwait. rewrite <- Hc1 in Hwait.
  destruct (@submitMint_confirmed w c totalPrice s1 Hsend Hwait)
    as (Hfst & Hst & _ & evs' & Htr & Hok).
  destruct (submitMint w c totalPrice s1) as [[[]|err] s2]; cbn [fst snd] in *;
    [|discriminate Hfst].
  destruct (refreshEvent_quiet _ Hok) as [Hq1 Hq2].
  split; [reflexivity|]. split; [exact Hst|].
  rewrite (@events_since_app s s2
             (evs ++ [Call (sendRequest c totalPrice); SetState fStatus; Call tx_wait;
                      SetState fStatus] ++ evs')%list)
    by (rewrite Htr, Ht1; trace_norm; reflexivity).
  rewrite !submissions_app, !timeouts_app, Hsub, Htim, Hq1, Hq2.
  split; [cbn; lia|]. cbn [timeouts app]. rewrite app_nil_r.
  apply delays_of_attempts. exact Hk.
Qed.

Lemma attemptMint_succeeds_after_retries_witness :
  fst (attemptMint (Sample.world Scenario.congested) Sample.connected (10 ^ 18) 0
         (Sample.fresh Sample.connected)) = Ok tt /\
  submissions
    (events_since (Sample.fresh Sample.connected)
       (snd (attemptMint (Sample.world Scenario.congested) Sample.connected (10 ^ 18) 0
               (Sample.fresh Sample.connected)))) = 3%nat /\
  timeouts
    (events_since (Sample.fresh Sample.connected)
       (snd (attemptMint (Sample.world Scenario.congested) Sample.connected (10 ^ 18) 0
               (Sample.fresh Sample.connected)))) = [500; 1000].
Proof.
  assert (Hk : (2 <= 3)%nat) by lia.
  assert (Hrl : forall i, (i < 2)%nat ->
            exists e, answer (Sample.world Scenario.congested)
                        (i + clock (Sample.fresh Sample.connected))
                        (sendRequest Sample.connected (10 ^ 18)) = Throw e /\
                      isRateLimited e = true).
  { intros i Hi. exists Sample.rateLimited.
    destruct i as [|[|i]]; [split; reflexivity|split; reflexivity|lia]. }
  destruct (@attemptMint_succeeds_after_retries
              (Sample.world Scenario.congested) Sample.connected (10 ^ 18)
              (Sample.fresh Sample.connected) 2 Hk Hrl eq_refl eq_refl)
    as (Hf & _ & Hs & Ht).
  split; [exact Hf|]. split; [exact Hs|exact Ht].
Defined.

(** X11. A rate-limit error met while waiting for the confirmation is
    handled like a rejected submission: the transaction having been sent
    once, [attemptMint] waits 500 ms and sends it again. *)
Theorem attemptMint_resubmits_after_failed_wait
  (w : World) (c : State) (totalPrice : Z) (s : Store) (e : JsError) :
  answer w (clock s) (sendRequest c totalPrice) = Ok tt ->
  answer w (S (clock s)) tx_wait = Throw e ->
  isRateLimited e = true ->
  (exists evs,
     events_since s (snd (attemptMint w c totalPrice 0 s))
     = Call (sendRequest c totalPrice) :: SetState fStatus :: Call tx_wait
         :: SetState fStatus :: Timeout 500 :: Call (sendRequest c totalPrice) :: evs) /\
  (2 <= submissions (events_since s (snd (attemptMint w c totalPrice 0 s))))%nat.
Proof.
  intros Hsend Hwait Hrl.
  assert (Hrun : exists s1,
            attemptMint w c totalPrice 0 s = attemptMint w c totalPrice 1 s1 /\
            trace s1 = (trace s ++ [Call (sendRequest c totalPrice); SetState fStatus;
                                    Call tx_wait; SetState fStatus; Timeout 500])%list).
  { rewrite attemptMint_step.
    unfold submitMint, sendRequest, bind, perform, setStatus, update in *.
    rewrite Hsend. cbn [fst snd react trace clock]. rewrite Hwait. rewrite Hrl.
    cbn [andb Nat.ltb Nat.leb]. eexists. split; [reflexivity|].
    unfold backoff, bind, setStatus, update, sleep, emit.
    cbn [fst snd react trace clock]. trace_norm. reflexivity. }
  destruct Hrun as (s1 & Hrun & Ht1). rewrite Hrun.
  destruct (attemptMint_submits_first w c totalPrice 1 s1) as [evs Hevs].
  assert (Hall : events_since s (snd (attemptMint w c totalPrice 1 s1))
                 = ([Call (sendRequest c totalPrice); SetState fStatus; Call tx_wait;
                     SetState fStatus; Timeout 500]
                    ++ Call (sendRequest c totalPrice) :: evs)%list).
  { apply events_since_app. rewrite Hevs, Ht1. trace_norm. reflexivity. }
  rewrite Hall. split; [exists evs; reflexivity|].
  unfold submissions. cbn [app filter is_submission sendRequest List.length]. lia.
Qed.

Lemma attemptMint_resubmits_after_failed_wait_witness :
  (2 <= submissions
          (events_since (Sample.fresh Sample.connected)
             (snd (attemptMint (Sample.world Scenario.lostReceipt) Sample.connected (10 ^ 18) 0
                     (Sample.fresh Sample.connected)))))%nat.
Proof.
  exact (proj2 (@attemptMint_resubmits_after_failed_wait
                  (Sample.world Scenario.lostReceipt) Sample.connected (10 ^ 18)
                  (Sample.fresh Sample.connected) Sample.rateLimited
                  eq_refl eq_refl eq_refl)).
Defined.

(** ** Mint orchestrator: from the click to the receipt *)

Section Submitting.

Variable w : World.
Variable c : State.
Variable s : Store.
Variable price : Z.

Hypothesis Hready : readyToSubmit w c s price.

Lemma mintNFT_after_simulation :
  mintNFT w c s
  = finally (try_catch (attemptMint w c (price * mintQuantity c) 0) mintFailed)
      (setMinting false) (simulated c (price * mintQuantity c) s).
Proof.
  destruct Hready as (Heth & Hq & Haddr & Hsig & Hprice & Hstatic & Hgas).
  rewrite (@mintNFT_after_price w c s price Heth Hq Haddr Hsig Hprice).
  unfold finally, try_catch, bind at 1, simulate, try_catch, bind, perform, simulated, prepared.
  cbn [fst snd react trace clock Nat.add] in *.
  rewrite Hstatic. cbn [fst snd react trace clock]. rewrite Hgas.
  cbn [fst snd react trace clock]. trace_norm. reflexivity.
Qed.

Lemma simulated_since :
  trace (simulated c (price * mintQuantity c) s)
  = (trace s ++ [Console Log "Mint attempt - userMintedCount:"; SetState fMinting;
                 SetState fStatus; Call getSigner; Call call_mintPrice;
                 Call (mint_staticCall (mintQuantity c) (price * mintQuantity c));
                 Call (mint_estimateGas (mintQuantity c) (price * mintQuantity c))])%list.
Proof. unfold simulated, prepared. cbn [trace]. trace_norm. reflexivity. Qed.

Lemma mintNFT_confirmed :
  answer w (4 + clock s) (sendRequest c (price * mintQuantity c)) = Ok tt ->
  answer w (5 + clock s) tx_wait = Ok tt ->
  status (react (snd (mintNFT w c s))) = mintedStatus c /\
  minting (react (snd (mintNFT w c s))) = false /\
  exists evs,
    events_since s (snd (mintNFT w c s))
    = ([Console Log "Mint attempt - userMintedCount:"; SetState fMinting; SetState fStatus;
        Call getSigner; Call call_mintPrice;
        Call (mint_staticCall (mintQuantity c) (price * mintQuantity c));
        Call (mint_estimateGas (mintQuantity c) (price * mintQuantity c));
        Call (mint_send (mintQuantity c) (price * mintQuantity c)); SetState fStatus;
        Call tx_wait; SetState fStatus] ++ evs ++ [SetState fMinting])%list /\
    forallb refreshEvent evs = true.
Proof.
  intros Hsend Hwait.
  rewrite mintNFT_after_simulation.
  unfold finally, try_catch. rewrite attemptMint_step.
  destruct (@submitMint_confirmed w c (price * mintQuantity c)
              (simulated c (price * mintQuantity c) s) Hsend Hwait)
    as (Hfst & Hst & _ & evs & Htr & Hok).
  destruct (submitMint w c (price * mintQuantity c) (simulated c (price * mintQuantity c) s))
    as [[[]|err] s2]; cbn [fst snd] in *; [|discriminate Hfst].
  unfold setMinting, update. cbn [snd react status minting trace].
  split; [exact Hst|]. split; [reflexivity|].
  exists evs. split; [|exact Hok].
  apply events_since_app. rewrite Htr, simulated_since. unfold sendRequest.
  trace_norm. reflexivity.
Qed.

(** A confirmed submission hands over to the refresh. *)
Lemma submitMint_then_refresh (s0 : Store) (totalPrice : Z) :
  answer w (clock s0) (sendRequest c totalPrice) = Ok tt ->
  answer w (S (clock s0)) tx_wait = Ok tt ->
  submitMint w c totalPrice s0
  = refreshContractData w (account c) (confirmed c totalPrice s0).
Proof.
  intros Hsend Hwait.
  unfold submitMint, sendRequest, bind, perform, setStatus, update, confirmed, mintedStatus in *.
  rewrite Hsend. cbn [fst snd react trace clock]. rewrite Hwait.
  cbn [fst snd react trace clock status account minting totalSupply maxSupply mintPriceWei
       mintQuantity userMintedCount contractMaxPerWallet].
  trace_norm. reflexivity.
Qed.

(** With a wallet and a configured contract the refresh begins by reading
    the total supply. *)
Lemma refreshContractData_starts (acct : option string) (s0 : Store) :
  ethereum w = true ->
  JsString.truthy_opt (CONTRACT_ADDRESS w) = true ->
  exists evs,
    trace (snd (refreshContractData w acct s0))
    = (trace s0 ++ Call call_totalSupply :: evs)%list /\
    forallb refreshEvent evs = true.
Proof.
  intros Heth Haddr.
  destruct (refreshContractData_within w acct s0) as [_ (all & Hall & Hok)].
  assert (Hhead : exists evs,
            trace (snd (refreshContractData w acct s0))
            = (trace s0 ++ Call call_totalSupply :: evs)%list).
  { clear all Hall Hok. open_store s0. unfold refreshContractData, getContract.
    rewrite Heth, Haddr. js_unfold.
    repeat (next_answer; try (eexists; trace_norm; reflexivity)).
    destruct acct as [addr|]; js_unfold; [|eexists; trace_norm; reflexivity].
    destruct (JsString.truthy addr); js_unfold; [|eexists; trace_norm; reflexivity].
    repeat (next_answer; try (eexists; trace_norm; reflexivity)). }
  destruct Hhead as [evs Hevs]. exists evs. split; [exact Hevs|].
  rewrite Hevs in Hall. apply app_inv_head in Hall. subst all.
  cbn [forallb refreshEvent is_read andb] in Hok. exact Hok.
Qed.

Lemma mintNFT_confirmed_store :
  answer w (4 + clock s) (sendRequest c (price * mintQuantity c)) = Ok tt ->
  answer w (5 + clock s) tx_wait = Ok tt ->
  mintNFT w c s
  = (Ok tt,
     snd (setMinting false
            (snd (refreshContractData w (account c)
                    (confirmed c (price * mintQuantity c)
                       (simulated c (price * mintQuantity c) s)))))).
Proof.
  intros Hsend Hwait.
  rewrite mintNFT_after_simulation.
  unfold finally, try_catch. rewrite attemptMint_step.
  rewrite (@submitMint_then_refresh (simulated c (price * mintQuantity c) s)
             (price * mintQuantity c) Hsend Hwait).
  pose proof (refreshContractData_ok w (account c)
                (confirmed c (price * mintQuantity c)
                   (simulated c (price * mintQuantity c) s))) as Hok.
  destruct (refreshContractData w (account c)
              (confirmed c (price * mintQuantity c) (simulated c (price * mintQuantity c) s)))
    as [[[]|err] s2]; cbn [fst snd] in *; [reflexivity|discriminate Hok].
Qed.

(** A confirmed mint, with the refresh that follows it. *)
Lemma mintNFT_confirmed_refresh :
  answer w (4 + clock s) (sendRequest c (price * mintQuantity c)) = Ok tt ->
  answer w (5 + clock s) tx_wait = Ok tt ->
  (exists evs,
     events_since s (snd (mintNFT w c s))
     = ([Console Log "Mint attempt - userMintedCount:"; SetState fMinting; SetState fStatus;
         Call getSigner; Call call_mintPrice;
         Call (mint_staticCall (mintQuantity c) (price * mintQuantity c));
         Call (mint_estimateGas (mintQuantity c) (price * mintQuantity c));
         Call (mint_send (mintQuantity c) (price * mintQuantity c)); SetState fStatus;
         Call tx_wait; SetState fStatus; Call call_totalSupply]
        ++ evs ++ [SetState fMinting])%list /\
     forallb refreshEvent evs = true) /\
  (forall supply max price' maxPerWallet,
     answer w (6 + clock s) call_totalSupply = Ok supply ->
     answer w (7 + clock s) call_maxSupply = Ok max ->
     answer w (8 + clock s) call_mintPrice = Ok price' ->
     answer w (9 + clock s) call_maxPerWallet = Ok maxPerWallet ->
     totalSupply (react (snd (mintNFT w c s))) = Number.ofBigInt supply /\
     maxSupply (react (snd (mintNFT w c s))) = Z.min (Number.ofBigInt max) 500 /\
     mintPriceWei (react (snd (mintNFT w c s))) = BigInt.toString price' /\
     contractMaxPerWallet (react (snd (mintNFT w c s))) = Number.ofBigInt maxPerWallet).
Proof.
  intros Hsend Hwait.
  destruct Hready as (Heth & _ & Haddr & _).
  rewrite (mintNFT_confirmed_store Hsend Hwait). cbn [snd].
  set (s0 := confirmed c (price * mintQuantity c) (simulated c (price * mintQuantity c) s)).
  split.
  - destruct (@refreshContractData_starts (account c) s0 Heth Haddr) as (evs & Htr & Hok).
    exists evs. split; [|exact Hok].
    apply events_since_app. unfold setMinting, update. cbn [snd trace].
    rewrite Htr. unfold s0, confirmed. cbn [trace]. rewrite simulated_since.
    unfold sendRequest. trace_norm. reflexivity.
  - intros supply max price' maxPerWallet H0 H1 H2 H3.
    destruct (@refreshContractData_after_reads w (account c) s0 supply max price' maxPerWallet
                Heth Haddr H0 H1 H2 H3) as (Ht & Hm & Hp & Hc & _).
    unfold setMinting, update.
    cbn [snd react totalSupply maxSupply mintPriceWei contractMaxPerWallet].
    repeat split; assumption.
Qed.

Lemma mintNFT_failed_submission (e : JsError) :
  submissionFails w c (price * mintQuantity c) (4 + clock s) e ->
  isRateLimited e = false ->
  status (react (snd (mintNFT w c s))) = JsString.or_else (message e) "Mint failed" /\
  minting (react (snd (mintNFT w c s))) = false /\
  submissions (events_since s (snd (mintNFT w c s))) = 1%nat /\
  timeouts (events_since s (snd (mintNFT w c s))) = [].
Proof.
  intros Hfail Hrl.
  rewrite mintNFT_after_simulation.
  unfold finally, try_catch. rewrite attemptMint_step.
  destruct (@submitMint_fails w c (price * mintQuantity c)
              (simulated c (price * mintQuantity c) s) e Hfail)
    as (Hfst & evs & Htr & Hsub & Htim & _).
  destruct (submitMint w c (price * mintQuantity c) (simulated c (price * mintQuantity c) s))
    as [[[]|err] s2]; cbn [fst snd] in *; [discriminate Hfst|].
  injection Hfst as ->. rewrite Hrl. cbn [andb].
  unfold mintFailed, bind, console, emit, setStatus, setMinting, update.
  cbn [fst snd react status minting trace].
  split; [reflexivity|]. split; [reflexivity|].
  rewrite (@events_since_app s _
     ([Console Log "Mint attempt - userMintedCount:"; SetState fMinting;
       SetState fStatus; Call getSigner; Call call_mintPrice;
       Call (mint_staticCall (mintQuantity c) (price * mintQuantity c));
       Call (mint_estimateGas (mintQuantity c) (price * mintQuantity c))]
      ++ [Call (sendRequest c (price * mintQuantity c))] ++ evs
      ++ [Console Error ""; SetState fStatus; SetState fMinting])%list).
  2:{ cbn [trace]. rewrite Htr, simulated_since. trace_norm. reflexivity. }
  rewrite !submissions_app, !timeouts_app, Hsub, Htim. split; reflexivity.
Qed.

End Submitting.

(** X12. A confirmed mint, from the click to the receipt and the refresh:
    when the checks, the signer, the price read and the simulation go
    through and the transaction is accepted and confirmed, [mintNFT] sends
    exactly one transaction, for the clicked quantity and with the value
    price times quantity, sets the status "Minted q NFT(s)!", and then
    refreshes the chain data: the read of the total supply follows the
    receipt, everything up to the release of the minting flag is the
    refresh, and when its four primary reads succeed the page ends with what
    they returned.  With safe integers [q] is spelled in decimal digits. *)
Theorem mintNFT_confirmed_mint (w : World) (c : State) (s : Store) (price : Z) :
  readyToSubmit w c s price ->
  answer w (4 + clock s) (sendRequest c (price * mintQuantity c)) = Ok tt ->
  answer w (5 + clock s) tx_wait = Ok tt ->
  status (react (snd (mintNFT w c s))) = mintedStatus c /\
  minting (react (snd (mintNFT w c s))) = false /\
  (exists evs,
     events_since s (snd (mintNFT w c s))
     = ([Console Log "Mint attempt - userMintedCount:"; SetState fMinting; SetState fStatus;
         Call getSigner; Call call_mintPrice;
         Call (mint_staticCall (mintQuantity c) (price * mintQuantity c));
         Call (mint_estimateGas (mintQuantity c) (price * mintQuantity c));
         Call (mint_send (mintQuantity c) (price * mintQuantity c)); SetState fStatus;
         Call tx_wait; SetState fStatus; Call call_totalSupply]
        ++ evs ++ [SetState fMinting])%list /\
     forallb refreshEvent evs = true) /\
  submissions (events_since s (snd (mintNFT w c s))) = 1%nat /\
  (forall supply max price' maxPerWallet,
     answer w (6 + clock s) call_totalSupply = Ok supply ->
     answer w (7 + clock s) call_maxSupply = Ok max ->
     answer w (8 + clock s) call_mintPrice = Ok price' ->
     answer w (9 + clock s) call_maxPerWallet = Ok maxPerWallet ->
     totalSupply (react (snd (mintNFT w c s))) = Number.ofBigInt supply /\
     maxSupply (react (snd (mintNFT w c s))) = Z.min (Number.ofBigInt max) 500 /\
     mintPriceWei (react (snd (mintNFT w c s))) = BigInt.toString price' /\
     contractMaxPerWallet (react (snd (mintNFT w c s))) = Number.ofBigInt maxPerWallet) /\
  (safeState c = true ->
     status (react (snd (mintNFT w c s)))
     = "Minted " ++ BigInt.toString (mintQuantity c) ++ " NFT"
       ++ (if mintQuantity c >? 1 then "s" else "") ++ "!").
Proof.
  intros Hready Hsend Hwait.
  destruct (@mintNFT_confirmed w c s price Hready Hsend Hwait) as (Hst & Hmint & _).
  destruct (@mintNFT_confirmed_refresh w c s price Hready Hsend Hwait) as ((evs & Hev & Hok) & Hreads).
  split; [exact Hst|]. split; [exact Hmint|].
  split; [exists evs; split; assumption|].
  split; [|split; [exact Hreads|]].
  - rewrite Hev.
    change ([Console Log "Mint attempt - userMintedCount:"; SetState fMinting; SetState fStatus;
             Call getSigner; Call call_mintPrice;
             Call (mint_staticCall (mintQuantity c) (price * mintQuantity c));
             Call (mint_estimateGas (mintQuantity c) (price * mintQuantity c));
             Call (mint_send (mintQuantity c) (price * mintQuantity c)); SetState fStatus;
             Call tx_wait; SetState fStatus; Call call_totalSupply] ++ evs ++ [SetState fMinting])%list
      with ([Console Log "Mint attempt - userMintedCount:"; SetState fMinting; SetState fStatus;
             Call getSigner; Call call_mintPrice;
             Call (mint_staticCall (mintQuantity c) (price * mintQuantity c));
             Call (mint_estimateGas (mintQuantity c) (price * mintQuantity c));
             Call (mint_send (mintQuantity c) (price * mintQuantity c)); SetState fStatus;
             Call tx_wait; SetState fStatus]
            ++ (Call call_totalSupply :: evs) ++ [SetState fMinting])%list.
    rewrite !submissions_app.
    assert (Hquiet : submissions (Call call_totalSupply :: evs) = 0%nat).
    { apply refreshEvent_quiet. cbn [forallb refreshEvent is_read andb]. exact Hok. }
    rewrite Hquiet. reflexivity.
  - intros Hsafe. rewrite Hst. unfold mintedStatus.
    destruct (safeState_remainders c Hsafe) as (_ & _ & _ & ->). reflexivity.
Qed.

Lemma mintNFT_confirmed_mint_witness :
  status (react (snd (mintNFT (Sample.world Sample.calm) Sample.connected
                        (Sample.fresh Sample.connected)))) = "Minted 1 NFT!" /\
  minting (react (snd (mintNFT (Sample.world Sample.calm) Sample.connected
                         (Sample.fresh Sample.connected)))) = false /\
  totalSupply (react (snd (mintNFT (Sample.world Sample.calm) Sample.connected
                             (Sample.fresh Sample.connected)))) = 3.
Proof.
  assert (Hready : readyToSubmit (Sample.world Sample.calm) Sample.connected
                     (Sample.fresh Sample.connected) (10 ^ 18))
    by (repeat split).
  assert (Hsafe : safeState Sample.connected = true) by (vm_compute; reflexivity).
  destruct (@mintNFT_confirmed_mint (Sample.world Sample.calm) Sample.connected
              (Sample.fresh Sample.connected) (10 ^ 18) Hready eq_refl eq_refl)
    as (_ & Hm & _ & _ & Hreads & Hs).
  split; [exact (Hs Hsafe)|]. split; [exact Hm|].
  exact (proj1 (Hreads 3 1000 (10 ^ 18) 2 eq_refl eq_refl eq_refl eq_refl)).
Defined.

(** X13. A submission that fails with anything but a rate-limit error (the
    user declining in the wallet, a revert, an RPC error with another code)
    is not retried: one transaction, no wait, and [mintNFT] ends with the
    error's message, or "Mint failed" when it has none, as status and the
    minting flag cleared. *)
Theorem mintNFT_other_failure_is_not_retried
  (w : World) (c : State) (s : Store) (price : Z) (e : JsError) :
  readyToSubmit w c s price ->
  submissionFails w c (price * mintQuantity c) (4 + clock s) e ->
  isRateLimited e = false ->
  status (react (snd (mintNFT w c s))) = JsString.or_else (message e) "Mint failed" /\
  minting (react (snd (mintNFT w c s))) = false /\
  submissions (events_since s (snd (mintNFT w c s))) = 1%nat /\
  timeouts (events_since s (snd (mintNFT w c s))) = [].
Proof. intros Hready. apply mintNFT_failed_submission. exact Hready. Qed.

Lemma mintNFT_other_failure_is_not_retried_witness :
  status (react (snd (mintNFT (Sample.world Scenario.declined) Sample.connected
                        (Sample.fresh Sample.connected)))) = "user rejected action" /\
  submissions
    (events_since (Sample.fresh Sample.connected)
       (snd (mintNFT (Sample.world Scenario.declined) Sample.connected
               (Sample.fresh Sample.connected)))) = 1%nat.
Proof.
  assert (Hready : readyToSubmit (Sample.world Scenario.declined) Sample.connected
                     (Sample.fresh Sample.connected) (10 ^ 18))
    by (repeat split).
  assert (Hfail : submissionFails (Sample.world Scenario.declined) Sample.connected
                    (10 ^ 18 * mintQuantity Sample.connected)
                    (4 + clock (Sample.fresh Sample.connected)) Scenario.userRejected)
    by (left; reflexivity).
  destruct (@mintNFT_other_failure_is_not_retried
              (Sample.world Scenario.declined) Sample.connected
              (Sample.fresh Sample.connected) (10 ^ 18) Scenario.userRejected
              Hready Hfail eq_refl)
    as (Hs & _ & Hn & _).
  split; [exact Hs|exact Hn].
Defined.

(** ** The rate-limit test *)

Section Patterns.

Lemma test_ci_eq (p s : string) :
  JsString.test_ci p s
  = JsString.prefix_ci p s
    || match s with "" => false | String _ s' => JsString.test_ci p s' end.
Proof. destruct s; reflexivity. Qed.

Lemma prefix_ci_app (p q s : string) :
  JsString.prefix_ci (p ++ q) s = true -> JsString.prefix_ci p s = true.
Proof.
  revert s. induction p as [|a p IH]; intros s H; [reflexivity|].
  destruct s as [|b s]; [discriminate H|].
  change (String a p ++ q) with (String a (p ++ q)) in H.
  cbn [JsString.prefix_ci] in *.
  apply andb_prop in H as [H1 H2]. rewrite H1, (IH _ H2). reflexivity.
Qed.

(** A text that contains a pattern contains every beginning of it. *)
Lemma test_ci_app (p q s : string) :
  JsString.test_ci (p ++ q) s = true -> JsString.test_ci p s = true.
Proof.
  induction s as [|b s IH].
  - rewrite (test_ci_eq (p ++ q) ""), (test_ci_eq p ""), !orb_false_r.
    apply prefix_ci_app.
  - rewrite (test_ci_eq (p ++ q) (String b s)), (test_ci_eq p (String b s)).
    intros H. apply orb_prop in H as [H|H].
    + rewrite (prefix_ci_app _ _ _ H). reflexivity.
    + rewrite (IH H). apply orb_true_r.
Qed.

Lemma prefix_ci_test_ci (p s : string) :
  JsString.prefix_ci p s = true -> JsString.test_ci p s = true.
Proof. intros H. rewrite test_ci_eq, H. reflexivity. Qed.

(** ... and every end of it. *)
Lemma test_ci_tail (a : ascii) (p s : string) :
  JsString.test_ci (String a p) s = true -> JsString.test_ci p s = true.
Proof.
  induction s as [|b s IH].
  - intros H. discriminate H.
  - rewrite (test_ci_eq (String a p) (String b s)), (test_ci_eq p (String b s)).
    intros H. apply orb_prop in H as [H|H].
    + cbn [JsString.prefix_ci] in H. apply andb_prop in H as [_ H].
      rewrite (prefix_ci_test_ci _ _ H). apply orb_true_r.
    + rewrite (IH H). apply orb_true_r.
Qed.

Lemma test_ci_skip (a p s : string) :
  JsString.test_ci (a ++ p) s = true -> JsString.test_ci p s = true.
Proof.
  induction a as [|ch a IH]; intros H; [exact H|].
  change (String ch a ++ p) with (String ch (a ++ p)) in H.
  exact (IH (test_ci_tail _ _ _ H)).
Qed.

Lemma rate_limit_alternatives (m : string) :
  JsString.test_ci "rate limit" m
  || JsString.test_ci "rate limited" m
  || JsString.test_ci "Request is being rate limited" m
  = JsString.test_ci "rate limit" m.
Proof.
  destruct (JsString.test_ci "rate limit" m) eqn:H1; [reflexivity|].
  destruct (JsString.test_ci "rate limited" m) eqn:H2.
  { change "rate limited" with ("rate limit" ++ "ed") in H2.
    rewrite (test_ci_app _ _ _ H2) in H1. discriminate H1. }
  destruct (JsString.test_ci "Request is being rate limited" m) eqn:H3; [|reflexivity].
  change "Request is being rate limited" with ("Request is being " ++ "rate limit" ++ "ed") in H3.
  apply test_ci_skip, test_ci_app in H3. rewrite H3 in H1. discriminate H1.
Qed.

End Patterns.

(** X14. The retry test looks at two things only: the error code is -32603
    and the message contains "rate limit", in any letter case.  The two
    longer alternatives of the pattern ("rate limited", "Request is being
    rate limited") never decide: every message they match contains "rate
    limit". *)
Theorem isRateLimited_one_pattern (e : JsError) :
  isRateLimited e
  = match code e, message e with
    | Some n, Some m => (n =? -32603) && JsString.test_ci "rate limit" m
    | _, _ => false
    end.
Proof.
  unfold isRateLimited.
  destruct (code e) as [n|]; destruct (message e) as [m|]; try reflexivity.
  - now rewrite rate_limit_alternatives.
  - apply andb_false_r.
Qed.

(** ** Quantity controls: what the user types and clicks *)

Section Typing.

Lemma digit_value_of_digit (ch : ascii) :
  is_digit ch = true ->
  BigInt.digit_value 10 ch = Some (Z.of_nat (nat_of_ascii ch) - 48).
Proof.
  unfold is_digit, BigInt.digit_value. intros H.
  apply andb_prop in H as [H1 H2]. apply Nat.leb_le in H1. apply Nat.leb_le in H2.
  cbv zeta.
  destruct (Z.leb_spec 48 (Z.of_nat (nat_of_ascii ch))) as [_|]; [|lia].
  destruct (Z.leb_spec (Z.of_nat (nat_of_ascii ch)) 57) as [_|]; [|lia].
  cbn [andb].
  destruct (Z.ltb_spec (Z.of_nat (nat_of_ascii ch) - 48) 10) as [_|]; [reflexivity|lia].
Qed.

(** On a run of digits [parseInt] reads all of them. *)
Lemma parse_prefix_digits (s : string) :
  all_digits s = true ->
  forall acc, parse_prefix 10 s (Some acc) = BigInt.parse_digits 10 s acc.
Proof.
  induction s as [|ch s IH]; intros Hd acc; [reflexivity|].
  cbn [all_digits] in Hd. apply andb_prop in Hd as [Hc Hs].
  cbn [parse_prefix BigInt.parse_digits]. rewrite (digit_value_of_digit _ Hc).
  apply IH. exact Hs.
Qed.

Lemma parse_prefix_digits_first (s : string) :
  s <> "" -> all_digits s = true ->
  parse_prefix 10 s None = BigInt.parse_digits 10 s 0.
Proof.
  destruct s as [|ch s]; [contradiction|]. intros _ Hd.
  cbn [all_digits] in Hd. apply andb_prop in Hd as [Hc Hs].
  cbn [parse_prefix BigInt.parse_digits]. rewrite (digit_value_of_digit _ Hc).
  apply parse_prefix_digits. exact Hs.
Qed.

Ltac each_ascii ch :=
  let b0 := fresh in let b1 := fresh in let b2 := fresh in let b3 := fresh in
  let b4 := fresh in let b5 := fresh in let b6 := fresh in let b7 := fresh in
  destruct ch as [b0 b1 b2 b3 b4 b5 b6 b7];
  destruct b0, b1, b2, b3, b4, b5, b6, b7.

(** A run of digits carries no radix prefix. *)
Lemma parseInt_unsigned_digits (s : string) :
  s <> "" -> all_digits s = true ->
  match s with
  | String "0" (String "x" r) | String "0" (String "X" r) => parse_prefix 16 r None
  | _ => parse_prefix 10 s None
  end = BigInt.parse_digits 10 s 0.
Proof.
  intros Hne Hd. rewrite <- (parse_prefix_digits_first Hne Hd).
  destruct s as [|c1 s]; [contradiction|].
  cbn [all_digits] in Hd. apply andb_prop in Hd as [Hc1 Hs].
  each_ascii c1; try (vm_compute in Hc1; discriminate Hc1); try reflexivity.
  destruct s as [|c2 s]; [reflexivity|].
  cbn [all_digits] in Hs. apply andb_prop in Hs as [Hc2 _].
  each_ascii c2; try (vm_compute in Hc2; discriminate Hc2); reflexivity.
Qed.

Lemma parseInt_digits (s : string) :
  s <> "" -> all_digits s = true ->
  parseInt s = option_map Number.ofBigInt (BigInt.parse_digits 10 s 0).
Proof.
  intros Hne Hd. unfold parseInt. rewrite (trim_start_digits _ Hd).
  rewrite <- (parseInt_unsigned_digits Hne Hd).
  destruct s as [|c1 s]; [contradiction|].
  cbn [all_digits] in Hd. apply andb_prop in Hd as [Hc1 _].
  each_ascii c1; try (vm_compute in Hc1; discriminate Hc1); reflexivity.
Qed.

(** [parseInt(String(n))] is the Number nearest to [n]. *)
Lemma parseInt_toString (n : Z) :
  parseInt (BigInt.toString n)
  = Some (if n <? 0 then - Number.ofBigInt (- n) else Number.ofBigInt n).
Proof.
  unfold BigInt.toString. destruct (Z.ltb_spec n 0) as [Hneg|Hpos].
  - assert (Hn : 0 <= - n) by lia.
    unfold parseInt. cbn [BigInt.trim_start].
    change (BigInt.is_white "-") with false. cbv iota beta.
    rewrite (parseInt_unsigned_digits (digits_nonempty Hn) (all_digits_digits Hn)).
    rewrite (parse_digits_digits Hn). reflexivity.
  - rewrite (parseInt_digits (digits_nonempty Hpos) (all_digits_digits Hpos)).
    rewrite (parse_digits_digits Hpos). reflexivity.
Qed.

Lemma onChange_typed (n : Z) (s : State) :
  onChange (BigInt.toString n) s
  = withMintQuantity
      (Z.min (maxAllowed s) (Z.max 1 (if n <? 0 then 1 else Number.ofBigInt n))) s.
Proof.
  unfold onChange. rewrite parseInt_toString.
  destruct (Z.ltb_spec n 0) as [Hneg|Hpos].
  - pose proof (ofBigInt_nonneg (- n) ltac:(lia)) as H0.
    destruct (Number.ofBigInt (- n)) as [|p|p]; try lia; reflexivity.
  - pose proof (ofBigInt_nonneg n Hpos) as H0.
    destruct (Number.ofBigInt n) as [|p|p]; try lia; reflexivity.
Qed.

End Typing.

(** X15. In a state of safe integers, typing the decimal digits of an
    integer [n] into the number input stores the Number nearest to [n]
    brought into range, [min(maxAllowed, max(1, Number(n)))], where
    [maxAllowed] is [min(contractMaxPerWallet, contractMaxPerWallet -
    userMintedCount)]; this is [min(maxAllowed, max(1, n))] for every [n]
    below [2^53], zero and negative numbers count as 1, no other field
    changes, and the state stays one of safe integers.  Past [2^53] the
    digits typed are rounded: [9007199254740993] counts as
    [9007199254740992]. *)
Theorem onChange_typed_number (n : Z) (s : State) :
  safeState s = true ->
  onChange (BigInt.toString n) s
  = withMintQuantity
      (Z.min (maxAllowed s) (Z.max 1 (if n <? 0 then 1 else Number.ofBigInt n))) s /\
  (n < 2 ^ 53 ->
     onChange (BigInt.toString n) s
     = withMintQuantity (Z.min (maxAllowed s) (Z.max 1 n)) s) /\
  safeState (onChange (BigInt.toString n) s) = true /\
  parseInt "9007199254740993" = Some 9007199254740992.
Proof.
  intros Hs. split; [apply onChange_typed|]. split; [|split].
  - intros Hn. rewrite onChange_typed.
    destruct (Z.ltb_spec n 0) as [Hneg|Hpos].
    + f_equal. lia.
    + rewrite ofBigInt_safe by lia. reflexivity.
  - revert Hs. rewrite !safeState_spec. unfold onChange, maxAllowed.
    destruct s; cbn [withMintQuantity totalSupply maxSupply userMintedCount
                     contractMaxPerWallet mintQuantity].
    destruct (parseInt _) as [[|p|p]|]; lia.
  - vm_compute. reflexivity.
Qed.

Lemma onChange_typed_number_witness :
  onChange "2" Sample.connected = withMintQuantity 2 Sample.connected.
Proof.
  assert (Hs : safeState Sample.connected = true) by (vm_compute; reflexivity).
  assert (Hn : 2 < 2 ^ 53) by (vm_compute; reflexivity).
  exact (proj1 (proj2 (@onChange_typed_number 2 Sample.connected Hs)) Hn).
Defined.

(** X16. In a state of safe integers, an enabled quantity button moves the
    quantity by exactly one and leaves a state of safe integers, and the two
    buttons undo each other: [+] then [-] gives back the state when the
    quantity was at least 1, and [-] then [+] when it was at most
    [maxAllowed]. *)
Theorem quantity_buttons_step_by_one (s : State) :
  safeState s = true ->
  (decrementDisabled s = false -> mintQuantity (onDecrement s) = mintQuantity s - 1) /\
  (incrementDisabled s = false -> mintQuantity (onIncrement s) = mintQuantity s + 1) /\
  (incrementDisabled s = false -> 1 <= mintQuantity s -> onDecrement (onIncrement s) = s) /\
  (decrementDisabled s = false -> mintQuantity s <= maxAllowed s ->
     onIncrement (onDecrement s) = s) /\
  safeState (onDecrement s) = true /\
  safeState (onIncrement s) = true.
Proof.
  intros Hs.
  assert (Hd : safeState (onDecrement s) = true).
  { revert Hs. rewrite !safeState_spec.
    destruct s; cbn [onDecrement withMintQuantity totalSupply maxSupply userMintedCount
                     contractMaxPerWallet mintQuantity]. lia. }
  assert (Hi : safeState (onIncrement s) = true).
  { revert Hs. rewrite !safeState_spec.
    destruct s; cbn [onIncrement withMintQuantity totalSupply maxSupply userMintedCount
                     contractMaxPerWallet mintQuantity]. lia. }
  clear Hs.
  unfold decrementDisabled, incrementDisabled, onDecrement, onIncrement, maxAllowed,
    withMintQuantity in *.
  destruct s as [a m t mx p st q u cm].
  cbn [account minting totalSupply maxSupply mintPriceWei status mintQuantity
       userMintedCount contractMaxPerWallet] in *.
  rewrite Z.geb_leb.
  split; [|split; [|split; [|split; [|split; assumption]]]].
  - intros H. apply Z.leb_gt in H. lia.
  - intros H. apply Z.leb_gt in H. lia.
  - intros H Hq. apply Z.leb_gt in H. f_equal. lia.
  - intros H Hq. apply Z.leb_gt in H. f_equal. lia.
Qed.

Lemma quantity_buttons_step_by_one_witness :
  mintQuantity (onIncrement Sample.connected) = mintQuantity Sample.connected + 1 /\
  onDecrement (onIncrement Sample.connected) = Sample.connected.
Proof.
  assert (Hs : safeState Sample.connected = true) by (vm_compute; reflexivity).
  destruct (@quantity_buttons_step_by_one Sample.connected Hs) as (_ & Hi & Hid & _).
  split; [exact (Hi eq_refl)|].
  apply Hid; [reflexivity|]. cbn. lia.
Defined.

(** ** View: the connected account *)

Section Slices.

Lemma drop_append (a b : string) : drop (String.length a) (a ++ b) = b.
Proof. induction a as [|ch a IH]; [reflexivity|]. cbn. exact IH. Qed.

Lemma drop_zero (s : string) : drop 0 s = s.
Proof. destruct s; reflexivity. Qed.

Lemma take_short (k : nat) (a : string) :
  (String.length a <= k)%nat -> JsString.take k a = a.
Proof.
  revert a; induction k as [|k IH]; intros a Hk; destruct a as [|ch a];
    try reflexivity; cbn in *; [lia|].
  rewrite IH by lia. reflexivity.
Qed.

End Slices.

(** X17. For an account of at least ten characters the page shows its
    first six characters, three dots, and its last four; an account of at
    most four characters is shown in full on both sides of the dots. *)
Theorem connectedLabel_first_six_last_four (p m q : string) :
  String.length p = 6%nat ->
  String.length q = 4%nat ->
  connectedLabel (p ++ m ++ q) = "Connected: " ++ p ++ "..." ++ q /\
  (forall a, (String.length a <= 4)%nat ->
     connectedLabel a = "Connected: " ++ a ++ "..." ++ a).
Proof.
  intros Hp Hq. unfold connectedLabel, slice_last. split.
  - rewrite take_append by lia. rewrite (take_short p) by lia.
    rewrite <- (append_assoc p m q), (length_append (p ++ m) q), Hq.
    replace (String.length (p ++ m) + 4 - 4)%nat with (String.length (p ++ m)) by lia.
    rewrite drop_append. reflexivity.
  - intros a Ha.
    replace (String.length a - 4)%nat with 0%nat by lia. rewrite drop_zero.
    rewrite take_short by lia. reflexivity.
Qed.

Lemma connectedLabel_first_six_last_four_witness :
  connectedLabel Sample.alice = "Connected: 0xA11C...0001".
Proof.
  exact (proj1 (@connectedLabel_first_six_last_four
                  "0xA11C" "E0000000000000000000000000000000" "0001" eq_refl eq_refl)).
Defined.

(** ** The effect and its cleanup *)

Section Listeners.

Variable w : World.

Lemma remove_first_absent (f : nat) (l : list (nat * State)) :
  Forall (fun x => fst x <> f) l -> remove_first f l = l.
Proof.
  induction 1 as [|x l Hx _ IH]; [reflexivity|].
  cbn [remove_first]. apply Nat.eqb_neq in Hx. rewrite Hx, IH. reflexivity.
Qed.

Lemma removeListener_absent (f : nat) (l : list (nat * State)) :
  Forall (fun x => fst x <> f) l -> removeListener f l = l.
Proof.
  intros H. unfold removeListener. rewrite remove_first_absent, rev_involutive; [reflexivity|].
  apply Forall_rev. exact H.
Qed.

(** A function created for the cleanup is not among the listeners. *)
Lemma cleanup_keeps (em : Emitter) :
  well_formed em -> listeners (cleanup w em) = listeners em /\ well_formed (cleanup w em).
Proof.
  intros Hwf. unfold cleanup.
  destruct (ethereum w && has_removeListener em); [|split; [reflexivity|exact Hwf]].
  assert (Hkeep : removeListener (created em) (listeners em) = listeners em).
  { apply removeListener_absent. unfold well_formed in Hwf.
    rewrite Forall_forall in *. intros x Hx. specialize (Hwf x Hx). lia. }
  unfold well_formed. cbn [listeners created]. rewrite Hkeep. split; [reflexivity|].
  unfold well_formed in Hwf. rewrite Forall_forall in *.
  intros x Hx. specialize (Hwf x Hx). lia.
Qed.

Lemma effect_adds (c : State) (em : Emitter) :
  well_formed em ->
  map snd (listeners (effect w c em))
  = (map snd (listeners em) ++ (if ethereum w && has_on em then [c] else []))%list /\
  well_formed (effect w c em) /\
  has_on (effect w c em) = has_on em.
Proof.
  intros Hwf. unfold effect.
  destruct (ethereum w && has_on em).
  - cbn [listeners created has_on]. rewrite map_app. split; [reflexivity|]. split; [|reflexivity].
    unfold well_formed in *. cbn [listeners created].
    apply Forall_app. split.
    + rewrite Forall_forall in *. intros x Hx. specialize (Hwf x Hx). lia.
    + constructor; [cbn; lia|constructor].
  - rewrite app_nil_r. split; [reflexivity|]. split; [exact Hwf|reflexivity].
Qed.

Lemma cleanup_has_on (em : Emitter) : has_on (cleanup w em) = has_on em.
Proof. unfold cleanup. destruct (ethereum w && has_removeListener em); reflexivity. Qed.

Lemma rerun_accumulates (renders : list State) :
  forall em,
    well_formed em ->
    map snd (listeners (rerun w renders em))
    = (map snd (listeners em) ++ (if ethereum w && has_on em then renders else []))%list /\
    well_formed (rerun w renders em).
Proof.
  induction renders as [|c renders IH]; intros em Hwf.
  - cbn [rerun]. destruct (ethereum w && has_on em); rewrite app_nil_r; split; auto.
  - cbn [rerun].
    destruct (cleanup_keeps Hwf) as [Hl Hwf1].
    destruct (effect_adds c Hwf1) as (Hadd & Hwf2 & Hon).
    destruct (IH _ Hwf2) as [Hmap Hwf3].
    split; [|exact Hwf3].
    rewrite Hmap, Hadd, Hl, Hon, cleanup_has_on.
    destruct (ethereum w && has_on em); [|rewrite !app_nil_r; reflexivity].
    rewrite <- app_assoc. reflexivity.
Qed.

End Listeners.

(** X18. The cleanup of the effect never unregisters anything: the function
    it hands to [removeListener] is a new one, not the listener that was
    added.  After the first run of the effect and any number of further runs,
    each preceded by the cleanup of the one before, the emitter holds one
    [accountsChanged] listener for every run, in order, each still calling
    the [refreshContractData] of its own render; the last cleanup removes
    none of them either. *)
Theorem cleanup_never_removes_a_listener
  (w : World) (on_ removeListener_ : bool) (c0 : State) (renders : list State) :
  map snd (listeners (rerun w renders (effect w c0 (newEmitter on_ removeListener_))))
  = (if ethereum w && on_ then c0 :: renders else []) /\
  listeners (cleanup w (rerun w renders (effect w c0 (newEmitter on_ removeListener_))))
  = listeners (rerun w renders (effect w c0 (newEmitter on_ removeListener_))).
Proof.
  assert (Hwf0 : well_formed (newEmitter on_ removeListener_)) by constructor.
  destruct (effect_adds w c0 Hwf0) as (Hadd & Hwf1 & Hon).
  destruct (rerun_accumulates w renders Hwf1) as [Hmap Hwf2].
  split.
  - rewrite Hmap, Hadd, Hon. cbn [newEmitter has_on listeners map app].
    destruct (ethereum w && on_); reflexivity.
  - exact (proj1 (cleanup_keeps w Hwf2)).
Qed.

(** ** The account listener *)


(** ** The mint button and the checks of [mintNFT] *)

Section Refusals.

Variable w : World.
Variable c : State.
Variable s : Store.

Lemma mintDisabled_allowance :
  mintDisabled c = minting c || (remainingAllowance c <=? 0).
Proof.
  unfold mintDisabled, remainingAllowance. rewrite <- orb_assoc. f_equal.
  rewrite Z.geb_leb.
  destruct (Z.leb_spec (contractMaxPerWallet c) (userMintedCount c));
    destruct (Z.leb_spec (contractMaxPerWallet c - userMintedCount c) 0);
    destruct (Z.leb_spec (Z.max 0 (contractMaxPerWallet c - userMintedCount c)) 0);
    try reflexivity; lia.
Qed.

(** A refused click: nothing is sent, and either the state is as before and
    one alert is shown, or the allowance is used up and the status says so. *)
Lemma mintNFT_refused :
  ethereum w = false \/ quantityAccepted c = false ->
  fst (mintNFT w c s) = Ok tt /\
  existsb is_call (events_since s (snd (mintNFT w c s))) = false /\
  ((react (snd (mintNFT w c s)) = react s /\
    exists msg, events_since s (snd (mintNFT w c s)) = [Alert msg]) \/
   (remainingAllowance c <= 0 /\ ethereum w = true /\
    events_since s (snd (mintNFT w c s)) = [SetState fStatus] /\
    status (react (snd (mintNFT w c s))) = "Max per wallet reached")).
Proof.
  intros H. unfold mintNFT.
  destruct (ethereum w) eqn:Heth; cbn [negb].
  2:{ unfold alert, emit. cbn [fst snd react trace].
      split; [reflexivity|]. split; [since; reflexivity|].
      left. split; [reflexivity|]. eexists. since. reflexivity. }
  destruct H as [H|H]; [discriminate H|]. cbv zeta.
  unfold quantityAccepted in H.
  destruct (Z.leb_spec (remainingAllowance c) 0) as [Hra|Hra].
  { unfold setStatus, update. cbn [fst snd react trace status].
    split; [reflexivity|]. split; [since; reflexivity|].
    right. split; [exact Hra|]. split; [reflexivity|]. split; [since; reflexivity|reflexivity]. }
  destruct ((mintQuantity c <? 1) || (mintQuantity c >? remainingAllowance c)) eqn:H2.
  { unfold alert, emit. cbn [fst snd react trace].
    split; [reflexivity|]. split; [since; reflexivity|].
    left. split; [reflexivity|]. eexists. since. reflexivity. }
  destruct (mintQuantity c >? remainingSupply c) eqn:H3.
  { unfold alert, emit. cbn [fst snd react trace].
    split; [reflexivity|]. split; [since; reflexivity|].
    left. split; [reflexivity|]. eexists. since. reflexivity. }
  assert (H1 : (remainingAllowance c <=? 0) = false) by (apply Z.leb_gt; exact Hra).
  rewrite (wallet_restriction_implied c H1 H2) in H. discriminate H.
Qed.

End Refusals.

(** X20. The mint button is disabled exactly when a mint is running or the
    allowance [max(0, contractMaxPerWallet - userMintedCount)] is used up
    (the second and the third condition of its [disabled] attribute say the
    same).  So a click on an enabled button that [mintNFT] refuses never
    changes the state: the refusal is one alert, and the status "Max per
    wallet reached" cannot be produced from an enabled button. *)
Theorem mintNFT_refusal_from_enabled_button (w : World) (c : State) (s : Store) :
  mintDisabled c = minting c || (remainingAllowance c <=? 0) /\
  (mintDisabled c = false ->
   ethereum w = false \/ quantityAccepted c = false ->
   fst (mintNFT w c s) = Ok tt /\
   react (snd (mintNFT w c s)) = react s /\
   exists msg, events_since s (snd (mintNFT w c s)) = [Alert msg]).
Proof.
  split; [apply mintDisabled_allowance|].
  intros Hen Href. rewrite mintDisabled_allowance in Hen.
  apply orb_false_elim in Hen as [_ Hra]. apply Z.leb_gt in Hra.
  destruct (mintNFT_refused w c s Href) as (Hfst & _ & [[Hst Hal]|[Hle _]]); [|lia].
  split; [exact Hfst|]. split; [exact Hst|exact Hal].
Qed.

Lemma mintNFT_refusal_from_enabled_button_witness :
  react (snd (mintNFT (Sample.world Sample.calm) (withMintQuantity 3 Sample.connected)
                (Sample.fresh Sample.connected))) = Sample.connected.
Proof.
  destruct (mintNFT_refusal_from_enabled_button
              (Sample.world Sample.calm) (withMintQuantity 3 Sample.connected)
              (Sample.fresh Sample.connected)) as [_ H].
  destruct (H eq_refl (or_intror eq_refl)) as (_ & Hst & _).
  exact Hst.
Defined.

(** X21. The page stops at its own ceiling: after a refresh that read a
    total supply of 500 or more, whatever maximum the contract reports,
    [mintNFT] run from the refreshed state sends nothing, neither to the
    wallet nor to the contract, for any quantity. *)
Theorem mintNFT_stops_at_displayed_ceiling
  (w : World) (acct : option string) (s s' : Store) (supply max price maxPerWallet : Z) :
  ethereum w = true ->
  JsString.truthy_opt (CONTRACT_ADDRESS w) = true ->
  answer w (clock s) call_totalSupply = Ok supply ->
  answer w (1 + clock s) call_maxSupply = Ok max ->
  answer w (2 + clock s) call_mintPrice = Ok price ->
  answer w (3 + clock s) call_maxPerWallet = Ok maxPerWallet ->
  500 <= supply ->
  remainingSupply (react (snd (refreshContractData w acct s))) = 0 /\
  forall q,
    existsb is_call
      (events_since s'
         (snd (mintNFT w (withMintQuantity q (react (snd (refreshContractData w acct s)))) s')))
    = false.
Proof.
  intros Heth Haddr H0 H1 H2 H3 Hsup.
  destruct (@refreshContractData_after_reads w acct s supply max price maxPerWallet
              Heth Haddr H0 H1 H2 H3) as (Ht & Hm & _ & _ & Hrs).
  assert (Hzero : remainingSupply (react (snd (refreshContractData w acct s))) = 0).
  { rewrite Hrs. pose proof (ofBigInt_ge 500 supply ltac:(lia) Hsup). lia. }
  split; [exact Hzero|]. intros q.
  apply mintNFT_refused. right.
  unfold quantityAccepted.
  assert (Hrs' : remainingSupply (withMintQuantity q (react (snd (refreshContractData w acct s)))) = 0)
    by exact Hzero.
  rewrite Hrs'. cbn [withMintQuantity mintQuantity].
  destruct (Z.ltb_spec q 1) as [Hq|Hq].
  - cbn [orb negb]. rewrite andb_false_r. reflexivity.
  - assert (Hgt : (q >? 0) = true) by (rewrite Z.gtb_ltb; apply Z.ltb_lt; lia).
    rewrite Hgt. cbn [negb]. rewrite andb_false_r. reflexivity.
Qed.

Lemma mintNFT_stops_at_displayed_ceiling_witness :
  existsb is_call
    (events_since (Sample.fresh Sample.connected)
       (snd (mintNFT (Sample.world Scenario.pastCeiling)
               (withMintQuantity 1
                  (react (snd (refreshContractData (Sample.world Scenario.pastCeiling)
                                 (Some Sample.alice) (Sample.fresh Sample.connected)))))
               (Sample.fresh Sample.connected)))) = false.
Proof.
  assert (Hsup : 500 <= 600) by lia.
  exact (proj2 (@mintNFT_stops_at_displayed_ceiling
                  (Sample.world Scenario.pastCeiling) (Some Sample.alice)
                  (Sample.fresh Sample.connected) (Sample.fresh Sample.connected)
                  600 1000 (10 ^ 18) 2 eq_refl eq_refl eq_refl eq_refl eq_refl eq_refl Hsup) 1).
Defined.

(** ** Mint orchestrator: failures before the simulation *)

Section Preparation.

Variable w : World.
Variable c : State.
Variable s : Store.

Lemma mintNFT_preparation (e : JsError) :
  ethereum w = true ->
  quantityAccepted c = true ->
  preparationFails w s e ->
  status (react (snd (mintNFT w c s))) = JsString.or_else (message e) "Mint failed" /\
  minting (react (snd (mintNFT w c s))) = false /\
  existsb is_mint_request (events_since s (snd (mintNFT w c s))) = false /\
  (requests (events_since s (snd (mintNFT w c s))) <= 2)%nat.
Proof.
  intros Heth Hq Hfail.
  unfold quantityAccepted in Hq. unfold preparationFails in Hfail.
  apply andb_prop in Hq as [Hq H4]. apply andb_prop in Hq as [Hq H3].
  apply andb_prop in Hq as [H1 H2].
  apply negb_true_iff in H1, H2, H3, H4.
  unfold mintNFT, getContract. rewrite Heth.
  cbn [negb]. cbv zeta. rewrite H1, H2, H3.
  unfold bind at 1. unfold console at 1. unfold emit at 1.
  rewrite H4.
  unfold bind at 1. unfold setMinting at 1. unfold update at 1.
  unfold bind at 1. unfold setStatus at 1. unfold update at 1.
  unfold finally, try_catch, bind, perform, ret, throw, mintFailed, bind, console, emit,
    setStatus, setMinting, update, requests.
  cbn [react trace clock Nat.add account minting totalSupply maxSupply mintPriceWei
       status mintQuantity userMintedCount contractMaxPerWallet] in *.
  destruct Hfail as [Hsig|[(Hsig & Haddr & ->)|(Hsig & Haddr & Hprice)]].
  - rewrite Hsig. cbn [fst snd react trace clock status minting].
    split; [reflexivity|]. split; [reflexivity|].
    split; [since; reflexivity|since; cbn; lia].
  - rewrite Hsig. cbn [fst snd react trace clock]. rewrite Haddr.
    cbn [fst snd react trace clock status minting message].
    split; [reflexivity|]. split; [reflexivity|].
    split; [since; reflexivity|since; cbn; lia].
  - rewrite Hsig. cbn [fst snd react trace clock]. rewrite Haddr.
    cbn [fst snd react trace clock]. rewrite Hprice.
    cbn [fst snd react trace clock status minting].
    split; [reflexivity|]. split; [reflexivity|].
    split; [since; reflexivity|since; cbn; lia].
Qed.

End Preparation.

(** X22. When [mintNFT] cannot get a signer, finds no contract address
    configured, or cannot read the price, it stops there: nothing is sent to
    the [mint] function (no dry run, no gas estimate, no transaction), at most
    two requests have been made, the status is the message of the error (the
    configuration message for a missing address; "Mint failed" for an error
    without message) and the minting flag is cleared. *)
Theorem mintNFT_preparation_failure
  (w : World) (c : State) (s : Store) (e : JsError) :
  ethereum w = true ->
  quantityAccepted c = true ->
  preparationFails w s e ->
  status (react (snd (mintNFT w c s))) = JsString.or_else (message e) "Mint failed" /\
  minting (react (snd (mintNFT w c s))) = false /\
  existsb is_mint_request (events_since s (snd (mintNFT w c s))) = false /\
  (requests (events_since s (snd (mintNFT w c s))) <= 2)%nat.
Proof. apply mintNFT_preparation. Qed.

Lemma mintNFT_preparation_failure_witness :
  status (react (snd (mintNFT (Sample.world Scenario.locked) Sample.connected
                        (Sample.fresh Sample.connected)))) = "wallet is locked" /\
  minting (react (snd (mintNFT (Sample.world Scenario.locked) Sample.connected
                         (Sample.fresh Sample.connected)))) = false.
Proof.
  assert (Hfail : preparationFails (Sample.world Scenario.locked)
                    (Sample.fresh Sample.connected)
                    (mkError (Some 4100) None (Some "wallet is locked")))
    by (left; reflexivity).
  destruct (@mintNFT_preparation_failure (Sample.world Scenario.locked) Sample.connected
              (Sample.fresh Sample.connected) _ eq_refl eq_refl Hfail) as (Hs & Hm & _).
  split; [exact Hs|exact Hm].
Defined.

(** ** Refreshing twice *)

Section Steady.

Variable w : World.
Hypothesis Hsteady : steady w.

Ltac settle :=
  repeat match goal with
         | |- context [answer w ?n ?r] =>
             lazymatch n with
             | 0%nat => fail
             | _ => rewrite (Hsteady n 0%nat r)
             end
         end.

Lemma refreshContractData_twice (acct : option string) (s : Store) :
  react (snd (refreshContractData w acct (snd (refreshContractData w acct s))))
  = react (snd (refreshContractData w acct s)).
Proof.
  open_store s. unfold refreshContractData, getContract.
  destruct (ethereum w); js_unfold; [|reflexivity].
  destruct (JsString.truthy_opt (CONTRACT_ADDRESS w)); js_unfold; [|reflexivity].
  settle.
  repeat (next_answer; js_unfold; settle; try reflexivity).
  destruct acct as [addr|]; js_unfold; settle.
  2:{ reflexivity. }
  destruct (JsString.truthy addr); js_unfold; settle.
  2:{ reflexivity. }
  repeat (next_answer; js_unfold; settle; try reflexivity).
Qed.

End Steady.

(** X23. Against a chain and a wallet that answer the same way each time,
    refreshing twice leaves the same state as refreshing once. *)
Theorem refreshContractData_idempotent (w : World) (acct : option string) (s : Store) :
  steady w ->
  react (snd (refreshContractData w acct (snd (refreshContractData w acct s))))
  = react (snd (refreshContractData w acct s)).
Proof. intros Hsteady. apply refreshContractData_twice. exact Hsteady. Qed.

Lemma refreshContractData_idempotent_witness :
  react (snd (refreshContractData (Sample.world Sample.plain721) (Some Sample.alice)
                (snd (refreshContractData (Sample.world Sample.plain721) (Some Sample.alice)
                        (Sample.fresh initialState)))))
  = react (snd (refreshContractData (Sample.world Sample.plain721) (Some Sample.alice)
                  (Sample.fresh initialState))).
Proof.
  assert (Hsteady : steady (Sample.world Sample.plain721))
    by (intros n m r; destruct r; reflexivity).
  exact (@refreshContractData_idempotent (Sample.world Sample.plain721) (Some Sample.alice)
           (Sample.fresh initialState) Hsteady).
Defined.

(** ** The page at rest *)

Section AtRest.

Variable w : World.

Ltac unlocked_setter :=
  try reflexivity;
  try (unfold keeps, unlocked; cbn [minting]; intros Hm; exact Hm).

Lemma handle_unlocked (a : Action) (s : Store) :
  unlocked (react s) -> unlocked (react (snd (handle w a s))).
Proof.
  pose proof (keeps_refl unlocked) as Hr. pose proof (@keeps_trans unlocked) as Ht.
  assert (Hrefresh : forall acct, within anyEvent (keeps unlocked) (refreshContractData w acct)).
  { intros acct. apply within_weaken with (okE := refreshEvent) (R := sessionKept).
    - reflexivity.
    - intros x y (_ & Hm & _) Hx. unfold unlocked in *. congruence.
    - apply refreshContractData_within. }
  assert (Hensure : within anyEvent (keeps unlocked) (ensureMonadNetwork w)).
  { apply within_weaken with (okE := networkEvent) (R := untouched).
    - reflexivity.
    - intros x y Hxy Hx. unfold untouched in Hxy. now subst y.
    - apply ensureMonadNetwork_within. }
  destruct a as [c|c|c|c accounts| | |value]; cbn [handle].
  - apply Hrefresh.
  - revert s. unfold connectWallet.
    assert (H : within anyEvent (keeps unlocked)
                  (if negb (ethereum w) then alert "Install MetaMask"
                   else try_catch
                          (ensureMonadNetwork w ;;
                           accounts <- perform w eth_requestAccounts ;;
                           setAccount (hd_error accounts) ;;
                           setStatus "Wallet connected" ;;
                           refreshContractData w (account c))
                          (fun e => console Error "" ;; setStatus "Failed to connect wallet")))
      by (footprint; unlocked_setter).
    intros s. exact (proj1 (H s)).
  - intros Hs. unfold unlocked in *. rewrite mintNFT_minting, Hs. reflexivity.
  - revert s.
    assert (H : within anyEvent (keeps unlocked) (onAccountsChanged w c accounts))
      by (unfold onAccountsChanged; footprint; unlocked_setter).
    intros s. exact (proj1 (H s)).
  - intros Hs. exact Hs.
  - intros Hs. exact Hs.
  - intros Hs. exact Hs.
Qed.

Lemma after_unlocked (actions : list Action) (s : Store) :
  unlocked (react s) -> unlocked (react (after w actions s)).
Proof.
  revert s. induction actions as [|a actions IH]; intros s Hs; [exact Hs|].
  cbn [after fold_left]. apply IH. apply handle_unlocked. exact Hs.
Qed.

End AtRest.

(** X24. At rest the mint button is never locked: after any sequence of
    page loads, wallet connections, mints, account changes and quantity
    edits, each handler having run to its end, the minting flag is false,
    whatever the wallet and the contract answered. *)
Theorem minting_is_false_at_rest (w : World) (actions : list Action) :
  minting (react (after w actions pageLoad)) = false.
Proof. apply after_unlocked. reflexivity. Qed.

(** ** One click, at most four transactions *)

Section Bounded.

Lemma quiet_counts (evs : list Event) :
  forallb quietEvent evs = true -> submissions evs = 0%nat /\ timeouts evs = [].
Proof.
  induction evs as [|e evs IH]; [split; reflexivity|].
  cbn [forallb]. intros H. apply andb_prop in H as [He Hevs].
  destruct (IH Hevs) as [IHs IHt]. unfold submissions in *.
  destruct e as [r|msg|l tag|ms|f]; cbn [quietEvent] in He; try discriminate He;
    cbn [filter is_submission timeouts]; try (split; assumption).
  destruct r; try discriminate He; cbn; split; assumption.
Qed.

Lemma quiet_bounded (A : Type) (m : M A) : within quietEvent anyChange m -> bounded m.
Proof.
  intros H s. destruct (H s) as [_ (evs & Htr & Hq)].
  destruct (quiet_counts _ Hq) as [Hs Ht].
  exists evs. split; [exact Htr|]. split; [lia|]. left. split; assumption.
Qed.

(** Quiet events before or after a bounded run keep it bounded. *)
Lemma bounded_after_quiet (s1 s2 s3 : Store) (pre evs : list Event) :
  trace s2 = (trace s1 ++ pre)%list ->
  forallb quietEvent pre = true ->
  trace s3 = (trace s2 ++ evs)%list ->
  (submissions evs <= 4)%nat /\
  ((submissions evs = 0%nat /\ timeouts evs = []) \/
   exists k, (k <= 3)%nat /\ submissions evs = S k /\
             timeouts evs = firstn k [500; 1000; 2000]) ->
  exists all,
    trace s3 = (trace s1 ++ all)%list /\
    (submissions all <= 4)%nat /\
    ((submissions all = 0%nat /\ timeouts all = []) \/
     exists k, (k <= 3)%nat /\ submissions all = S k /\
               timeouts all = firstn k [500; 1000; 2000]).
Proof.
  intros H12 Hq H23 Hb. destruct (quiet_counts _ Hq) as [Hs Ht].
  exists (pre ++ evs)%list. rewrite H23, H12, app_assoc, submissions_app, timeouts_app, Hs, Ht.
  split; [reflexivity|]. exact Hb.
Qed.

Lemma bounded_before_quiet (s1 s2 s3 : Store) (evs post : list Event) :
  trace s2 = (trace s1 ++ evs)%list ->
  (submissions evs <= 4)%nat /\
  ((submissions evs = 0%nat /\ timeouts evs = []) \/
   exists k, (k <= 3)%nat /\ submissions evs = S k /\
             timeouts evs = firstn k [500; 1000; 2000]) ->
  trace s3 = (trace s2 ++ post)%list ->
  forallb quietEvent post = true ->
  exists all,
    trace s3 = (trace s1 ++ all)%list /\
    (submissions all <= 4)%nat /\
    ((submissions all = 0%nat /\ timeouts all = []) \/
     exists k, (k <= 3)%nat /\ submissions all = S k /\
               timeouts all = firstn k [500; 1000; 2000]).
Proof.
  intros H12 Hb H23 Hq. destruct (quiet_counts _ Hq) as [Hs Ht].
  exists (evs ++ post)%list.
  rewrite H23, H12, app_assoc, submissions_app, timeouts_app, Hs, Ht, Nat.add_0_r, app_nil_r.
  split; [reflexivity|]. exact Hb.
Qed.

Lemma bounded_bind (A B : Type) (m : M A) (k : A -> M B) :
  within quietEvent anyChange m -> (forall a, bounded (k a)) -> bounded (bind m k).
Proof.
  intros Hm Hk s. unfold bind. destruct (Hm s) as [_ (pre & Hpre & Hq)].
  destruct (m s) as [[a|e] s1]; cbn [snd] in *.
  - destruct (Hk a s1) as (evs & Htr & Hb).
    eapply bounded_after_quiet; [exact Hpre|exact Hq|exact Htr|exact Hb].
  - destruct (quiet_counts _ Hq) as [Hs Ht].
    exists pre. split; [exact Hpre|]. split; [lia|]. left. split; assumption.
Qed.

Lemma bounded_try_catch (A : Type) (m : M A) (h : JsError -> M A) :
  bounded m -> (forall e, within quietEvent anyChange (h e)) -> bounded (try_catch m h).
Proof.
  intros Hm Hh s. unfold try_catch. destruct (Hm s) as (evs & Htr & Hb).
  destruct (m s) as [[a|e] s1]; cbn [snd] in *.
  - exists evs. split; [exact Htr|exact Hb].
  - destruct (Hh e s1) as [_ (post & Hpost & Hq)].
    eapply bounded_before_quiet; [exact Htr|exact Hb|exact Hpost|exact Hq].
Qed.

Lemma bounded_finally (A : Type) (m : M A) (f : M unit) :
  bounded m -> within quietEvent anyChange f -> bounded (finally m f).
Proof.
  intros Hm Hf s. unfold finally. destruct (Hm s) as (evs & Htr & Hb).
  destruct (m s) as [r s1]; cbn [snd] in *.
  destruct (Hf s1) as [_ (post & Hpost & Hq)].
  eapply bounded_before_quiet; [exact Htr|exact Hb|exact Hpost|exact Hq].
Qed.

Lemma attemptMint_bounded (w : World) (c : State) (totalPrice : Z) :
  bounded (attemptMint w c totalPrice 0).
Proof.
  intros s.
  destruct (@attemptMint_attempts w c totalPrice 0%nat s ltac:(lia))
    as (k & evs & Hk & Htr & Hs & Ht).
  exists evs. split; [exact Htr|]. split; [lia|].
  right. exists k. split; [lia|]. split; [exact Hs|].
  rewrite Ht. apply delays_of_attempts. lia.
Qed.

Lemma anyChange_refl (a : State) : anyChange a a.
Proof. exact I. Qed.

Lemma anyChange_trans (a b c : State) : anyChange a b -> anyChange b c -> anyChange a c.
Proof. intros _ _. exact I. Qed.

Lemma mintNFT_bounded (w : World) (c : State) : bounded (mintNFT w c).
Proof.
  pose proof anyChange_refl as Hr. pose proof anyChange_trans as Ht.
  unfold mintNFT.
  destruct (negb (ethereum w)); [apply quiet_bounded; footprint; reflexivity|].
  cbv zeta.
  destruct (remainingAllowance c <=? 0);
    [apply quiet_bounded; footprint; [reflexivity|exact I]|].
  destruct ((mintQuantity c <? 1) || (mintQuantity c >? remainingAllowance c));
    [apply quiet_bounded; footprint; reflexivity|].
  destruct (mintQuantity c >? remainingSupply c);
    [apply quiet_bounded; footprint; reflexivity|].
  apply bounded_bind; [footprint; reflexivity|intros _].
  destruct (userMintedCount c + mintQuantity c >? contractMaxPerWallet c);
    [apply quiet_bounded; footprint; reflexivity|].
  apply bounded_bind; [footprint; [reflexivity|exact I]|intros _].
  apply bounded_bind; [footprint; [reflexivity|exact I]|intros _].
  apply bounded_finally; [|footprint; [reflexivity|exact I]].
  apply bounded_try_catch; [|intros e; footprint; [reflexivity|reflexivity|exact I]].
  apply bounded_bind; [footprint; reflexivity|intros _].
  apply bounded_bind; [footprint|intros _].
  apply bounded_bind; [footprint; reflexivity|intros price].
  cbv zeta.
  apply bounded_bind; [|intros _; apply attemptMint_bounded].
  footprint; try reflexivity; exact I.
Qed.

End Bounded.

(** X25. One click never sends more than four transactions: whatever the
    wallet, the node and the contract answer, a run of [mintNFT] submits the
    mint transaction at most four times, and when it submits [k + 1] times it
    has waited exactly [k] times in all, for the first [k] of 500 ms, 1000 ms
    and 2000 ms; a run that submits nothing waits for nothing. *)
Theorem mintNFT_at_most_four_transactions (w : World) (c : State) (s : Store) :
  (submissions (events_since s (snd (mintNFT w c s))) <= 4)%nat /\
  ((submissions (events_since s (snd (mintNFT w c s))) = 0%nat /\
    timeouts (events_since s (snd (mintNFT w c s))) = []) \/
   exists k, (k <= 3)%nat /\
     submissions (events_since s (snd (mintNFT w c s))) = S k /\
     timeouts (events_since s (snd (mintNFT w c s))) = firstn k [500; 1000; 2000]).
Proof.
  destruct (mintNFT_bounded w c s) as (evs & Htr & Hb).
  rewrite (@events_since_app s _ evs Htr). exact Hb.
Qed.
